(** * Unity WebGL static file server: a model of [server.py]

    [UnityWebGLHandler] subclasses CPython's
    [http.server.SimpleHTTPRequestHandler] and overrides [end_headers],
    [guess_type], [do_GET] and [send_head].  The development embeds

    - the Python string and [posixpath] primitives the handler calls
      (module [Str], module [Posixpath]);
    - the parts of [http.server] (CPython 3.11) that the handler inherits
      (module [HttpServer]), written with open recursion so that an
      overridden method is the one the base class calls;
    - the four overridden methods of [server.py] (module [Server]);
    - the same handler from the bytes of the request line on (module
      [Wire]): the request parser, the version guard of
      [send_response_only], [send_header] and [end_headers] (nothing of
      the head is written while the request version is HTTP/0.9), files
      and directories the process may not read, paths the operating
      system rejects, symbolic links.

    The handler's effects (the header buffer, the output file, attribute
    assignment, a raised exception) are threaded through a small
    state-and-exception monad.

    Modules [HttpServer] and [Server] take for granted that the request
    line was parsed with a version other than HTTP/0.9, that there are no
    symbolic links and that what exists can be read; [respond_handle]
    shows that module [Wire] is the same handler where this holds.

    What both models take for granted:
    - a Python [str] is a Rocq string, one character per code point below
      256, so a request path is one that decodes to such code points;
    - paths are POSIX paths, and the file system does not change while a
      request is handled;
    - [copyfile] is one write of the whole file, and the client reads
      all that is written;
    - the library functions of [pylib] and [oslib] are arbitrary. *)

From Stdlib Require Import String Ascii List Bool ZArith NArith Lia.
From Stdlib Require Import DecimalString.
From Stdlib.Strings Require Import Byte.
Import ListNotations.

Local Open Scope string_scope.
Local Open Scope list_scope.

(** ** Python [str] methods *)

Module Str.

Definition chars : string -> list ascii := list_ascii_of_string.
Definition of_chars : list ascii -> string := string_of_list_ascii.

(** [starts s p]: the character list [p] is a prefix of [s]. *)
Fixpoint starts (s p : list ascii) {struct p} : bool :=
  match p, s with
  | [], _ => true
  | _ :: _, [] => false
  | c :: p', d :: s' => Ascii.eqb c d && starts s' p'
  end.

(** [s.startswith(p)] *)
Definition startswith (s p : string) : bool := starts (chars s) (chars p).

(** [s.endswith(suf)] *)
Definition endswith (s suf : string) : bool :=
  starts (rev (chars s)) (rev (chars suf)).

(** [c.lower()] for a code point below 256: [A-Z] and the Latin-1 capitals
    (U+00C0..U+00DE except the multiplication sign U+00D7) move up by 32. *)
Definition lower_char (c : ascii) : ascii :=
  let n := N_of_ascii c in
  if ((65 <=? n) && (n <=? 90))%N
     || ((192 <=? n) && (n <=? 222) && negb (n =? 215))%N
  then ascii_of_N (n + 32) else c.

(** [s.lower()] *)
Fixpoint lower (s : string) : string :=
  match s with
  | EmptyString => EmptyString
  | String c s' => String (lower_char c) (lower s')
  end.

(** [s.split(c, 1)[0]]: the part of [s] before the first [c]. *)
Fixpoint before (c : ascii) (s : string) : string :=
  match s with
  | EmptyString => EmptyString
  | String d s' => if Ascii.eqb d c then EmptyString else String d (before c s')
  end.

(** [s.split(c)] *)
Fixpoint split (c : ascii) (s : string) : list string :=
  match s with
  | EmptyString => [EmptyString]
  | String d s' =>
      if Ascii.eqb d c then EmptyString :: split c s'
      else match split c s' with
           | w :: ws => String d w :: ws
           | [] => [String d EmptyString]
           end
  end.

(** [sep.join(ws)] *)
Fixpoint join (sep : string) (ws : list string) : string :=
  match ws with
  | [] => EmptyString
  | [w] => w
  | w :: ws' => w ++ sep ++ join sep ws'
  end.

(** Characters [str.rstrip()] removes, among the code points below 256. *)
Definition is_space (c : ascii) : bool :=
  let n := N_of_ascii c in
  ((9 <=? n) && (n <=? 13) || (28 <=? n) && (n <=? 32)
   || (n =? 133) || (n =? 160))%N.

Fixpoint dropwhile {A} (f : A -> bool) (l : list A) : list A :=
  match l with
  | [] => []
  | x :: l' => if f x then dropwhile f l' else l
  end.

(** [s.rstrip()] *)
Definition rstrip (s : string) : string :=
  of_chars (rev (dropwhile is_space (rev (chars s)))).

(** [s.rstrip(c)] for a single character [c] *)
Definition rstrip_char (c : ascii) (s : string) : string :=
  of_chars (rev (dropwhile (Ascii.eqb c) (rev (chars s)))).

(** [sep * n] *)
Fixpoint repeat_str (sep : string) (n : nat) : string :=
  match n with
  | O => EmptyString
  | S n' => sep ++ repeat_str sep n'
  end.

(** [str(n)] for an integer [n] *)
Definition of_Z (n : Z) : string :=
  match n with
  | Z0 => "0"
  | Zpos p => NilEmpty.string_of_uint (Pos.to_uint p)
  | Zneg p => "-" ++ NilEmpty.string_of_uint (Pos.to_uint p)
  end.

(** Truth value of a [str]: non-empty. *)
Definition nonempty (s : string) : bool :=
  match s with EmptyString => false | _ => true end.

(** The loop of [s.split()]: [word] is the word read so far. *)
Fixpoint words_from (cs : list ascii) (word : string) : list string :=
  match cs with
  | [] => if nonempty word then [word] else []
  | c :: cs' =>
      if is_space c then
        if nonempty word then word :: words_from cs' "" else words_from cs' ""
      else words_from cs' (word ++ String c "")
  end.

(** [s.split()]: the words between runs of whitespace. *)
Definition split_whitespace (s : string) : list string :=
  words_from (chars s) "".

(** [s.rstrip(cs)] for a set of characters [cs] *)
Definition rstrip_chars (cs : list ascii) (s : string) : string :=
  of_chars
    (rev (dropwhile (fun c => existsb (Ascii.eqb c) cs) (rev (chars s)))).

(** [s.lstrip(c)] for a single character [c] *)
Definition lstrip_char (c : ascii) (s : string) : string :=
  of_chars (dropwhile (Ascii.eqb c) (chars s)).

(** [s.split(c, 1)[1]]: the part of [s] after the first [c]; [None] where
    the index raises [IndexError]. *)
Fixpoint after (c : ascii) (s : string) : option string :=
  match s with
  | EmptyString => None
  | String d s' => if Ascii.eqb d c then Some s' else after c s'
  end.

End Str.

(** ** [posixpath] *)

Module Posixpath.

Definition sep : string := "/".
Definition curdir : string := ".".
Definition pardir : string := "..".

(** One turn of the loop of [normpath] over the components. *)
Definition normpath_step (initial_slashes : nat) (new_comps : list string)
    (comp : string) : list string :=
  if String.eqb comp "" || String.eqb comp curdir then new_comps
  else if negb (String.eqb comp pardir)
          || (Nat.eqb initial_slashes 0 && Nat.eqb (length new_comps) 0)
          || (negb (Nat.eqb (length new_comps) 0)
              && String.eqb (last new_comps "") pardir)
       then new_comps ++ [comp]
       else if negb (Nat.eqb (length new_comps) 0) then removelast new_comps
            else new_comps.

(** [posixpath.normpath(path)] *)
Definition normpath (path : string) : string :=
  if String.eqb path "" then curdir
  else
    let initial_slashes :=
      if Str.startswith path sep
      then if Str.startswith path (Str.repeat_str sep 2)
              && negb (Str.startswith path (Str.repeat_str sep 3))
           then 2%nat else 1%nat
      else 0%nat in
    let comps := Str.split "/" path in
    let new_comps := fold_left (normpath_step initial_slashes) comps [] in
    let path := Str.join sep new_comps in
    let path := (Str.repeat_str sep initial_slashes ++ path)%string in
    if Str.nonempty path then path else curdir.

(** [posixpath.join(a, b)] *)
Definition join (a b : string) : string :=
  if Str.startswith b sep then b
  else if negb (Str.nonempty a) || Str.endswith a sep then (a ++ b)%string
  else (a ++ sep ++ b)%string.

(** [p[:p.rfind('/') + 1]]: [p] up to and including its last slash. *)
Definition upto_last_sep (p : string) : string :=
  Str.of_chars
    (rev (Str.dropwhile (fun c => negb (Ascii.eqb c "/")) (rev (Str.chars p)))).

(** [posixpath.dirname(p)] *)
Definition dirname (p : string) : string :=
  let head := upto_last_sep p in
  if Str.nonempty head
     && negb (String.eqb head (Str.repeat_str sep (String.length head)))
  then Str.rstrip_char "/" head else head.

End Posixpath.


(** ** The inherited request handler: [http.server] *)

Module HttpServer.

(** Functions of the Python library that the handler calls and that stay
    abstract here: no property below depends on what they compute. *)
Record pylib := {
  (** [urllib.parse.unquote(s, errors='surrogatepass')], with the fallback
      of [translate_path] on a decoding error *)
  unquote : string -> string;
  (** [urllib.parse.urlsplit(url).path] *)
  urlsplit_path : string -> string;
  (** [urlunsplit] of the split [url] with ['/'] appended to its path *)
  url_with_slash : string -> string;
  (** [SimpleHTTPRequestHandler.guess_type(path)]: [extensions_map], then
      [mimetypes], then ['application/octet-stream'] *)
  simple_guess_type : string -> string;
  (** [BaseHTTPRequestHandler.version_string()] *)
  version_string : string;
  (** [BaseHTTPRequestHandler.date_time_string(timestamp)]; [None] is now *)
  date_time_string : option Z -> string;
  (** [repr(s)] of a [str] *)
  repr : string -> string;
  (** [error_message_format % {code, message, explain}], both texts
      passed through [html.escape], encoded as UTF-8 *)
  error_page : Z -> string -> string -> list byte;
  (** the HTML page [list_directory] builds from the displayed path and
      the entries of the directory, each with [os.path.isdir] of it *)
  listing_page : string -> list (string * bool) -> list byte;
  (** [sys.getfilesystemencoding()] *)
  filesystemencoding : string
}.

(** What a path names.  A file has its bytes and its modification time in
    whole seconds; a directory has its entries and the size [os.stat]
    reports for it.  There are no symbolic links, and every file and
    directory is readable. *)
Inductive node :=
| File (data : list byte) (st_mtime : Z)
| Dir (entries : list string) (st_size : Z).

(** The file system as the process sees it: what a path string resolves
    to from the working directory, if anything. *)
Definition filesystem := string -> option node.

(** A path with a NUL character is no path for the operating system: on
    it [os.stat], [open] and [os.listdir] raise [ValueError], and the
    tests of [os.path] answer [False]. *)
Definition has_nul (p : string) : bool :=
  existsb (Ascii.eqb Ascii.zero) (Str.chars p).

(** What [os.stat] finds at a path. *)
Definition stat (fs : filesystem) (p : string) : option node :=
  if has_nul p then None else fs p.

(** A request as [parse_request] leaves it for an HTTP/1.x request line:
    [self.command], [self.path], and of [self.headers] the one thing
    [send_head] reads: [if_modified_since] is [Some t] when the request has
    an [If-Modified-Since] header and no [If-None-Match] header and the
    date parses to the UTC time [t] (seconds since the epoch). *)
Record request := {
  command : string;
  path : string;
  if_modified_since : option Z
}.

(** A line of the response head, as [send_response_only], [send_header]
    and [end_headers] append them to [_headers_buffer]. *)
Inductive line :=
| StatusLine (version : string) (code : Z) (message : string)
| HeaderLine (keyword value : string)
| EndOfHeaders.

(** One [write] to [self.wfile]. *)
Inductive chunk :=
| Head (ls : list line)
| Payload (bs : list byte).

(** The mutable part of the handler object [self]. *)
Record handler := {
  headers_buffer : list line;
  wfile : list chunk;
  close_connection : bool;
  (** attribute assigned by [UnityWebGLHandler.do_GET]; [None] before *)
  send_header_on_compressed : option (option string)
}.

Inductive exn := OSError | ValueError.

Inductive outcome (A : Type) :=
| Ret (a : A)
| Raise (e : exn).
Arguments Ret {A} a.
Arguments Raise {A} e.

(** A method body: it may change [self] and return or raise. *)
Definition M (A : Type) : Type := handler -> outcome A * handler.

Definition ret {A} (a : A) : M A := fun h => (Ret a, h).
Definition raise {A} (e : exn) : M A := fun h => (Raise e, h).
Definition bind {A B} (m : M A) (k : A -> M B) : M B :=
  fun h => match m h with
           | (Ret a, h') => k a h'
           | (Raise e, h') => (Raise e, h')
           end.
Definition modify (f : handler -> handler) : M unit := fun h => (Ret tt, f h).

Notation "x <- m ;; k" := (bind m (fun x => k))
  (at level 61, m at next level, right associativity).
Notation "m ;; k" := (bind m (fun _ => k))
  (at level 61, right associativity).

Definition buffer_append (l : line) : M unit :=
  modify (fun h => {| headers_buffer := headers_buffer h ++ [l];
                      wfile := wfile h;
                      close_connection := close_connection h;
                      send_header_on_compressed := send_header_on_compressed h |}).

Definition set_close_connection (b : bool) : M unit :=
  modify (fun h => {| headers_buffer := headers_buffer h;
                      wfile := wfile h;
                      close_connection := b;
                      send_header_on_compressed := send_header_on_compressed h |}).

(** [self.wfile.write(bs)] *)
Definition wfile_write (c : chunk) : M unit :=
  modify (fun h => {| headers_buffer := headers_buffer h;
                      wfile := wfile h ++ [c];
                      close_connection := close_connection h;
                      send_header_on_compressed := send_header_on_compressed h |}).

Definition protocol_version : string := "HTTP/1.0".

(** [BaseHTTPRequestHandler.responses], at the codes this handler sends. *)
Definition responses (code : Z) : option (string * string) :=
  match code with
  | 200 => Some ("OK", "Request fulfilled, document follows")
  | 301 => Some ("Moved Permanently", "Object moved permanently -- see URI list")
  | 304 => Some ("Not Modified", "Document has not changed since given time")
  | 404 => Some ("Not Found", "Nothing matches the given URI")
  | 501 => Some ("Not Implemented", "Server does not support this operation")
  | _ => None
  end%Z.

(** [flush_headers]: the buffer goes to [wfile] in one write. *)
Definition flush_headers : M unit :=
  fun h => (Ret tt, {| headers_buffer := [];
                       wfile := wfile h ++ [Head (headers_buffer h)];
                       close_connection := close_connection h;
                       send_header_on_compressed := send_header_on_compressed h |}).

(** [send_response_only(code, message)] *)
Definition send_response_only (code : Z) (message : option string) : M unit :=
  let message :=
    match message with
    | Some m => m
    | None => match responses code with Some (m, _) => m | None => "" end
    end in
  buffer_append (StatusLine protocol_version code message).

(** [send_header(keyword, value)] *)
Definition send_header (keyword value : string) : M unit :=
  buffer_append (HeaderLine keyword value) ;;
  if String.eqb (Str.lower keyword) "connection" then
    if String.eqb (Str.lower value) "close" then set_close_connection true
    else if String.eqb (Str.lower value) "keep-alive" then set_close_connection false
    else ret tt
  else ret tt.

(** [BaseHTTPRequestHandler.end_headers()] *)
Definition end_headers : M unit :=
  buffer_append EndOfHeaders ;; flush_headers.

Section BaseHTTPRequestHandler.

Variable L : pylib.
Variable rq : request.
(** the [end_headers] of the class of [self] *)
Variable self_end_headers : M unit.
(** the [do_*] attributes of the class of [self] *)
Variable self_do : list (string * M unit).

(** [send_response(code, message)] *)
Definition send_response (code : Z) (message : option string) : M unit :=
  send_response_only code message ;;
  send_header "Server" (version_string L) ;;
  send_header "Date" (date_time_string L None).

Definition error_content_type : string := "text/html;charset=utf-8".

(** [send_error(code, message, explain)] *)
Definition send_error (code : Z) (message explain : option string) : M unit :=
  let '(shortmsg, longmsg) :=
    match responses code with Some r => r | None => ("???", "???") end in
  let message := match message with Some m => m | None => shortmsg end in
  let explain := match explain with Some e => e | None => longmsg end in
  send_response code (Some message) ;;
  send_header "Connection" "close" ;;
  let body :=
    if ((200 <=? code) && negb ((code =? 204) || (code =? 205) || (code =? 304)))%Z
    then Some (error_page L code message explain) else None in
  match body with
  | Some b =>
      send_header "Content-Type" error_content_type ;;
      send_header "Content-Length" (Str.of_Z (Z.of_nat (length b)))
  | None => ret tt
  end ;;
  self_end_headers ;;
  match body with
  | Some ((_ :: _) as b) =>
      if negb (String.eqb (command rq) "HEAD") then wfile_write (Payload b)
      else ret tt
  | _ => ret tt
  end.

(** [getattr(self, mname)] for a [do_*] name *)
Fixpoint lookup_do (mname : string) (ms : list (string * M unit))
  : option (M unit) :=
  match ms with
  | [] => None
  | (n, m) :: ms' => if String.eqb n mname then Some m else lookup_do mname ms'
  end.

(** [handle_one_request()], from the dispatch on: the request line has
    been read and parsed. *)
Definition handle_one_request : M unit :=
  let mname := ("do_" ++ command rq)%string in
  match lookup_do mname self_do with
  | None =>
      send_error 501
        (Some ("Unsupported method (" ++ repr L (command rq) ++ ")")%string) None
  | Some method => method
  end.

End BaseHTTPRequestHandler.

Section SimpleHTTPRequestHandler.

Variable L : pylib.
Variable fs : filesystem.
(** [self.directory] *)
Variable directory : string.
Variable rq : request.
(** the [end_headers], [guess_type] and [send_head] of the class of [self] *)
Variable self_end_headers : M unit.
Variable self_guess_type : string -> string.
Variable self_send_head : M (option (list byte)).

(** [os.path.exists], [os.path.isdir], [os.path.isfile] *)
Definition exists_ (p : string) : bool :=
  match stat fs p with Some _ => true | None => false end.
Definition isdir (p : string) : bool :=
  match stat fs p with Some (Dir _ _) => true | _ => false end.
Definition isfile (p : string) : bool :=
  match stat fs p with Some (File _ _) => true | _ => false end.

(** [os.path.getsize(p)] *)
Definition getsize (p : string) : M Z :=
  if has_nul p then raise ValueError
  else
    match fs p with
    | Some (File data _) => ret (Z.of_nat (length data))
    | Some (Dir _ size) => ret size
    | None => raise OSError
    end.

(** [open(p, 'rb')]: the file object, here the bytes it will yield. *)
Definition open_rb (p : string) : M (list byte) :=
  if has_nul p then raise ValueError
  else
    match fs p with
    | Some (File data _) => ret data
    | _ => raise OSError
    end.

(** The test of the loop of [translate_path]: the component is skipped. *)
Definition ignored_word (word : string) : bool :=
  Str.nonempty (Posixpath.dirname word)
  || String.eqb word Posixpath.curdir || String.eqb word Posixpath.pardir.

(** [translate_path(path)] *)
Definition translate_path (path : string) : string :=
  let path := Str.before "?" path in
  let path := Str.before "#" path in
  let trailing_slash := Str.endswith (Str.rstrip path) "/" in
  let path := unquote L path in
  let path := Posixpath.normpath path in
  let words := Str.split "/" path in
  let words := filter Str.nonempty words in
  let path :=
    fold_left (fun path word =>
                 if ignored_word word then path else Posixpath.join path word)
              words directory in
  if trailing_slash then (path ++ "/")%string else path.

(** The comparison of [send_head] for a conditional request: the file was
    last modified at or before the time the header gives. *)
Definition not_modified (st_mtime : Z) : bool :=
  match if_modified_since rq with
  | Some ims => (st_mtime <=? ims)%Z
  | None => false
  end.

(** [list_directory(path)]; the [except OSError] around [os.listdir] does
    not catch the [ValueError] of a path with a NUL. *)
Definition list_directory (path : string) : M (option (list byte)) :=
  if has_nul path then raise ValueError else
  match fs path with
  | Some (Dir entries _) =>
      let displaypath := unquote L (HttpServer.path rq) in
      let enc := filesystemencoding L in
      let encoded :=
        listing_page L displaypath
          (map (fun name => (name, isdir (Posixpath.join path name))) entries) in
      send_response L 200 None ;;
      send_header "Content-type" ("text/html; charset=" ++ enc)%string ;;
      send_header "Content-Length" (Str.of_Z (Z.of_nat (length encoded))) ;;
      self_end_headers ;;
      ret (Some encoded)
  | _ =>
      send_error L rq self_end_headers 404
        (Some "No permission to list directory") None ;;
      ret None
  end.

(** The [for index in "index.html", "index.htm"] loop of [send_head]: the
    first index page that is a file. *)
Fixpoint find_index (path : string) (indexes : list string) : option string :=
  match indexes with
  | [] => None
  | index :: rest =>
      let index := Posixpath.join path index in
      if isfile index then Some index else find_index path rest
  end.

(** [send_head] from [ctype = self.guess_type(path)] to its end; the
    [except OSError] around [open] does not catch the [ValueError] of a
    path with a NUL. *)
Definition send_file_head (path : string) : M (option (list byte)) :=
  let ctype := self_guess_type path in
  if Str.endswith path "/" then
    send_error L rq self_end_headers 404 (Some "File not found") None ;;
    ret None
  else if has_nul path then raise ValueError
  else
    match fs path with
    | Some (File data st_mtime) =>
        if not_modified st_mtime then
          send_response L 304 None ;;
          self_end_headers ;;
          ret None
        else
          send_response L 200 None ;;
          send_header "Content-type" ctype ;;
          send_header "Content-Length" (Str.of_Z (Z.of_nat (length data))) ;;
          send_header "Last-Modified" (date_time_string L (Some st_mtime)) ;;
          self_end_headers ;;
          ret (Some data)
    | _ =>
        send_error L rq self_end_headers 404 (Some "File not found") None ;;
        ret None
    end.

(** [SimpleHTTPRequestHandler.send_head()] *)
Definition send_head : M (option (list byte)) :=
  let path := translate_path (HttpServer.path rq) in
  if isdir path then
    if negb (Str.endswith (urlsplit_path L (HttpServer.path rq)) "/") then
      send_response L 301 None ;;
      send_header "Location" (url_with_slash L (HttpServer.path rq)) ;;
      send_header "Content-Length" "0" ;;
      self_end_headers ;;
      ret None
    else
      match find_index path ["index.html"; "index.htm"] with
      | Some index => send_file_head index
      | None => list_directory path
      end
  else send_file_head path.

(** [SimpleHTTPRequestHandler.do_GET()] *)
Definition do_GET : M unit :=
  f <- self_send_head ;;
  match f with
  | Some data => wfile_write (Payload data)
  | None => ret tt
  end.

(** [SimpleHTTPRequestHandler.do_HEAD()] *)
Definition do_HEAD : M unit :=
  f <- self_send_head ;;
  ret tt.

End SimpleHTTPRequestHandler.

(** *** The response a client reads off the connection *)

Record response := {
  status : option Z;
  headers : list (string * string);
  body : list byte
}.

Definition lines_of (w : list chunk) : list line :=
  flat_map (fun c => match c with Head ls => ls | Payload _ => [] end) w.

Fixpoint first_status (ls : list line) : option Z :=
  match ls with
  | [] => None
  | StatusLine _ code _ :: _ => Some code
  | _ :: ls' => first_status ls'
  end.

(** The header fields up to the blank line. *)
Fixpoint header_fields (ls : list line) : list (string * string) :=
  match ls with
  | [] => []
  | EndOfHeaders :: _ => []
  | HeaderLine k v :: ls' => (k, v) :: header_fields ls'
  | StatusLine _ _ _ :: ls' => header_fields ls'
  end.

Definition payload_of (w : list chunk) : list byte :=
  flat_map (fun c => match c with Head _ => [] | Payload bs => bs end) w.

Definition response_of (h : handler) : response :=
  {| status := first_status (lines_of (wfile h));
     headers := header_fields (lines_of (wfile h));
     body := payload_of (wfile h) |}.

(** Header names are case-insensitive: all values of the field [name]. *)
Definition header_values (name : string) (r : response) : list string :=
  map snd
    (filter (fun kv => String.eqb (Str.lower (fst kv)) (Str.lower name))
            (headers r)).

(** [self] when [handle_one_request] reaches the dispatch. *)
Definition fresh_handler : handler :=
  {| headers_buffer := [];
     wfile := [];
     close_connection := true;
     send_header_on_compressed := None |}.

End HttpServer.

(** ** [server.py] *)

Module Server.

Import HttpServer.

Section UnityWebGLHandler.

Variable L : pylib.
Variable fs : filesystem.
(** the global [DIRECTORY], passed as [directory] by [__init__] *)
Variable DIRECTORY : string.
Variable rq : request.

(** [UnityWebGLHandler.end_headers] *)
Definition end_headers : M unit :=
  send_header "Access-Control-Allow-Origin" "*" ;;
  send_header "Access-Control-Allow-Methods" "GET, OPTIONS" ;;
  send_header "Access-Control-Allow-Headers" "Content-Type" ;;
  send_header "Cross-Origin-Opener-Policy" "same-origin" ;;
  send_header "Cross-Origin-Embedder-Policy" "require-corp" ;;
  HttpServer.end_headers.

(** The dict [unity_types], in insertion order. *)
Definition unity_types : list (string * string) :=
  [ (".unityweb", "application/octet-stream");
    (".wasm", "application/wasm");
    (".wasm.gz", "application/wasm");
    (".wasm.br", "application/wasm");
    (".js.gz", "application/javascript");
    (".js.br", "application/javascript");
    (".data", "application/octet-stream");
    (".data.gz", "application/octet-stream");
    (".data.br", "application/octet-stream");
    (".symbols.json", "application/json");
    (".symbols.json.gz", "application/json");
    (".symbols.json.br", "application/json") ].

(** The [for ext, mime_type in unity_types.items()] loop: the type of the
    first entry whose suffix ends the lowercased path. *)
Fixpoint first_match (items : list (string * string)) (path_lower : string)
  : option string :=
  match items with
  | [] => None
  | (ext, mime_type) :: rest =>
      if Str.endswith path_lower ext then Some mime_type
      else first_match rest path_lower
  end.

(** [UnityWebGLHandler.guess_type] *)
Definition guess_type (path : string) : string :=
  let path_lower := Str.lower path in
  match first_match unity_types path_lower with
  | Some mime_type => mime_type
  | None => simple_guess_type L path
  end.

Definition translate_path : string -> string :=
  HttpServer.translate_path L DIRECTORY.

Definition set_send_header_on_compressed (v : option string) : M unit :=
  modify (fun h => {| headers_buffer := headers_buffer h;
                      wfile := wfile h;
                      close_connection := close_connection h;
                      send_header_on_compressed := Some v |}).

(** The branch of [send_head] that serves a stored compressed file. *)
Definition send_compressed (path encoding : string) : M (option (list byte)) :=
  send_response L 200 None ;;
  send_header "Content-Encoding" encoding ;;
  send_header "Content-Type" (guess_type path) ;;
  size <- getsize fs path ;;
  send_header "Content-Length" (Str.of_Z size) ;;
  end_headers ;;
  f <- open_rb fs path ;;
  ret (Some f).

(** [UnityWebGLHandler.send_head], with [super().send_head()] tied back
    to the overridden [end_headers] and [guess_type]. *)
Definition send_head : M (option (list byte)) :=
  let path := translate_path (HttpServer.path rq) in
  if exists_ fs path then
    if Str.endswith path ".gz" then send_compressed path "gzip"
    else if Str.endswith path ".br" then send_compressed path "br"
    else HttpServer.send_head L fs DIRECTORY rq end_headers guess_type
  else HttpServer.send_head L fs DIRECTORY rq end_headers guess_type.

(** [UnityWebGLHandler.do_GET] *)
Definition do_GET : M unit :=
  let path := translate_path (HttpServer.path rq) in
  (if Str.endswith path ".gz" then set_send_header_on_compressed (Some "gzip")
   else if Str.endswith path ".br" then set_send_header_on_compressed (Some "br")
   else set_send_header_on_compressed None) ;;
  HttpServer.do_GET send_head.

(** The [do_*] methods a [UnityWebGLHandler] has: its own [do_GET] and the
    inherited [do_HEAD]. *)
Definition do_methods : list (string * M unit) :=
  [ ("do_GET", do_GET); ("do_HEAD", HttpServer.do_HEAD send_head) ].

(** One request through the handler: what the client receives. *)
Definition handle : response :=
  response_of (snd (handle_one_request L rq end_headers do_methods fresh_handler)).

End UnityWebGLHandler.

End Server.

(** ** A concrete library and file system to run the handler on *)

Module Sample.

Import HttpServer.

(** The library on request paths without percent escapes, query or
    fragment, where [unquote] and [urlsplit] leave the path as it is. *)
Definition lib : pylib :=
  {| unquote := fun s => s;
     urlsplit_path := fun s => s;
     url_with_slash := fun s => (s ++ "/")%string;
     simple_guess_type := fun p =>
       if Str.endswith (Str.lower p) ".html" then "text/html"
       else "application/octet-stream";
     version_string := "SimpleHTTP/0.6 Python/3.11.2";
     date_time_string := fun _ => "Thu, 01 Jan 1970 00:00:00 GMT";
     repr := fun s => ("'" ++ s ++ "'")%string;
     error_page := fun _ message _ => map byte_of_ascii (Str.chars message);
     listing_page := fun displaypath _ => map byte_of_ascii (Str.chars displaypath);
     filesystemencoding := "utf-8" |}.

Definition bytes (s : string) : list byte := map byte_of_ascii (Str.chars s).

Definition assets : list string :=
  ["index.html"; "x.js.gz"; "x.symbols.json.br"; "X.WASM.GZ"; "x.wasm"].

(** A build directory with a few assets, and a file outside of it. *)
Definition disk : filesystem := fun p =>
  if String.eqb p "Build" then Some (Dir assets 4096)
  else if String.eqb p "Build/" then Some (Dir assets 4096)
  else if String.eqb p "Build/index.html"
       then Some (File (bytes "<html></html>") 1000)
  else if String.eqb p "Build/x.js.gz"
       then Some (File (bytes "gzipped script") 1000)
  else if String.eqb p "Build/x.symbols.json.br"
       then Some (File (bytes "brotli symbols") 1000)
  else if String.eqb p "Build/X.WASM.GZ"
       then Some (File (bytes "gzipped module") 1000)
  else if String.eqb p "Build/x.wasm" then Some (File (bytes "module") 1000)
  else if String.eqb p "etc/passwd" then Some (File (bytes "root:x:0:0") 1000)
  else None.

Definition get (path : string) : request :=
  {| command := "GET"; path := path; if_modified_since := None |}.

(** The same disk with other contents in the files outside [Build]. *)
Definition other_disk : filesystem := fun p =>
  if String.eqb p "etc/passwd" then Some (File (bytes "daemon:x:1:1") 2000)
  else if String.eqb p "../etc/passwd" then Some (File (bytes "secret") 2000)
  else if String.eqb p "/etc/passwd" then Some (File (bytes "secret") 2000)
  else disk p.

End Sample.

(** ** Reference definitions the properties are stated with *)

Module Reference.

Import HttpServer.

(** The five headers of the response-headers contract. *)
Definition fixed_headers : list (string * string) :=
  [ ("Access-Control-Allow-Origin", "*");
    ("Access-Control-Allow-Methods", "GET, OPTIONS");
    ("Access-Control-Allow-Headers", "Content-Type");
    ("Cross-Origin-Opener-Policy", "same-origin");
    ("Cross-Origin-Embedder-Policy", "require-corp") ].

(** Longest-suffix matching, as the specification words it: among the
    entries whose suffix ends [s], the one with the longest suffix (the
    earliest of them in the table when two are equally long). *)
Fixpoint longest_match (items : list (string * string)) (s : string)
  : option (string * string) :=
  match items with
  | [] => None
  | (ext, mime_type) :: rest =>
      let best := longest_match rest s in
      if Str.endswith s ext then
        match best with
        | Some (ext', _) =>
            if (String.length ext <? String.length ext')%nat then best
            else Some (ext, mime_type)
        | None => Some (ext, mime_type)
        end
      else best
  end.

(** [guess_type] with the table consulted longest suffix first. *)
Definition guess_type_longest (L : pylib) (path : string) : string :=
  match longest_match Server.unity_types (Str.lower path) with
  | Some (_, mime_type) => mime_type
  | None => simple_guess_type L path
  end.

(** No entry of the table ends with the suffix of a different entry. *)
Definition suffix_free (items : list (string * string)) : bool :=
  forallb (fun x =>
    forallb (fun y =>
      implb (Str.endswith (fst x) (fst y)) (String.eqb (fst x) (fst y)))
      items) items.

(** A plain file or directory name: not empty, without a slash, and
    neither [.] nor [..]. *)
Definition simple_name (w : string) : bool :=
  Str.nonempty w && negb (existsb (Ascii.eqb "/") (Str.chars w))
  && negb (String.eqb w ".") && negb (String.eqb w "..").

(** The paths inside the root [D]: [D] itself, and from a path inside,
    the path of a plain name below it and the path with a slash after it. *)
Inductive inside (D : string) : string -> Prop :=
| inside_root : inside D D
| inside_join (p w : string) :
    inside D p -> simple_name w = true -> inside D (Posixpath.join p w)
| inside_slash (p : string) :
    inside D p -> inside D (p ++ "/")%string.

(** What [os.listdir] guarantees: the entries of a directory are plain
    names. *)
Definition listing_wf (fs : filesystem) : Prop :=
  forall p es sz, fs p = Some (Dir es sz) -> forallb simple_name es = true.

(** Resolution as the specification words it: the request path appended
    to the root, with [..] segments normalized away. *)
Definition plain_resolve (D path : string) : string :=
  Posixpath.normpath (D ++ "/" ++ path)%string.

(** The plainly resolved path is neither the root nor below it. *)
Definition resolves_outside (D path : string) : bool :=
  let root := Posixpath.normpath D in
  let r := plain_resolve D path in
  negb (String.eqb r root || Str.startswith r (root ++ "/")%string).

(** A response with the two headers of [send_response] first and the
    five fixed headers last. *)
Definition reply (L : pylib) (code : Z) (hs : list (string * string))
    (body : list byte) : response :=
  {| status := Some code;
     headers := [("Server", version_string L); ("Date", date_time_string L None)]
                ++ hs ++ fixed_headers;
     body := body |}.

(** The names of the fields a branch adds between [Date] and the five
    fixed headers. *)
Definition branch_fields : list string :=
  [ "Connection"; "Content-Type"; "Content-Length"; "Location";
    "Content-type"; "Last-Modified"; "Content-Encoding" ].

Definition branch_headers (hs : list (string * string)) : Prop :=
  Forall (fun kv => In (fst kv) branch_fields) hs.

(** A [reply] with one of the five status codes of the handler and,
    between the two leading and the five fixed headers, only fields of the
    branch. *)
Definition shaped (L : pylib) (r : response) : Prop :=
  exists code hs b,
    r = reply L code hs b
    /\ In code [200; 301; 304; 404; 501]%Z
    /\ branch_headers hs.

(** *** The handler as a decision tree

    The response to a request, read off the tests the handler makes, in
    the order it makes them; [handle_answer] below proves that this is
    what the handler writes. *)

Section Answer.

Variable L : pylib.
Variable fs : filesystem.
Variable D : string.
Variable rq : request.

(** The body reaches the client for [GET]; [HEAD] closes the file. *)
Definition served (with_body : bool) (data : list byte) : list byte :=
  if with_body then data else [].

Definition error_answer (with_body : bool) (code : Z) (message explain : string)
  : response :=
  let page := error_page L code message explain in
  reply L code
    [ ("Connection", "close");
      ("Content-Type", "text/html;charset=utf-8");
      ("Content-Length", Str.of_Z (Z.of_nat (length page))) ]
    (served with_body page).

Definition not_found (with_body : bool) (message : string) : response :=
  error_answer with_body 404 message "Nothing matches the given URI".

(** Nothing is written: the handler raised before any head was out. *)
Definition no_response : response :=
  {| status := None; headers := []; body := [] |}.

(** A path that is not a directory, or an index page. *)
Definition file_answer (with_body : bool) (q : string) : response :=
  if Str.endswith q "/" then not_found with_body "File not found"
  else if has_nul q then no_response
  else
    match fs q with
    | Some (File data st_mtime) =>
        if not_modified rq st_mtime then reply L 304 [] []
        else
          reply L 200
            [ ("Content-type", Server.guess_type L q);
              ("Content-Length", Str.of_Z (Z.of_nat (length data)));
              ("Last-Modified", date_time_string L (Some st_mtime)) ]
            (served with_body data)
    | _ => not_found with_body "File not found"
    end.

Definition listing_answer (with_body : bool) (q : string) : response :=
  if has_nul q then no_response else
  match fs q with
  | Some (Dir entries _) =>
      let encoded :=
        listing_page L (unquote L (path rq))
          (map (fun name => (name, isdir fs (Posixpath.join q name))) entries) in
      reply L 200
        [ ("Content-type", ("text/html; charset=" ++ filesystemencoding L)%string);
          ("Content-Length", Str.of_Z (Z.of_nat (length encoded))) ]
        (served with_body encoded)
  | _ => not_found with_body "No permission to list directory"
  end.

(** The inherited [send_head]. *)
Definition plain_answer (with_body : bool) : response :=
  let p := HttpServer.translate_path L D (path rq) in
  if isdir fs p then
    if negb (Str.endswith (urlsplit_path L (path rq)) "/") then
      reply L 301
        [ ("Location", url_with_slash L (path rq)); ("Content-Length", "0") ] []
    else
      match find_index fs p ["index.html"; "index.htm"] with
      | Some index => file_answer with_body index
      | None => listing_answer with_body p
      end
  else file_answer with_body p.

(** The branch for a stored compressed file; on a directory [open]
    raises once the head is out. *)
Definition compressed_answer (with_body : bool) (n : node) (encoding : string)
  : response :=
  let p := HttpServer.translate_path L D (path rq) in
  match n with
  | File data _ =>
      reply L 200
        [ ("Content-Encoding", encoding);
          ("Content-Type", Server.guess_type L p);
          ("Content-Length", Str.of_Z (Z.of_nat (length data))) ]
        (served with_body data)
  | Dir _ size =>
      reply L 200
        [ ("Content-Encoding", encoding);
          ("Content-Type", Server.guess_type L p);
          ("Content-Length", Str.of_Z size) ]
        []
  end.

(** The overridden [send_head], and the body for [GET]. *)
Definition head_answer (with_body : bool) : response :=
  let p := HttpServer.translate_path L D (path rq) in
  match stat fs p with
  | Some n =>
      if Str.endswith p ".gz" then compressed_answer with_body n "gzip"
      else if Str.endswith p ".br" then compressed_answer with_body n "br"
      else plain_answer with_body
  | None => plain_answer with_body
  end.

Definition answer : response :=
  if String.eqb (command rq) "GET" then head_answer true
  else if String.eqb (command rq) "HEAD" then head_answer false
  else error_answer true 501
         ("Unsupported method (" ++ repr L (command rq) ++ ")")%string
         "Server does not support this operation".

End Answer.

End Reference.

(** ** [main]: the command line *)

Module Main.

(** The globals of [server.py] before [main] runs. *)
Definition PORT : Z := 8000.
Definition DIRECTORY : string := "Build".

Section Arguments.

(** [int(s)] of a [str]: the number, or [None] where it raises
    [ValueError]. *)
Variable int : string -> option Z.

(** The argument handling of [main]: the globals [PORT] and [DIRECTORY]
    after it, for [sys.argv]. *)
Definition parse_args (argv : list string) : Z * string :=
  let '(port, directory) :=
    match nth_error argv 1 with
    | Some arg =>
        match int arg with
        | Some n => (n, DIRECTORY)
        | None => (PORT, arg)
        end
    | None => (PORT, DIRECTORY)
    end in
  let directory :=
    match nth_error argv 2 with
    | Some arg => arg
    | None => directory
    end in
  (port, directory).

End Arguments.

End Main.

(** ** The handler run to its end *)

Module Run.

Import HttpServer.

Section Run.

Variable L : pylib.
Variable fs : filesystem.
Variable D : string.
Variable rq : request.

(** How [handle_one_request] ends, and [self] at that point. *)
Definition outcome_of : outcome unit :=
  fst (handle_one_request L rq Server.end_headers
         (Server.do_methods L fs D rq) fresh_handler).

Definition final_state : handler :=
  snd (handle_one_request L rq Server.end_headers
         (Server.do_methods L fs D rq) fresh_handler).

(** The inherited [do_GET] on the overridden [send_head], without the
    assignments [UnityWebGLHandler.do_GET] makes first. *)
Definition inherited_get : response :=
  response_of (snd (HttpServer.do_GET (Server.send_head L fs D rq) fresh_handler)).

End Run.

(** The translated path is a directory whose name ends like a stored
    compressed file. *)
Definition compressed_directory (L : pylib) (fs : filesystem) (D : string)
    (rq : request) : bool :=
  let p := Server.translate_path L D (path rq) in
  match stat fs p with
  | Some (Dir _ _) => Str.endswith p ".gz" || Str.endswith p ".br"
  | _ => false
  end.

End Run.

(** ** A second sample disk: directories *)

Module Site.

Import HttpServer.

Definition root_entries : list string := ["assets"; "old.gz"; "index.html"].

(** A build directory with an index page, a directory of assets without
    one, and a directory named like a compressed file. *)
Definition disk : filesystem := fun p =>
  if String.eqb p "Build" then Some (Dir root_entries 4096)
  else if String.eqb p "Build/" then Some (Dir root_entries 4096)
  else if String.eqb p "Build/index.html"
       then Some (File (Sample.bytes "<html></html>") 1000)
  else if String.eqb p "Build/assets" then Some (Dir ["logo.png"] 4096)
  else if String.eqb p "Build/assets/" then Some (Dir ["logo.png"] 4096)
  else if String.eqb p "Build/assets/logo.png"
       then Some (File (Sample.bytes "PNG") 1000)
  else if String.eqb p "Build/old.gz" then Some (Dir [] 512)
  else None.

End Site.

(** ** The handler on the wire *)

Module Wire.

Import HttpServer.

(** [datetime.tzinfo] of a parsed date, as [send_head] tells them apart:
    [None], the object [timezone.utc], anything else. *)
Inductive tzinfo := NoZone | UTC | OtherZone.

(** More of the Python library, abstract as [pylib] is. *)
Record oslib := {
  (** [int(s)] of a [str]: the number, or [None] where it raises
      [ValueError] *)
  int : string -> option Z;
  (** [email.utils.parsedate_to_datetime(s)]: the zone of the result and
      its date and time read as UTC, in seconds since the epoch; [None]
      where it raises *)
  parsedate_to_datetime : string -> option (tzinfo * Z);
  (** [os.fsencode(p)] does not raise [UnicodeEncodeError] *)
  fsencodable : string -> bool;
  (** the HTML page [list_directory] builds from the displayed path and
      the entries of the directory, each with [os.path.isdir] and
      [os.path.islink] of it, encoded in the file-system encoding; [None]
      where [encode] raises [UnicodeEncodeError] *)
  directory_page : string -> list (string * bool * bool) -> option (list byte)
}.

(** What the handler reads of [self.headers]. *)
Record message := {
  (** [headers.get('Connection', "")] *)
  Connection : string;
  (** [headers.get('Expect', "")] *)
  Expect : string;
  (** [headers["If-Modified-Since"]], when the header is there *)
  If_Modified_Since : option string;
  (** ["If-None-Match" in headers] *)
  If_None_Match : bool
}.

(** What [http.client.parse_headers] makes of the lines after the request
    line: it raises [LineTooLong] or another [HTTPException], each with its
    text, or returns the message. *)
Inductive header_lines :=
| LineTooLong (err : string)
| HTTPException (err : string)
| Headers (m : message).

(** What arrives on the connection for one request: the line
    [rfile.readline(65537)] returns, decoded as ISO-8859-1, and the lines
    after it. *)
Record incoming := {
  raw_requestline : string;
  header_part : header_lines
}.

(** The attributes [parse_request] sets on success. *)
Record request := {
  command : string;
  path : string;
  request_version : string;
  headers : message
}.

Definition default_request_version : string := "HTTP/0.9".

(** [BaseHTTPRequestHandler.responses], at the codes the server sends. *)
Definition responses (code : Z) : option (string * string) :=
  match code with
  | 100 => Some ("Continue", "Request received, please continue")
  | 200 => Some ("OK", "Request fulfilled, document follows")
  | 301 => Some ("Moved Permanently", "Object moved permanently -- see URI list")
  | 304 => Some ("Not Modified", "Document has not changed since given time")
  | 400 => Some ("Bad Request", "Bad request syntax or unsupported method")
  | 404 => Some ("Not Found", "Nothing matches the given URI")
  | 414 => Some ("Request-URI Too Long", "URI is too long")
  | 431 => Some ("Request Header Fields Too Large",
                 "The server is unwilling to process the request because its header fields are too large")
  | 501 => Some ("Not Implemented", "Server does not support this operation")
  | 505 => Some ("HTTP Version Not Supported", "Cannot fulfill request")
  | _ => None
  end%Z.

(** [try: m except OSError: ...]: [None] stands for the handled
    [OSError]; a [ValueError] passes through. *)
Definition except_OSError {A} (m : M A) : M (option A) :=
  fun h => match m h with
           | (Ret a, h') => (Ret (Some a), h')
           | (Raise OSError, h') => (Ret None, h')
           | (Raise e, h') => (Raise e, h')
           end.

(** [send_response_only(code, message)] *)
Definition send_response_only (request_version : string) (code : Z)
    (message : option string) : M unit :=
  if negb (String.eqb request_version "HTTP/0.9") then
    let message :=
      match message with
      | Some m => m
      | None => match responses code with Some (m, _) => m | None => "" end
      end in
    buffer_append (StatusLine protocol_version code message)
  else ret tt.

(** [send_header(keyword, value)] *)
Definition send_header (request_version : string) (keyword value : string)
  : M unit :=
  (if negb (String.eqb request_version "HTTP/0.9")
   then buffer_append (HeaderLine keyword value) else ret tt) ;;
  if String.eqb (Str.lower keyword) "connection" then
    if String.eqb (Str.lower value) "close" then set_close_connection true
    else if String.eqb (Str.lower value) "keep-alive" then set_close_connection false
    else ret tt
  else ret tt.

(** [BaseHTTPRequestHandler.end_headers()] *)
Definition base_end_headers (request_version : string) : M unit :=
  if negb (String.eqb request_version "HTTP/0.9")
  then buffer_append EndOfHeaders ;; flush_headers
  else ret tt.

(** [UnityWebGLHandler.end_headers] *)
Definition end_headers (request_version : string) : M unit :=
  send_header request_version "Access-Control-Allow-Origin" "*" ;;
  send_header request_version "Access-Control-Allow-Methods" "GET, OPTIONS" ;;
  send_header request_version "Access-Control-Allow-Headers" "Content-Type" ;;
  send_header request_version "Cross-Origin-Opener-Policy" "same-origin" ;;
  send_header request_version "Cross-Origin-Embedder-Policy" "require-corp" ;;
  base_end_headers request_version.

Section Handler.

Variable L : pylib.
Variable O : oslib.
(** what [os.stat] finds at a path (it follows symbolic links) *)
Variable fs : filesystem.
(** the process may open the file, or list the directory, at the path *)
Variable readable : string -> bool.
(** the path itself is a symbolic link *)
Variable link : string -> bool.
Variable DIRECTORY : string.

(** [send_response(code, message)] *)
Definition send_response (request_version : string) (code : Z)
    (message : option string) : M unit :=
  send_response_only request_version code message ;;
  send_header request_version "Server" (version_string L) ;;
  send_header request_version "Date" (date_time_string L None).

(** [send_error(code, message, explain)]; [command] is [self.command],
    [None] until [parse_request] has assigned it. *)
Definition send_error (request_version : string) (command : option string)
    (code : Z) (message explain : option string) : M unit :=
  let '(shortmsg, longmsg) :=
    match responses code with Some r => r | None => ("???", "???") end in
  let message := match message with Some m => m | None => shortmsg end in
  let explain := match explain with Some e => e | None => longmsg end in
  send_response request_version code (Some message) ;;
  send_header request_version "Connection" "close" ;;
  let body :=
    if ((200 <=? code) && negb ((code =? 204) || (code =? 205) || (code =? 304)))%Z
    then Some (error_page L code message explain) else None in
  match body with
  | Some b =>
      send_header request_version "Content-Type" error_content_type ;;
      send_header request_version "Content-Length" (Str.of_Z (Z.of_nat (length b)))
  | None => ret tt
  end ;;
  end_headers request_version ;;
  match body with
  | Some ((_ :: _) as b) =>
      if negb (match command with
               | Some c => String.eqb c "HEAD"
               | None => false
               end)
      then wfile_write (Payload b)
      else ret tt
  | _ => ret tt
  end.

(** *** The operating system *)

(** A path the operating system does not take: [os.stat], [open] and
    [os.listdir] raise [ValueError] on it (an embedded NUL, or a
    [UnicodeEncodeError] of [os.fsencode]), and the tests of [os.path]
    answer [False]. *)
Definition rejected (p : string) : bool :=
  has_nul p || negb (fsencodable O p).

(** [os.stat(p)], where it does not raise *)
Definition stat (p : string) : option node :=
  if rejected p then None else fs p.

(** [os.path.exists], [os.path.isdir], [os.path.isfile], [os.path.islink] *)
Definition exists_ (p : string) : bool :=
  match stat p with Some _ => true | None => false end.
Definition isdir (p : string) : bool :=
  match stat p with Some (Dir _ _) => true | _ => false end.
Definition isfile (p : string) : bool :=
  match stat p with Some (File _ _) => true | _ => false end.
Definition islink (p : string) : bool :=
  if rejected p then false else link p.

(** [os.path.getsize(p)] *)
Definition getsize (p : string) : M Z :=
  if rejected p then raise ValueError
  else
    match fs p with
    | Some (File data _) => ret (Z.of_nat (length data))
    | Some (Dir _ size) => ret size
    | None => raise OSError
    end.

(** [open(p, 'rb')]: the file object, here the bytes it will yield and
    the modification time [os.fstat] reports for it. *)
Definition open_rb (p : string) : M (list byte * Z) :=
  if rejected p then raise ValueError
  else
    match fs p with
    | Some (File data st_mtime) =>
        if readable p then ret (data, st_mtime) else raise OSError
    | _ => raise OSError
    end.

(** [os.listdir(p)] *)
Definition listdir (p : string) : M (list string) :=
  if rejected p then raise ValueError
  else
    match fs p with
    | Some (Dir entries _) =>
        if readable p then ret entries else raise OSError
    | _ => raise OSError
    end.

(** *** [SimpleHTTPRequestHandler] and [UnityWebGLHandler] *)

Variable rq : request.

Definition translate_path : string -> string :=
  HttpServer.translate_path L DIRECTORY.

(** The comparison of [send_head] for a conditional request: there is an
    [If-Modified-Since] header and no [If-None-Match] header, the date
    parses, its zone is [None] or [timezone.utc], and the file was last
    modified at or before it. *)
Definition not_modified (st_mtime : Z) : bool :=
  match If_Modified_Since (headers rq) with
  | Some value =>
      if negb (If_None_Match (headers rq)) then
        match parsedate_to_datetime O value with
        | Some (NoZone, ims) => (st_mtime <=? ims)%Z
        | Some (UTC, ims) => (st_mtime <=? ims)%Z
        | Some (OtherZone, _) => false
        | None => false
        end
      else false
  | None => false
  end.

(** [list_directory(path)]; the page is encoded before anything is
    sent, and a [UnicodeEncodeError] is a [ValueError]. *)
Definition list_directory (path : string) : M (option (list byte)) :=
  list <- except_OSError (listdir path) ;;
  match list with
  | None =>
      send_error (request_version rq) (Some (command rq)) 404
        (Some "No permission to list directory") None ;;
      ret None
  | Some list =>
      let displaypath := unquote L (Wire.path rq) in
      let enc := filesystemencoding L in
      match directory_page O displaypath
              (map (fun name =>
                      let fullname := Posixpath.join path name in
                      (name, isdir fullname, islink fullname)) list) with
      | None => raise ValueError
      | Some encoded =>
          send_response (request_version rq) 200 None ;;
          send_header (request_version rq) "Content-type"
            ("text/html; charset=" ++ enc)%string ;;
          send_header (request_version rq) "Content-Length"
            (Str.of_Z (Z.of_nat (length encoded))) ;;
          end_headers (request_version rq) ;;
          ret (Some encoded)
      end
  end.

(** The [for index in "index.html", "index.htm"] loop of [send_head]. *)
Fixpoint find_index (path : string) (indexes : list string) : option string :=
  match indexes with
  | [] => None
  | index :: rest =>
      let index := Posixpath.join path index in
      if isfile index then Some index else find_index path rest
  end.

(** [SimpleHTTPRequestHandler.send_head] from
    [ctype = self.guess_type(path)] to its end. *)
Definition send_file_head (path : string) : M (option (list byte)) :=
  let ctype := Server.guess_type L path in
  if Str.endswith path "/" then
    send_error (request_version rq) (Some (command rq)) 404
      (Some "File not found") None ;;
    ret None
  else
    f <- except_OSError (open_rb path) ;;
    match f with
    | None =>
        send_error (request_version rq) (Some (command rq)) 404
          (Some "File not found") None ;;
        ret None
    | Some (data, st_mtime) =>
        if not_modified st_mtime then
          send_response (request_version rq) 304 None ;;
          end_headers (request_version rq) ;;
          ret None
        else
          send_response (request_version rq) 200 None ;;
          send_header (request_version rq) "Content-type" ctype ;;
          send_header (request_version rq) "Content-Length"
            (Str.of_Z (Z.of_nat (length data))) ;;
          send_header (request_version rq) "Last-Modified"
            (date_time_string L (Some st_mtime)) ;;
          end_headers (request_version rq) ;;
          ret (Some data)
    end.

(** [SimpleHTTPRequestHandler.send_head()] *)
Definition base_send_head : M (option (list byte)) :=
  let path := translate_path (Wire.path rq) in
  if isdir path then
    if negb (Str.endswith (urlsplit_path L (Wire.path rq)) "/") then
      send_response (request_version rq) 301 None ;;
      send_header (request_version rq) "Location" (url_with_slash L (Wire.path rq)) ;;
      send_header (request_version rq) "Content-Length" "0" ;;
      end_headers (request_version rq) ;;
      ret None
    else
      match find_index path ["index.html"; "index.htm"] with
      | Some index => send_file_head index
      | None => list_directory path
      end
  else send_file_head path.

(** The branch of [UnityWebGLHandler.send_head] for a stored compressed
    file. *)
Definition send_compressed (path encoding : string) : M (option (list byte)) :=
  send_response (request_version rq) 200 None ;;
  send_header (request_version rq) "Content-Encoding" encoding ;;
  send_header (request_version rq) "Content-Type" (Server.guess_type L path) ;;
  size <- getsize path ;;
  send_header (request_version rq) "Content-Length" (Str.of_Z size) ;;
  end_headers (request_version rq) ;;
  f <- open_rb path ;;
  ret (Some (fst f)).

(** [UnityWebGLHandler.send_head] *)
Definition send_head : M (option (list byte)) :=
  let path := translate_path (Wire.path rq) in
  if exists_ path then
    if Str.endswith path ".gz" then send_compressed path "gzip"
    else if Str.endswith path ".br" then send_compressed path "br"
    else base_send_head
  else base_send_head.

(** [UnityWebGLHandler.do_GET]; [copyfile] is one write here. *)
Definition do_GET : M unit :=
  let path := translate_path (Wire.path rq) in
  (if Str.endswith path ".gz"
   then Server.set_send_header_on_compressed (Some "gzip")
   else if Str.endswith path ".br"
        then Server.set_send_header_on_compressed (Some "br")
        else Server.set_send_header_on_compressed None) ;;
  f <- send_head ;;
  match f with
  | Some data => wfile_write (Payload data)
  | None => ret tt
  end.

(** [SimpleHTTPRequestHandler.do_HEAD] *)
Definition do_HEAD : M unit :=
  f <- send_head ;;
  ret tt.

Definition do_methods : list (string * M unit) :=
  [ ("do_GET", do_GET); ("do_HEAD", do_HEAD) ].

(** [handle_one_request] from [mname = 'do_' + self.command] on. *)
Definition dispatch : M unit :=
  let mname := ("do_" ++ command rq)%string in
  match lookup_do mname do_methods with
  | None =>
      send_error (request_version rq) (Some (command rq)) 501
        (Some ("Unsupported method (" ++ repr L (command rq) ++ ")")%string) None
  | Some method => method
  end.

End Handler.

Section Parser.

Variable L : pylib.
Variable O : oslib.
Variable fs : filesystem.
Variable readable : string -> bool.
Variable link : string -> bool.
Variable DIRECTORY : string.

(** The [try] block of [parse_request]: the version number of the last
    word of the request line, with the text [base_version_number]; [None]
    where it raises [ValueError] or [IndexError]. *)
Definition version_number (version : string) : option (Z * Z * string) :=
  if negb (Str.startswith version "HTTP/") then None
  else
    match Str.after "/" version with
    | None => None
    | Some base_version_number =>
        match Str.split "." base_version_number with
        | [major; minor] =>
            match int O major, int O minor with
            | Some a, Some b => Some (a, b, base_version_number)
            | _, _ => None
            end
        | _ => None
        end
    end.

(** [x >= y] on pairs of integers, as Python compares tuples. *)
Definition pair_geb (x y : Z * Z) : bool :=
  ((fst y <? fst x) || ((fst x =? fst y) && (snd y <=? snd x)))%Z.

(** [handle_expect_100()] *)
Definition handle_expect_100 (request_version : string) : M bool :=
  send_response_only request_version 100 None ;;
  end_headers request_version ;;
  ret true.

(** The first part of [parse_request]: the version of the request line.
    [None] stands for [return False]. *)
Definition parse_version (words : list string) : M (option string) :=
  if (3 <=? length words)%nat then
    let version := last words "" in
    match version_number version with
    | None =>
        send_error L default_request_version None 400
          (Some ("Bad request version (" ++ repr L version ++ ")")%string) None ;;
        ret None
    | Some (major, minor, base_version_number) =>
        (if pair_geb (major, minor) (1, 1)%Z
            && String.leb "HTTP/1.1" protocol_version
         then set_close_connection false else ret tt) ;;
        if pair_geb (major, minor) (2, 0)%Z then
          send_error L default_request_version None 505
            (Some ("Invalid HTTP version (" ++ base_version_number ++ ")")%string)
            None ;;
          ret None
        else ret (Some version)
    end
  else ret (Some default_request_version).

(** The last part of [parse_request]: the headers. *)
Definition parse_rest (command path request_version : string)
    (rest : header_lines) : M (option request) :=
  match rest with
  | LineTooLong err =>
      send_error L request_version (Some command) 431
        (Some "Line too long") (Some err) ;;
      ret None
  | HTTPException err =>
      send_error L request_version (Some command) 431
        (Some "Too many headers") (Some err) ;;
      ret None
  | Headers m =>
      let conntype := Connection m in
      (if String.eqb (Str.lower conntype) "close" then set_close_connection true
       else if String.eqb (Str.lower conntype) "keep-alive"
               && String.leb "HTTP/1.1" protocol_version
            then set_close_connection false
            else ret tt) ;;
      let expect := Expect m in
      proceed <-
        (if String.eqb (Str.lower expect) "100-continue"
            && String.leb "HTTP/1.1" protocol_version
            && String.leb "HTTP/1.1" request_version
         then handle_expect_100 request_version
         else ret true) ;;
      if proceed
      then ret (Some {| command := command; path := path;
                        request_version := request_version; headers := m |})
      else ret None
  end.

(** [parse_request()]; [None] stands for [return False]. *)
Definition parse_request (raw : incoming) : M (option request) :=
  set_close_connection true ;;
  let requestline := Str.rstrip_chars ["013"; "010"]%char (raw_requestline raw) in
  let words := Str.split_whitespace requestline in
  if Nat.eqb (length words) 0 then ret None
  else
    version <- parse_version words ;;
    match version with
    | None => ret None
    | Some request_version =>
        if negb ((2 <=? length words)%nat && (length words <=? 3)%nat) then
          send_error L request_version None 400
            (Some ("Bad request syntax (" ++ repr L requestline ++ ")")%string)
            None ;;
          ret None
        else
          let command := nth 0 words "" in
          let path := nth 1 words "" in
          proceed <-
            (if Nat.eqb (length words) 2 then
               set_close_connection true ;;
               if negb (String.eqb command "GET") then
                 send_error L request_version None 400
                   (Some ("Bad HTTP/0.9 request type (" ++ repr L command ++ ")")%string)
                   None ;;
                 ret false
               else ret true
             else ret true) ;;
          if proceed then
            let path :=
              if Str.startswith path "//"
              then ("/" ++ Str.lstrip_char "/" path)%string else path in
            parse_rest command path request_version (header_part raw)
          else ret None
    end.

(** [handle_one_request()] *)
Definition handle_one_request (raw : incoming) : M unit :=
  if (65536 <? N.of_nat (String.length (raw_requestline raw)))%N then
    send_error L "" (Some "") 414 None None
  else if negb (Str.nonempty (raw_requestline raw)) then set_close_connection true
  else
    accepted <- parse_request raw ;;
    match accepted with
    | None => ret tt
    | Some rq => dispatch L O fs readable link DIRECTORY rq
    end.

(** What the client receives for a request that [parse_request] accepted. *)
Definition respond (rq : request) : response :=
  response_of (snd (dispatch L O fs readable link DIRECTORY rq fresh_handler)).

(** What the client receives for what it sent. *)
Definition handle (raw : incoming) : response :=
  response_of (snd (handle_one_request raw fresh_handler)).

End Parser.

(** *** The handler as a decision tree *)

(** A response in the format of HTTP/0.9: the body alone. *)
Definition bare (r : response) : response :=
  {| status := None; HttpServer.headers := []; body := body r |}.

(** The version guard of [send_response_only], [send_header] and
    [end_headers], on a whole response. *)
Definition guarded (request_version : string) (r : response) : response :=
  if negb (String.eqb request_version "HTTP/0.9") then r else bare r.

Section Answer.

Import Reference.

Variable L : pylib.
Variable O : oslib.
Variable fs : filesystem.
Variable readable : string -> bool.
Variable link : string -> bool.
Variable D : string.
Variable rq : request.

Definition file_answer (with_body : bool) (q : string) : response :=
  if Str.endswith q "/" then not_found L with_body "File not found"
  else if rejected O q then no_response
  else
    match fs q with
    | Some (File data st_mtime) =>
        if readable q then
          if not_modified O rq st_mtime then reply L 304 [] []
          else
            reply L 200
              [ ("Content-type", Server.guess_type L q);
                ("Content-Length", Str.of_Z (Z.of_nat (length data)));
                ("Last-Modified", date_time_string L (Some st_mtime)) ]
              (served with_body data)
        else not_found L with_body "File not found"
    | _ => not_found L with_body "File not found"
    end.

Definition listing_answer (with_body : bool) (q : string) : response :=
  if rejected O q then no_response else
  match fs q with
  | Some (Dir entries _) =>
      if readable q then
        match directory_page O (unquote L (path rq))
                (map (fun name =>
                        (name, isdir O fs (Posixpath.join q name),
                         islink O link (Posixpath.join q name))) entries) with
        | None => no_response
        | Some encoded =>
            reply L 200
              [ ("Content-type",
                 ("text/html; charset=" ++ filesystemencoding L)%string);
                ("Content-Length", Str.of_Z (Z.of_nat (length encoded))) ]
              (served with_body encoded)
        end
      else not_found L with_body "No permission to list directory"
  | _ => not_found L with_body "No permission to list directory"
  end.

(** The inherited [send_head]. *)
Definition plain_answer (with_body : bool) : response :=
  let p := HttpServer.translate_path L D (path rq) in
  if isdir O fs p then
    if negb (Str.endswith (urlsplit_path L (path rq)) "/") then
      reply L 301
        [ ("Location", url_with_slash L (path rq)); ("Content-Length", "0") ] []
    else
      match find_index O fs p ["index.html"; "index.htm"] with
      | Some index => file_answer with_body index
      | None => listing_answer with_body p
      end
  else file_answer with_body p.

(** The branch for a stored compressed file: the head is out before
    [open] is tried. *)
Definition compressed_answer (with_body : bool) (n : node) (encoding : string)
  : response :=
  let p := HttpServer.translate_path L D (path rq) in
  match n with
  | File data _ =>
      reply L 200
        [ ("Content-Encoding", encoding);
          ("Content-Type", Server.guess_type L p);
          ("Content-Length", Str.of_Z (Z.of_nat (length data))) ]
        (if readable p then served with_body data else [])
  | Dir _ size =>
      reply L 200
        [ ("Content-Encoding", encoding);
          ("Content-Type", Server.guess_type L p);
          ("Content-Length", Str.of_Z size) ]
        []
  end.

Definition head_answer (with_body : bool) : response :=
  let p := HttpServer.translate_path L D (path rq) in
  match stat O fs p with
  | Some n =>
      if Str.endswith p ".gz" then compressed_answer with_body n "gzip"
      else if Str.endswith p ".br" then compressed_answer with_body n "br"
      else plain_answer with_body
  | None => plain_answer with_body
  end.

(** The response in HTTP/1.x format. *)
Definition full_answer : response :=
  if String.eqb (command rq) "GET" then head_answer true
  else if String.eqb (command rq) "HEAD" then head_answer false
  else error_answer L true 501
         ("Unsupported method (" ++ repr L (command rq) ++ ")")%string
         "Server does not support this operation".

Definition answer : response := guarded (request_version rq) full_answer.

End Answer.

(** *** The parser as a decision tree *)

Section Verdict.

Import Reference.

Variable L : pylib.
Variable O : oslib.

(** The error response [send_error] writes while [self.request_version]
    and [self.command] are as given. *)
Definition refusal (request_version : string) (command : option string)
    (code : Z) (message explain : string) : response :=
  let with_body :=
    negb (match command with
          | Some c => String.eqb c "HEAD"
          | None => false
          end) in
  guarded request_version (error_answer L with_body code message explain).

(** What [handle_one_request] does before the dispatch: it answers by
    itself (with an error, or with nothing at all), or it has a request for
    the [do_*] methods. *)
Definition verdict (raw : incoming) : response + request :=
  if (65536 <? N.of_nat (String.length (raw_requestline raw)))%N then
    inl (refusal "" (Some "") 414 "Request-URI Too Long" "URI is too long")
  else if negb (Str.nonempty (raw_requestline raw)) then inl no_response
  else
    let requestline := Str.rstrip_chars ["013"; "010"]%char (raw_requestline raw) in
    let words := Str.split_whitespace requestline in
    let bad_request := "Bad request syntax or unsupported method" in
    if Nat.eqb (length words) 0 then inl no_response
    else
      let version :=
        if (3 <=? length words)%nat then
          let version := last words "" in
          match version_number O version with
          | None =>
              inl (refusal default_request_version None 400
                     ("Bad request version (" ++ repr L version ++ ")")
                     bad_request)
          | Some (major, minor, base_version_number) =>
              if pair_geb (major, minor) (2, 0)%Z then
                inl (refusal default_request_version None 505
                       ("Invalid HTTP version (" ++ base_version_number ++ ")")
                       "Cannot fulfill request")
              else inr version
          end
        else inr default_request_version in
      match version with
      | inl r => inl r
      | inr request_version =>
          let command := nth 0 words "" in
          let path := nth 1 words "" in
          if negb ((2 <=? length words)%nat && (length words <=? 3)%nat) then
            inl (refusal request_version None 400
                   ("Bad request syntax (" ++ repr L requestline ++ ")")
                   bad_request)
          else if Nat.eqb (length words) 2 && negb (String.eqb command "GET") then
            inl (refusal request_version None 400
                   ("Bad HTTP/0.9 request type (" ++ repr L command ++ ")")
                   bad_request)
          else
            match header_part raw with
            | LineTooLong err =>
                inl (refusal request_version (Some command) 431
                       "Line too long" err)
            | HTTPException err =>
                inl (refusal request_version (Some command) 431
                       "Too many headers" err)
            | Headers m =>
                inr {| command := command;
                       path := if Str.startswith path "//"
                               then ("/" ++ Str.lstrip_char "/" path)%string
                               else path;
                       request_version := request_version;
                       headers := m |}
            end
      end.

(** The request the [do_*] methods get, if the parser accepts what
    arrived. *)
Definition accepted (raw : incoming) : option request :=
  match verdict raw with
  | inr rq => Some rq
  | inl _ => None
  end.

End Verdict.

(** *** The request of module [Server]

    Module [Server] is the handler for a request that arrived with a
    version other than HTTP/0.9, on a disk without symbolic links where
    everything may be read and every path can be encoded: [respond_handle]
    below. *)

(** The time a conditional request is compared with, if it is one. *)
Definition conditional_time (O : oslib) (m : message) : option Z :=
  match If_Modified_Since m with
  | Some value =>
      if negb (If_None_Match m) then
        match parsedate_to_datetime O value with
        | Some (NoZone, ims) => Some ims
        | Some (UTC, ims) => Some ims
        | Some (OtherZone, _) => None
        | None => None
        end
      else None
  | None => None
  end.

Definition as_dispatched (O : oslib) (rq : request) : HttpServer.request :=
  {| HttpServer.command := command rq;
     HttpServer.path := path rq;
     if_modified_since := conditional_time O (headers rq) |}.

(** The head of a stored compressed file goes out before [open] fails:
    the translated path ends in [.gz] or [.br] and is a directory, or a
    file that may not be read. *)
Definition cut_short (L : pylib) (O : oslib) (fs : filesystem)
    (readable : string -> bool) (D : string) (rq : request) : bool :=
  let p := HttpServer.translate_path L D (path rq) in
  match stat O fs p with
  | Some (Dir _ _) => Str.endswith p ".gz" || Str.endswith p ".br"
  | Some (File _ _) =>
      (Str.endswith p ".gz" || Str.endswith p ".br") && negb (readable p)
  | None => false
  end.

(** *** Parts of a run, for the proofs *)

(** [send_header] while the request version is HTTP/0.9. *)
Definition silent_header (keyword value : string) : M unit :=
  ret tt ;;
  if String.eqb (Str.lower keyword) "connection" then
    if String.eqb (Str.lower value) "close" then set_close_connection true
    else if String.eqb (Str.lower value) "keep-alive" then set_close_connection false
    else ret tt
  else ret tt.

(** [self] when a [do_*] method reaches [send_head]. *)
Definition at_send_head (x : option (option string)) : handler :=
  {| headers_buffer := [];
     wfile := [];
     close_connection := true;
     send_header_on_compressed := x |}.

(** What [do_GET] and [do_HEAD] do with the result of [send_head]. *)
Definition copy_body (with_body : bool) (f : option (list byte)) : M unit :=
  if with_body then
    match f with
    | Some data => wfile_write (Payload data)
    | None => ret tt
    end
  else ret tt.

(** A response without a status line and without headers, or a [reply]
    with a status code among [codes] and, between the two leading and the
    five fixed headers, only fields of the branch. *)
Definition headed (L : pylib) (codes : list Z) (r : response) : Prop :=
  (status r = None /\ HttpServer.headers r = [])
  \/ exists code hs b,
       r = Reference.reply L code hs b /\ In code codes
       /\ Reference.branch_headers hs.

(** *** Symbolic links *)

(** The file system the process sees when [os.stat], [open] and
    [os.listdir] resolve a path through the symbolic links on it:
    [resolve p] is the path of what [p] leads to, and [base] is what is
    stored there. *)
Definition through (resolve : string -> string) (base : filesystem)
  : filesystem :=
  fun p => base (resolve p).

End Wire.

(** ** Sample traffic *)

Module Traffic.

Import HttpServer.

(** The loop of a decimal [int]: the digits read so far are worth [acc]. *)
Fixpoint digits_value (cs : list ascii) (acc : Z) : option Z :=
  match cs with
  | [] => Some acc
  | c :: cs' =>
      let n := N_of_ascii c in
      if ((48 <=? n) && (n <=? 57))%N
      then digits_value cs' (10 * acc + Z.of_N (n - 48))
      else None
  end.

(** [int] on the strings of decimal digits. *)
Definition decimal (s : string) : option Z :=
  match Str.chars s with
  | [] => None
  | cs => digits_value cs 0
  end.

(** A library that knows two dates, one in UTC and one in another zone,
    and encodes every path. *)
Definition os : Wire.oslib :=
  {| Wire.int := decimal;
     Wire.parsedate_to_datetime := fun s =>
       if String.eqb s "Thu, 01 Jan 1970 00:33:20 GMT"
       then Some (Wire.UTC, 2000%Z)
       else if String.eqb s "Thu, 01 Jan 1970 00:33:20 +0100"
            then Some (Wire.OtherZone, 2000%Z)
            else None;
     Wire.fsencodable := fun _ => true;
     Wire.directory_page := fun displaypath _ =>
       Some (Sample.bytes displaypath) |}.

Definition no_headers : Wire.message :=
  {| Wire.Connection := "";
     Wire.Expect := "";
     Wire.If_Modified_Since := None;
     Wire.If_None_Match := false |}.

Definition if_modified_since (date : string) : Wire.message :=
  {| Wire.Connection := "";
     Wire.Expect := "";
     Wire.If_Modified_Since := Some date;
     Wire.If_None_Match := false |}.

Definition crlf : string := String "013" (String "010" "").

(** A request line as it arrives, followed by no header. *)
Definition line (s : string) : Wire.incoming :=
  {| Wire.raw_requestline := (s ++ crlf)%string;
     Wire.header_part := Wire.Headers no_headers |}.

(** An HTTP/1.1 [GET] as [parse_request] leaves it. *)
Definition get (path : string) (m : Wire.message) : Wire.request :=
  {| Wire.command := "GET";
     Wire.path := path;
     Wire.request_version := "HTTP/1.1";
     Wire.headers := m |}.

Definition all : string -> bool := fun _ => true.
Definition none : string -> bool := fun _ => false.

(** Everything but [Build/x.js.gz] and [Build/x.wasm] may be read. *)
Definition locked : string -> bool := fun p =>
  negb (String.eqb p "Build/x.js.gz" || String.eqb p "Build/x.wasm").

(** [Build/link.txt] is a symbolic link to [etc/passwd]. *)
Definition link_resolve (p : string) : string :=
  if String.eqb p "Build/link.txt" then "etc/passwd" else p.

Definition is_link (p : string) : bool := String.eqb p "Build/link.txt".

(** The sample disk seen through the link. *)
Definition disk : filesystem := Wire.through link_resolve Sample.disk.

End Traffic.

(** * Properties *)

Import HttpServer.

(** ** Strings *)

Section StringFacts.

Lemma chars_of_chars (l : list ascii) : Str.chars (Str.of_chars l) = l.
Proof. apply list_ascii_of_string_of_list_ascii. Qed.

Lemma of_chars_chars (s : string) : Str.of_chars (Str.chars s) = s.
Proof. apply string_of_list_ascii_of_string. Qed.

Lemma chars_app (a b : string) :
  Str.chars (a ++ b) = Str.chars a ++ Str.chars b.
Proof. induction a as [|c a IH]; simpl; [reflexivity | now rewrite IH]. Qed.

Lemma starts_iff (s p : list ascii) :
  Str.starts s p = true <-> exists r, s = p ++ r.
Proof.
  revert s. induction p as [|c p IH]; intros s; simpl.
  - split; [intros _; now exists s | intros _; reflexivity].
  - destruct s as [|d s].
    + split; [discriminate | intros [r Hr]; discriminate].
    + rewrite andb_true_iff, IH. split.
      * intros [Hc [r ->]]. apply Ascii.eqb_eq in Hc. subst. now exists r.
      * intros [r Hr]. injection Hr as -> ->. split; [apply Ascii.eqb_refl | now exists r].
Qed.

(** [endswith] is what it should be: [suf] is a tail of [s]. *)
Lemma endswith_iff (s suf : string) :
  Str.endswith s suf = true <-> exists pre, s = (pre ++ suf)%string.
Proof.
  unfold Str.endswith. rewrite starts_iff. split.
  - intros [r Hr]. exists (Str.of_chars (rev r)).
    rewrite <- (of_chars_chars s), <- (rev_involutive (Str.chars s)), Hr.
    rewrite rev_app_distr, rev_involutive.
    rewrite <- (of_chars_chars (_ ++ suf)%string), chars_app, chars_of_chars.
    reflexivity.
  - intros [pre ->]. exists (rev (Str.chars pre)).
    now rewrite chars_app, rev_app_distr.
Qed.

(** Two prefixes of one list: the shorter is a prefix of the longer. *)
Lemma starts_comparable (s p q : list ascii) :
  Str.starts s p = true -> Str.starts s q = true ->
  length p <= length q -> Str.starts q p = true.
Proof.
  revert s q. induction p as [|c p IH]; intros s q Hp Hq Hl; [reflexivity|].
  destruct q as [|d q]; [simpl in Hl; lia|].
  destruct s as [|e s]; [discriminate|].
  simpl in *. apply andb_true_iff in Hp as [Hc Hp]. apply andb_true_iff in Hq as [Hd Hq].
  apply Ascii.eqb_eq in Hc, Hd. subst. rewrite Ascii.eqb_refl. simpl.
  apply (IH s); auto. lia.
Qed.

Lemma endswith_comparable (s a b : string) :
  Str.endswith s a = true -> Str.endswith s b = true ->
  Str.endswith a b = true \/ Str.endswith b a = true.
Proof.
  unfold Str.endswith. intros Ha Hb.
  destruct (Nat.le_gt_cases (length (rev (Str.chars a))) (length (rev (Str.chars b)))).
  - right. eapply starts_comparable; eauto.
  - left. eapply starts_comparable; eauto. lia.
Qed.

Lemma lower_app (a b : string) :
  Str.lower (a ++ b) = (Str.lower a ++ Str.lower b)%string.
Proof. induction a as [|c a IH]; simpl; [reflexivity | now rewrite IH]. Qed.

(** Lowercasing keeps a suffix a suffix. *)
Lemma endswith_lower (s suf : string) :
  Str.endswith s suf = true ->
  Str.endswith (Str.lower s) (Str.lower suf) = true.
Proof.
  rewrite !endswith_iff. intros [pre ->]. exists (Str.lower pre). apply lower_app.
Qed.

End StringFacts.

(** ** The table of MIME types *)

Section GuessType.

Import Server Reference.

Lemma first_match_some items s m :
  first_match items s = Some m ->
  exists e, In (e, m) items /\ Str.endswith s e = true.
Proof.
  induction items as [|[e' m'] rest IH]; simpl; [discriminate|].
  destruct (Str.endswith s e') eqn:E.
  - intros [= <-]. exists e'. auto.
  - intros H. destruct (IH H) as [e [Hin He]]. exists e. auto.
Qed.

Lemma first_match_none items s :
  first_match items s = None ->
  forall e m, In (e, m) items -> Str.endswith s e = false.
Proof.
  induction items as [|[e' m'] rest IH]; simpl; [tauto|].
  destruct (Str.endswith s e') eqn:E; [discriminate|].
  intros H e m [[= <- <-]|Hin]; eauto.
Qed.

Lemma longest_match_some items s e m :
  longest_match items s = Some (e, m) ->
  In (e, m) items /\ Str.endswith s e = true.
Proof.
  revert e m. induction items as [|[e' m'] rest IH]; simpl; [discriminate|].
  intros e m. destruct (Str.endswith s e') eqn:E.
  - destruct (longest_match rest s) as [[e2 m2]|].
    + destruct (String.length e' <? String.length e2)%nat.
      * intros [= <- <-]. destruct (IH _ _ eq_refl). auto.
      * intros [= <- <-]. auto.
    + intros [= <- <-]. auto.
  - intros H. destruct (IH _ _ H). auto.
Qed.

Lemma longest_match_none items s :
  longest_match items s = None ->
  forall e m, In (e, m) items -> Str.endswith s e = false.
Proof.
  induction items as [|[e' m'] rest IH]; simpl; [tauto|].
  destruct (Str.endswith s e') eqn:E.
  - destruct (longest_match rest s) as [[e2 m2]|]; [|discriminate].
    destruct (String.length e' <? String.length e2)%nat; discriminate.
  - intros H e m [[= <- <-]|Hin]; eauto.
Qed.

(** The reference picks a longest matching suffix. *)
Lemma longest_match_longest items s e m :
  longest_match items s = Some (e, m) ->
  forall e' m', In (e', m') items -> Str.endswith s e' = true ->
  String.length e' <= String.length e.
Proof.
  revert e m. induction items as [|[e1 m1] rest IH]; simpl; [tauto|].
  intros e m. destruct (Str.endswith s e1) eqn:E.
  - destruct (longest_match rest s) as [[e2 m2]|] eqn:Hl.
    + destruct (Nat.ltb_spec (String.length e1) (String.length e2)).
      * intros [= <- <-] e' m' [[= <- <-]|Hin] He'; [lia | eapply IH; eauto].
      * intros [= <- <-] e' m' [[= <- <-]|Hin] He'; [lia|].
        specialize (IH _ _ eq_refl _ _ Hin He'). lia.
    + intros [= <- <-] e' m' [[= <- <-]|Hin] He'; [lia|].
      rewrite (longest_match_none _ _ Hl _ _ Hin) in He'. discriminate.
  - intros H e' m' [[= <- <-]|Hin] He'; [congruence | eapply IH; eauto].
Qed.

(** Two entries of [unity_types] whose suffixes end the same string carry
    the same type: the suffixes are comparable, and the table is
    suffix-free. *)
Lemma unity_types_unique s e1 m1 e2 m2 :
  In (e1, m1) unity_types -> In (e2, m2) unity_types ->
  Str.endswith s e1 = true -> Str.endswith s e2 = true -> m1 = m2.
Proof.
  intros H1 H2 E1 E2.
  pose proof (endswith_comparable _ _ _ E1 E2) as Hc. clear E1 E2.
  unfold unity_types in H1, H2. simpl in H1, H2.
  repeat (destruct H1 as [H1|H1]; [injection H1 as <- <- | ]); try contradiction;
  repeat (destruct H2 as [H2|H2]; [injection H2 as <- <- | ]); try contradiction;
  try reflexivity;
  exfalso; destruct Hc as [Hc|Hc]; vm_compute in Hc; discriminate.
Qed.

Lemma first_match_unity s e m :
  In (e, m) unity_types -> Str.endswith s e = true ->
  first_match unity_types s = Some m.
Proof.
  intros Hin He. destruct (first_match unity_types s) as [m'|] eqn:F.
  - destruct (first_match_some _ _ _ F) as [e' [Hin' He']].
    f_equal. eapply unity_types_unique; eauto.
  - rewrite (first_match_none _ _ F _ _ Hin) in He. discriminate.
Qed.

Lemma first_match_longest s :
  first_match unity_types s = option_map snd (longest_match unity_types s).
Proof.
  destruct (longest_match unity_types s) as [[e m]|] eqn:Hl;
    unfold option_map, snd.
  - destruct (longest_match_some _ _ _ _ Hl). now apply first_match_unity with e.
  - destruct (first_match unity_types s) as [m|] eqn:F; [|reflexivity].
    destruct (first_match_some _ _ _ F) as [e [Hin He]].
    rewrite (longest_match_none _ _ Hl _ _ Hin) in He. discriminate.
Qed.

Lemma unity_types_lowercase e m :
  In (e, m) unity_types -> Str.lower e = e.
Proof.
  unfold unity_types. simpl. intros H.
  repeat (destruct H as [H|H]; [injection H as <- <-; reflexivity | ]).
  contradiction.
Qed.

(** The table decides, whatever the case of the letters of the path. *)
Lemma guess_type_table L path e m :
  In (e, m) unity_types -> Str.endswith (Str.lower path) e = true ->
  guess_type L path = m.
Proof.
  intros Hin He. unfold guess_type. now rewrite (first_match_unity _ _ _ Hin He).
Qed.

End GuessType.

(** ** Path translation *)

Section Paths.

Import Reference.

Lemma existsb_eqb_sym (c : ascii) (l : list ascii) :
  existsb (Ascii.eqb c) l = existsb (fun d => Ascii.eqb d c) l.
Proof.
  induction l as [|d l IH]; simpl; [reflexivity|].
  now rewrite IH, Ascii.eqb_sym.
Qed.

(** The pieces [split] returns do not contain the separator. *)
Lemma split_no_sep (c : ascii) (s w : string) :
  In w (Str.split c s) -> existsb (Ascii.eqb c) (Str.chars w) = false.
Proof.
  revert w. induction s as [|d s IH]; simpl; intros w.
  - intros [<-|[]]. reflexivity.
  - destruct (Ascii.eqb d c) eqn:E.
    + intros [<-|H]; [reflexivity | now apply IH].
    + destruct (Str.split c s) as [|w0 ws] eqn:Hs.
      * intros [<-|[]]. simpl. now rewrite Ascii.eqb_sym, E.
      * intros [<-|H].
        -- simpl. rewrite Ascii.eqb_sym, E. simpl. apply IH. now left.
        -- apply IH. now right.
Qed.

Lemma dropwhile_all {A} (f : A -> bool) (l : list A) :
  forallb f l = true -> Str.dropwhile f l = [].
Proof.
  induction l as [|x l IH]; simpl; [reflexivity|].
  intros H. apply andb_true_iff in H as [-> H]. auto.
Qed.

Lemma no_slash_rev (l : list ascii) :
  existsb (Ascii.eqb "/") l = false ->
  forallb (fun c => negb (Ascii.eqb c "/")) (rev l) = true.
Proof.
  intros H. apply forallb_forall. intros c Hc. apply in_rev in Hc.
  destruct (Ascii.eqb c "/") eqn:E; [|reflexivity].
  apply Ascii.eqb_eq in E. subst.
  assert (existsb (Ascii.eqb "/") l = true) as H'.
  { apply existsb_exists. exists "/"%char. split; [assumption | apply Ascii.eqb_refl]. }
  congruence.
Qed.

(** A name without a slash has no directory part. *)
Lemma dirname_no_slash (w : string) :
  existsb (Ascii.eqb "/") (Str.chars w) = false -> Posixpath.dirname w = "".
Proof.
  intros H. unfold Posixpath.dirname, Posixpath.upto_last_sep.
  rewrite (dropwhile_all _ _ (no_slash_rev _ H)). reflexivity.
Qed.

(** What the loop of [translate_path] keeps of a split path is a plain
    name. *)
Lemma kept_word_simple (w : string) :
  Str.nonempty w = true ->
  existsb (Ascii.eqb "/") (Str.chars w) = false ->
  ignored_word w = false -> simple_name w = true.
Proof.
  intros Hn Hs Hi. unfold ignored_word in Hi. unfold simple_name.
  rewrite Hn, Hs. simpl.
  apply orb_false_iff in Hi as [Hi Hpar]. apply orb_false_iff in Hi as [_ Hcur].
  unfold Posixpath.curdir in Hcur. unfold Posixpath.pardir in Hpar.
  now rewrite Hcur, Hpar.
Qed.

Lemma translate_fold_inside (D : string) (words : list string) (acc : string) :
  (forall w, In w words ->
     Str.nonempty w = true /\ existsb (Ascii.eqb "/") (Str.chars w) = false) ->
  inside D acc ->
  inside D (fold_left (fun path word =>
                         if ignored_word word then path
                         else Posixpath.join path word) words acc).
Proof.
  revert acc. induction words as [|w ws IH]; intros acc Hw Hacc; simpl; [assumption|].
  apply IH; [intros w' Hin; apply Hw; now right|].
  destruct (ignored_word w) eqn:Hi; [assumption|].
  destruct (Hw w (or_introl eq_refl)) as [Hn Hs].
  apply inside_join; [assumption | now apply kept_word_simple].
Qed.

(** Whatever the request path, the translated path is inside the root. *)
Lemma translate_path_inside (L : pylib) (D path : string) :
  inside D (HttpServer.translate_path L D path).
Proof.
  unfold HttpServer.translate_path.
  match goal with
  | |- inside D (if ?b then (?p ++ _)%string else _) =>
      assert (inside D p) as Hp; [| destruct b; [now apply inside_slash | exact Hp]]
  end.
  apply translate_fold_inside; [|apply inside_root].
  intros w Hin. apply filter_In in Hin as [Hin Hn]. split; [assumption|].
  now apply split_no_sep with (s := Posixpath.normpath
    (unquote L (Str.before "#" (Str.before "?" path)))).
Qed.

Lemma startswith_app (p x D : string) :
  Str.startswith p D = true -> Str.startswith (p ++ x) D = true.
Proof.
  unfold Str.startswith. rewrite !starts_iff. intros [r Hr].
  exists (r ++ Str.chars x). now rewrite chars_app, Hr, app_assoc.
Qed.

Lemma startswith_refl (D : string) : Str.startswith D D = true.
Proof. unfold Str.startswith. apply starts_iff. exists []. now rewrite app_nil_r. Qed.

Lemma simple_name_relative (w : string) :
  simple_name w = true -> Str.startswith w "/" = false.
Proof.
  unfold simple_name. intros H.
  apply andb_true_iff in H as [H _]. apply andb_true_iff in H as [H _].
  apply andb_true_iff in H as [_ H]. apply negb_true_iff in H.
  destruct w as [|c w]; [reflexivity|].
  unfold Str.startswith. simpl in *.
  apply orb_false_iff in H as [H _]. now rewrite H.
Qed.

Lemma join_simple (p w : string) :
  simple_name w = true -> exists x, Posixpath.join p w = (p ++ x)%string.
Proof.
  intros H. unfold Posixpath.join, Posixpath.sep.
  rewrite (simple_name_relative _ H).
  destruct (negb (Str.nonempty p) || Str.endswith p "/"); eauto.
Qed.

Lemma split_app_sep (c : ascii) (a b : string) :
  Str.split c (a ++ String c b) = Str.split c a ++ Str.split c b.
Proof.
  induction a as [|d a IH]; simpl.
  - now rewrite Ascii.eqb_refl.
  - destruct (Ascii.eqb d c); rewrite IH; [reflexivity|].
    destruct (Str.split c a) as [|w ws] eqn:E; [|reflexivity].
    destruct a; simpl in E; [discriminate|].
    destruct (Ascii.eqb _ c); [discriminate|].
    destruct (Str.split c a0); discriminate.
Qed.

Lemma split_no_sep_id (c : ascii) (w : string) :
  existsb (Ascii.eqb c) (Str.chars w) = false -> Str.split c w = [w].
Proof.
  induction w as [|d w IH]; simpl; [reflexivity|].
  intros H. apply orb_false_iff in H as [Hd Hw].
  rewrite Ascii.eqb_sym, Hd, (IH Hw). reflexivity.
Qed.

Lemma simple_name_no_slash (w : string) :
  simple_name w = true -> existsb (Ascii.eqb "/") (Str.chars w) = false.
Proof.
  unfold simple_name. intros H.
  apply andb_true_iff in H as [H _]. apply andb_true_iff in H as [H _].
  apply andb_true_iff in H as [_ H]. now apply negb_true_iff in H.
Qed.

Lemma app_empty_r (a : string) : (a ++ "")%string = a.
Proof. induction a as [|c a IH]; simpl; [reflexivity | now rewrite IH]. Qed.

Lemma app_assoc_s (a b c : string) :
  ((a ++ b) ++ c)%string = (a ++ b ++ c)%string.
Proof. induction a as [|d a IH]; simpl; [reflexivity | now rewrite IH]. Qed.

(** A string that ends with a slash and has a non-empty tail: the tail
    ends with the slash. *)
Lemma endswith_slash_tail (D rest : string) :
  Str.endswith (D ++ rest) "/" = true -> rest <> "" ->
  exists r0, rest = (r0 ++ "/")%string.
Proof.
  intros H Hne. apply endswith_iff in H as [pre Hpre].
  assert (Str.endswith rest "/" = true) as Hr; [|now apply endswith_iff in Hr].
  unfold Str.endswith.
  assert (rev (Str.chars (D ++ rest)) = rev (Str.chars (pre ++ "/"))) as E
    by now rewrite Hpre.
  rewrite !chars_app, !rev_app_distr in E. simpl in E.
  destruct (rev (Str.chars rest)) as [|c l] eqn:Er.
  - exfalso. apply Hne. apply (f_equal (@rev ascii)) in Er.
    rewrite rev_involutive in Er. simpl in Er.
    destruct rest; [reflexivity | discriminate].
  - simpl in E. injection E as -> _. reflexivity.
Qed.

(** What [inside] means on the text of a path: the root, then a tail whose
    components between slashes are plain names (or empty), beginning at a
    component boundary. *)
Lemma inside_below_root (D p : string) :
  inside D p ->
  exists rest,
    p = (D ++ rest)%string
    /\ Forall (fun w => w = "" \/ simple_name w = true) (Str.split "/" rest)
    /\ (rest = "" \/ D = "" \/ Str.endswith D "/" = true
        \/ Str.startswith rest "/" = true).
Proof.
  induction 1 as [|p w _ IH Hw|p _ IH].
  - exists "". rewrite app_empty_r. split; [reflexivity|]. split; [|now left].
    simpl. constructor; [now left | constructor].
  - destruct IH as (rest & -> & Hall & Hb).
    pose proof (simple_name_no_slash w Hw) as Hns.
    unfold Posixpath.join, Posixpath.sep.
    rewrite (simple_name_relative w Hw).
    destruct (Str.nonempty (D ++ rest)) eqn:Hne; simpl.
    + destruct (Str.endswith (D ++ rest) "/") eqn:Hsl.
      * destruct rest as [|c rest'] eqn:Hrest.
        -- exists w. rewrite app_empty_r in *. repeat split.
           ++ rewrite (split_no_sep_id _ _ Hns). auto.
           ++ destruct D; [auto | do 2 right; left; exact Hsl].
        -- rewrite <- Hrest in *.
           destruct (endswith_slash_tail D rest Hsl) as [r0 Hr0];
             [rewrite Hrest; discriminate|].
           exists (r0 ++ String "/" w)%string. split.
           { rewrite Hr0, !app_assoc_s. reflexivity. }
           split.
           ++ rewrite split_app_sep, (split_no_sep_id _ _ Hns).
              rewrite Hr0 in Hall.
              change (r0 ++ "/")%string with (r0 ++ String "/" "")%string in Hall.
              rewrite split_app_sep in Hall. simpl in Hall.
              apply Forall_app in Hall as [Hall _].
              apply Forall_app. split; [exact Hall | auto].
           ++ destruct Hb as [Hb|[Hb|[Hb|Hb]]]; auto.
              ** rewrite Hrest in Hb. discriminate.
              ** do 3 right. rewrite Hr0 in Hb.
                 destruct r0; simpl in Hb |- *; exact Hb.
      * exists (rest ++ String "/" w)%string. split.
        { rewrite !app_assoc_s. reflexivity. }
        split.
        -- rewrite split_app_sep, (split_no_sep_id _ _ Hns).
           apply Forall_app. split; [exact Hall | auto].
        -- destruct Hb as [->|[Hb|[Hb|Hb]]]; auto.
           do 3 right. destruct rest; [reflexivity | exact Hb].
    + destruct D; [|discriminate]. destruct rest; [|discriminate].
      exists w. repeat split; auto.
      rewrite (split_no_sep_id _ _ Hns). auto.
  - destruct IH as (rest & -> & Hall & Hb).
    exists (rest ++ String "/" "")%string. split.
    { rewrite !app_assoc_s. reflexivity. }
    split.
    + rewrite split_app_sep. apply Forall_app. split; [exact Hall|].
      simpl. auto.
    + destruct Hb as [->|[Hb|[Hb|Hb]]]; auto.
      do 3 right. destruct rest; [reflexivity | exact Hb].
Qed.

(** A path inside the root starts with the root. *)
Lemma inside_startswith (D p : string) :
  inside D p -> Str.startswith p D = true.
Proof.
  induction 1 as [|p w _ IH Hw|p _ IH].
  - apply startswith_refl.
  - destruct (join_simple p w Hw) as [x ->]. now apply startswith_app.
  - now apply startswith_app.
Qed.

End Paths.

(** ** Responses *)

Section Responses.

Import Reference.

#[local] Arguments Str.endswith : simpl never.
#[local] Arguments Str.of_Z : simpl never.
#[local] Arguments Posixpath.join : simpl never.
#[local] Arguments HttpServer.translate_path : simpl never.
#[local] Arguments Server.guess_type : simpl never.
#[local] Arguments not_modified : simpl never.
#[local] Arguments String.eqb : simpl nomatch.

Variable L : pylib.
Variable D : string.

Ltac in_list := simpl; repeat (first [left; reflexivity | right]).

(** The method table of the class: [do_GET], [do_HEAD], nothing else. *)
Lemma dispatch (fs : filesystem) (rq : request) :
  lookup_do ("do_" ++ command rq) (Server.do_methods L fs D rq) =
  if String.eqb (command rq) "GET" then Some (Server.do_GET L fs D rq)
  else if String.eqb (command rq) "HEAD"
       then Some (HttpServer.do_HEAD (Server.send_head L fs D rq))
       else None.
Proof.
  unfold Server.do_methods, lookup_do.
  destruct (String.eqb_spec (command rq) "GET") as [->|Hg]; [reflexivity|].
  destruct (String.eqb_spec (command rq) "HEAD") as [->|Hh]; [reflexivity|].
  destruct (String.eqb_spec "do_GET" ("do_" ++ command rq)) as [E|_].
  { simpl in E. injection E as E. congruence. }
  destruct (String.eqb_spec "do_HEAD" ("do_" ++ command rq)) as [E|_].
  { simpl in E. injection E as E. congruence. }
  reflexivity.
Qed.

Ltac unfold_handler :=
  unfold Server.handle, handle_one_request; rewrite dispatch;
  unfold answer, head_answer, compressed_answer, plain_answer, file_answer,
    listing_answer, not_found, error_answer,
    Server.do_GET, HttpServer.do_GET, HttpServer.do_HEAD,
    Server.send_head, Server.send_compressed, HttpServer.send_head,
    send_file_head, list_directory, getsize, open_rb, exists_, isdir,
    send_error, Server.translate_path, stat.

(** Run the writes of a branch whose tests are all decided. *)
Ltac leaf :=
  cbn;
  repeat (match goal with
          | H : ?f ?q = _ |- context [?f ?q] => rewrite H; cbn
          end);
  try (match goal with
       | |- context [if not_modified ?r ?t then _ else _] =>
           destruct (not_modified r t)
       end; cbn);
  try (match goal with
       | |- context [match error_page ?l ?c ?m ?e with _ => _ end] =>
           destruct (error_page l c m e)
       end; cbn);
  unfold response_of, lines_of, payload_of, reply, served, no_response; cbn;
  rewrite ?app_nil_r; reflexivity.

(** A path whose node is known: the slash test, then the file. *)
Ltac file_leaf q := destruct (Str.endswith q "/") eqn:?; leaf.

(** The two suffix tests of the overridden methods. *)
Ltac split_suffix p tac :=
  destruct (Str.endswith p ".gz") eqn:?;
  [ | destruct (Str.endswith p ".br") eqn:? ]; tac.

Ltac index_leaf f p name :=
  destruct (has_nul (Posixpath.join p name)) eqn:?;
  [ | destruct (f (Posixpath.join p name)) as [[? ?|? ?]|] eqn:?;
      [ file_leaf (Posixpath.join p name) | | ] ].

Ltac split_head f p :=
  destruct (has_nul p) eqn:?;
  [ split_suffix p ltac:(file_leaf p)
  | destruct (f p) as [[? ?|? ?]|] eqn:?;
    [ destruct (Str.endswith p ".gz") eqn:?; [leaf|];
      destruct (Str.endswith p ".br") eqn:?; [leaf|];
      file_leaf p
    | destruct (Str.endswith p ".gz") eqn:?; [leaf|];
      destruct (Str.endswith p ".br") eqn:?; [leaf|];
      match goal with
      | |- context [negb (Str.endswith ?u "/")] =>
          destruct (Str.endswith u "/") eqn:?
      end;
      [ cbn [negb find_index]; unfold isfile, stat;
        index_leaf f p "index.html";
        index_leaf f p "index.htm"; leaf
      | leaf ]
    | split_suffix p ltac:(file_leaf p) ] ].

(** The handler writes what the decision tree says. *)
Lemma handle_answer (fs : filesystem) (rq : request) :
  Server.handle L fs D rq = answer L fs D rq.
Proof.
  destruct rq as [cmd pth ims].
  unfold_handler. cbn [command path].
  set (p := translate_path L D pth).
  destruct (String.eqb cmd "GET") eqn:HG.
  - apply String.eqb_eq in HG. subst cmd. split_head fs p.
  - destruct (String.eqb cmd "HEAD") eqn:HH.
    + apply String.eqb_eq in HH. subst cmd. split_head fs p.
    + leaf.
Qed.

Ltac fields :=
  unfold branch_headers; repeat (apply Forall_cons; [in_list|]); apply Forall_nil.

Ltac shape :=
  unfold shaped; do 3 eexists; split; [reflexivity | split; [in_list | fields]].

Lemma stat_some (fs : filesystem) (q : string) (n : node) :
  stat fs q = Some n -> has_nul q = false /\ fs q = Some n.
Proof. unfold stat. destruct (has_nul q); [discriminate | auto]. Qed.

Lemma find_index_has_no_nul (fs : filesystem) (q index : string) :
  find_index fs q ["index.html"; "index.htm"] = Some index ->
  has_nul index = false.
Proof.
  unfold find_index, isfile, stat.
  destruct (has_nul (Posixpath.join q "index.html")) eqn:E1.
  - destruct (has_nul (Posixpath.join q "index.htm")) eqn:E2; [discriminate|].
    destruct (fs _) as [[? ?|? ?]|]; try discriminate. now intros [= <-].
  - destruct (fs (Posixpath.join q "index.html")) as [[? ?|? ?]|];
      try (now intros [= <-]);
      (destruct (has_nul (Posixpath.join q "index.htm")) eqn:E2; [discriminate|];
       destruct (fs (Posixpath.join q "index.htm")) as [[? ?|? ?]|];
       try discriminate; now intros [= <-]).
Qed.

(** Every answer is such a [reply], unless the translated path has a NUL
    and nothing is written. *)
Lemma answer_shape (fs : filesystem) (rq : request) :
  (answer L fs D rq = no_response
   /\ has_nul (translate_path L D (path rq)) = true)
  \/ shaped L (answer L fs D rq).
Proof.
  assert (forall wb c m e, In c [404; 501]%Z ->
            shaped L (error_answer L wb c m e)) as Herr.
  { intros wb c m e Hc. unfold error_answer, shaped. do 3 eexists.
    split; [reflexivity|]. split; [|fields].
    destruct Hc as [<-|[<-|[]]]; in_list. }
  assert (forall wb q, has_nul q = false ->
            shaped L (file_answer L fs rq wb q)) as Hfile.
  { intros wb q Hq. unfold file_answer, not_found. rewrite Hq.
    destruct (Str.endswith q "/"); [apply Herr; in_list|].
    destruct (fs q) as [[data mt|es sz]|]; try (apply Herr; in_list).
    destruct (not_modified rq mt); shape. }
  assert (forall wb,
            (plain_answer L fs D rq wb = no_response
             /\ has_nul (translate_path L D (path rq)) = true)
            \/ shaped L (plain_answer L fs D rq wb)) as Hplain.
  { intros wb. unfold plain_answer, isdir, stat.
    destruct (has_nul (translate_path L D (path rq))) eqn:Hn.
    - unfold file_answer, not_found. rewrite Hn.
      destruct (Str.endswith _ "/"); [right; apply Herr; in_list | now left].
    - right. destruct (fs (translate_path L D (path rq))) as [[data mt|es sz]|] eqn:Hp;
        try now apply Hfile.
      destruct (negb _); [shape|].
      destruct (find_index fs _ _) eqn:Hi.
      + apply Hfile. eapply find_index_has_no_nul; eauto.
      + unfold listing_answer. rewrite Hn, Hp. shape. }
  assert (forall wb,
            (head_answer L fs D rq wb = no_response
             /\ has_nul (translate_path L D (path rq)) = true)
            \/ shaped L (head_answer L fs D rq wb)) as Hhead.
  { intros wb. unfold head_answer, compressed_answer.
    destruct (stat fs _) as [[data mt|es sz]|]; [| |apply Hplain];
      (destruct (Str.endswith _ ".gz"); [right; shape|]);
      (destruct (Str.endswith _ ".br"); [right; shape|]); apply Hplain. }
  unfold answer.
  destruct (String.eqb _ "GET"); [apply Hhead|].
  destruct (String.eqb _ "HEAD"); [apply Hhead|].
  right. apply Herr; in_list.
Qed.

Lemma branch_field_other (k v : string) (kv : string * string) :
  In (k, v) fixed_headers -> In (fst kv) branch_fields ->
  String.eqb (Str.lower (fst kv)) (Str.lower k) = false.
Proof.
  intros Hk Hb. unfold fixed_headers in Hk. unfold branch_fields in Hb.
  simpl in Hk, Hb.
  repeat (destruct Hk as [Hk|Hk]; [injection Hk as <- <- | ]); try contradiction;
  repeat (destruct Hb as [<-|Hb]; [reflexivity | ]); contradiction.
Qed.

(** In a [reply] each fixed header occurs once, with its value. *)
Lemma reply_fixed_header (k v : string) code hs b :
  In (k, v) fixed_headers -> branch_headers hs ->
  header_values k (reply L code hs b) = [v].
Proof.
  intros Hk Hhs. unfold header_values, reply, headers.
  rewrite filter_app, filter_app, !map_app.
  replace (filter _ hs) with (@nil (string * string)).
  - unfold fixed_headers in Hk |- *. simpl in Hk.
    repeat (destruct Hk as [Hk|Hk]; [injection Hk as <- <-; reflexivity | ]).
    contradiction.
  - symmetry. induction Hhs as [|kv hs Hkv _ IH]; [reflexivity|].
    simpl. now rewrite (branch_field_other k v kv Hk Hkv).
Qed.

(** *** Serving a file *)

(** A [GET] whose translated path names a file, in full. *)
Lemma answer_get_file (fs : filesystem) (rq : request) data mt :
  command rq = "GET" ->
  stat fs (Server.translate_path L D (path rq)) = Some (File data mt) ->
  Str.endswith (Server.translate_path L D (path rq)) "/" = false ->
  Server.handle L fs D rq =
  let p := Server.translate_path L D (path rq) in
  let size := Str.of_Z (Z.of_nat (length data)) in
  if Str.endswith p ".gz" then
    reply L 200 [ ("Content-Encoding", "gzip");
                  ("Content-Type", Server.guess_type L p);
                  ("Content-Length", size) ] data
  else if Str.endswith p ".br" then
    reply L 200 [ ("Content-Encoding", "br");
                  ("Content-Type", Server.guess_type L p);
                  ("Content-Length", size) ] data
  else if not_modified rq mt then reply L 304 [] []
  else
    reply L 200 [ ("Content-type", Server.guess_type L p);
                  ("Content-Length", size);
                  ("Last-Modified", date_time_string L (Some mt)) ] data.
Proof.
  unfold Server.translate_path. intros Hc Hst Hslash.
  destruct (stat_some _ _ _ Hst) as [Hn Hfs].
  rewrite handle_answer. unfold answer. rewrite Hc. cbn [String.eqb].
  change (("GET" =? "GET")%string) with true. cbv iota.
  unfold head_answer, compressed_answer, plain_answer, isdir, file_answer.
  rewrite Hst, Hn, Hfs, Hslash. cbv zeta.
  destruct (Str.endswith _ ".gz"); [reflexivity|].
  destruct (Str.endswith _ ".br"); reflexivity.
Qed.

(** The inherited [send_head] never sends [Content-Encoding]. *)
Lemma plain_answer_no_encoding (fs : filesystem) (rq : request) wb :
  header_values "Content-Encoding" (plain_answer L fs D rq wb) = [].
Proof.
  assert (forall q, header_values "Content-Encoding"
                      (file_answer L fs rq wb q) = []) as Hfile.
  { intros q. unfold file_answer, not_found, error_answer.
    destruct (Str.endswith q "/"); [reflexivity|].
    destruct (has_nul q); [reflexivity|].
    destruct (fs q) as [[data mt|es sz]|]; try reflexivity.
    destruct (not_modified rq mt); reflexivity. }
  unfold plain_answer.
  destruct (isdir fs _); [|apply Hfile].
  destruct (negb _); [reflexivity|].
  destruct (find_index fs _ _); [apply Hfile|].
  unfold listing_answer, not_found, error_answer.
  destruct (has_nul _); [reflexivity|].
  destruct (fs _) as [[data mt|es sz]|]; reflexivity.
Qed.

(** A suffix of a suffix. *)
Lemma endswith_trans (s a b : string) :
  Str.endswith s a = true -> Str.endswith a b = true -> Str.endswith s b = true.
Proof.
  rewrite !endswith_iff. intros [x ->] [y ->]. exists (x ++ y)%string.
  clear. induction x as [|c x IH]; simpl; [reflexivity | now rewrite IH].
Qed.

(** Two suffixes of one string, neither a suffix of the other: absurd. *)
Lemma endswith_exclusive (s a b : string) :
  Str.endswith a b = false -> Str.endswith b a = false ->
  Str.endswith s a = true -> Str.endswith s b = false.
Proof.
  intros Hab Hba Ha. destruct (Str.endswith s b) eqn:Hb; [|reflexivity].
  destruct (endswith_comparable _ _ _ Ha Hb); congruence.
Qed.

(** *** The properties of the handler *)


(** C5, at the failing input. An [OPTIONS] request is answered with
    status 501 and the error page as its body, in a response that lists
    [OPTIONS] among the allowed methods. *)
Theorem options_not_implemented (fs : filesystem) (pth : string) (ims : option Z) :
  let r := Server.handle L fs D
             {| command := "OPTIONS"; path := pth; if_modified_since := ims |} in
  status r = Some 501%Z
  /\ body r = error_page L 501
                ("Unsupported method (" ++ repr L "OPTIONS" ++ ")")
                "Server does not support this operation"
  /\ header_values "Access-Control-Allow-Methods" r = ["GET, OPTIONS"].
Proof. cbv zeta. rewrite handle_answer. repeat split. Qed.

Lemma table_suffix_not_slash e m :
  In (e, m) Server.unity_types ->
  Str.endswith e "/" = false /\ Str.endswith "/" e = false.
Proof.
  unfold Server.unity_types. simpl. intros H.
  repeat (destruct H as [H|H]; [injection H as <- <-; split; reflexivity | ]).
  contradiction.
Qed.

(** C2. A name that ends with one of the twelve suffixes of the override
    table gets the MIME type the table gives it: [.unityweb], [.data],
    [.data.gz] and [.data.br] give [application/octet-stream]; [.wasm],
    [.wasm.gz] and [.wasm.br] give [application/wasm]; [.js.gz] and
    [.js.br] give [application/javascript]; [.symbols.json],
    [.symbols.json.gz] and [.symbols.json.br] give [application/json].
    [guess_type] returns that type, it is the type of the longest suffix of
    the table that ends the lowercased name, and it is the [Content-Type]
    of the response whenever the file is sent. *)
Theorem content_type_from_table (ext mime : string) :
  In (ext, mime)
     [ (".unityweb", "application/octet-stream");
       (".data", "application/octet-stream");
       (".data.gz", "application/octet-stream");
       (".data.br", "application/octet-stream");
       (".wasm", "application/wasm");
       (".wasm.gz", "application/wasm");
       (".wasm.br", "application/wasm");
       (".js.gz", "application/javascript");
       (".js.br", "application/javascript");
       (".symbols.json", "application/json");
       (".symbols.json.gz", "application/json");
       (".symbols.json.br", "application/json") ] ->
  (forall path, Str.endswith path ext = true ->
     Server.guess_type L path = mime
     /\ exists e, longest_match Server.unity_types (Str.lower path) = Some (e, mime)
                  /\ String.length ext <= String.length e)
  /\ (forall fs rq data mt,
        command rq = "GET" ->
        stat fs (Server.translate_path L D (path rq)) = Some (File data mt) ->
        Str.endswith (Server.translate_path L D (path rq)) ext = true ->
        let p := Server.translate_path L D (path rq) in
        header_values "Content-Type" (Server.handle L fs D rq) =
          if negb (Str.endswith p ".gz" || Str.endswith p ".br")
             && not_modified rq mt
          then [] else [mime]).
Proof.
  intros Hclaimed.
  assert (In (ext, mime) Server.unity_types) as Hin.
  { unfold Server.unity_types. simpl in Hclaimed |- *. tauto. }
  clear Hclaimed.
  assert (forall path, Str.endswith path ext = true ->
            Str.endswith (Str.lower path) ext = true) as Hlow.
  { intros path H. rewrite <- (unity_types_lowercase _ _ Hin) at 1.
    now apply endswith_lower. }
  split.
  - intros path H. specialize (Hlow path H). split.
    + now apply guess_type_table with ext.
    + pose proof (first_match_unity _ _ _ Hin Hlow) as F.
      rewrite first_match_longest in F.
      destruct (longest_match Server.unity_types (Str.lower path))
        as [[e m]|] eqn:Hl; [|discriminate].
      injection F as ->. exists e. split; [reflexivity|].
      eapply longest_match_longest; eauto.
  - intros fs rq data mt Hc Hfs He. cbv zeta.
    destruct (table_suffix_not_slash _ _ Hin) as [H1 H2].
    pose proof (endswith_exclusive _ _ _ H1 H2 He) as Hsl.
    rewrite (answer_get_file fs rq data mt Hc Hfs Hsl). cbv zeta.
    rewrite (guess_type_table L _ ext mime Hin (Hlow _ He)).
    destruct (Str.endswith _ ".gz"); [reflexivity|].
    destruct (Str.endswith _ ".br"); [reflexivity|].
    destruct (not_modified rq mt); reflexivity.
Qed.

(** C9. The table is consulted on the lowercased path, so [X.WASM] is
    [application/wasm]; the test for [Content-Encoding] is on the path as
    it is, so a file whose name ends with [.GZ] or [.BR] and matches the
    table goes out with the type of the table and without
    [Content-Encoding]. *)
Theorem type_ignores_case_encoding_does_not :
  (forall path ext mime,
     In (ext, mime) Server.unity_types ->
     Str.endswith (Str.lower path) ext = true ->
     Server.guess_type L path = mime)
  /\ Server.guess_type L "X.WASM" = "application/wasm"
  /\ (forall fs rq data mt ext mime,
        command rq = "GET" ->
        stat fs (Server.translate_path L D (path rq)) = Some (File data mt) ->
        Str.endswith (Server.translate_path L D (path rq)) ".GZ" = true
        \/ Str.endswith (Server.translate_path L D (path rq)) ".BR" = true ->
        In (ext, mime) Server.unity_types ->
        Str.endswith (Str.lower (Server.translate_path L D (path rq))) ext = true ->
        let r := Server.handle L fs D rq in
        header_values "Content-Encoding" r = []
        /\ header_values "Content-Type" r =
             if not_modified rq mt then [] else [mime]).
Proof.
  split; [intros; now apply guess_type_table with ext|].
  split; [reflexivity|].
  intros fs rq data mt ext mime Hc Hfs Hup Hin Hlow. cbv zeta.
  assert (Str.endswith (Server.translate_path L D (path rq)) "/" = false
          /\ Str.endswith (Server.translate_path L D (path rq)) ".gz" = false
          /\ Str.endswith (Server.translate_path L D (path rq)) ".br" = false)
    as (Hsl & Hgz & Hbr).
  { destruct Hup as [H|H]; repeat split;
      (eapply endswith_exclusive; [| |exact H]; reflexivity). }
  rewrite (answer_get_file fs rq data mt Hc Hfs Hsl). cbv zeta.
  rewrite Hgz, Hbr, (guess_type_table L _ ext mime Hin Hlow).
  destruct (not_modified rq mt); split; reflexivity.
Qed.

End Responses.

(** C10. On every path the scan of the table in its order of declaration
    finds the type that longest-suffix matching finds, and so [guess_type]
    is [guess_type] with the longest suffix first; the table is
    suffix-free. *)
Theorem first_match_is_longest_match (L : pylib) (path : string) :
  Reference.suffix_free Server.unity_types = true
  /\ (forall s, Server.first_match Server.unity_types s =
                option_map snd (Reference.longest_match Server.unity_types s))
  /\ Server.guess_type L path = Reference.guess_type_longest L path.
Proof.
  split; [reflexivity|]. split; [apply first_match_longest|].
  unfold Server.guess_type, Reference.guess_type_longest.
  rewrite first_match_longest.
  now destruct (Reference.longest_match _ _) as [[e m]|].
Qed.




(** ** The handler on the sample disk *)

Section Instances.

Import Reference.

Lemma sample_listing_wf : listing_wf Sample.disk.
Proof.
  intros p es sz H. unfold Sample.disk in H.
  repeat match type of H with
         | (if ?b then _ else _) = _ => destruct b
         end; try discriminate; injection H as <- _; reflexivity.
Qed.

Lemma sample_disks_agree (p : string) :
  inside "Build" p -> Sample.disk p = Sample.other_disk p.
Proof.
  intros H. apply inside_startswith in H. unfold Sample.other_disk.
  repeat match goal with
         | |- _ = (if String.eqb p ?q then _ else _) =>
             destruct (String.eqb_spec p q) as [->|_]; [discriminate H|]
         end.
  reflexivity.
Qed.

(** C2 on [x.symbols.json.br]: [application/json], from [guess_type] and
    in the response. *)
Lemma content_type_from_table_witness :
  Server.guess_type Sample.lib "x.symbols.json.br" = "application/json"
  /\ header_values "Content-Type"
       (Server.handle Sample.lib Sample.disk "Build"
          (Sample.get "/x.symbols.json.br")) = ["application/json"].
Proof.
  destruct (content_type_from_table Sample.lib "Build"
              ".symbols.json.br" "application/json") as [Hg Hr].
  { simpl. tauto. }
  split.
  - exact (proj1 (Hg "x.symbols.json.br" eq_refl)).
  - exact (Hr Sample.disk (Sample.get "/x.symbols.json.br") _ _
              eq_refl eq_refl eq_refl).
Defined.


(** C9 on [X.WASM.GZ]. *)
Lemma type_ignores_case_witness :
  let r := Server.handle Sample.lib Sample.disk "Build" (Sample.get "/X.WASM.GZ") in
  header_values "Content-Encoding" r = []
  /\ header_values "Content-Type" r = ["application/wasm"].
Proof.
  destruct (type_ignores_case_encoding_does_not Sample.lib "Build")
    as (_ & _ & H).
  refine (H Sample.disk (Sample.get "/X.WASM.GZ") _ _ ".wasm.gz"
            "application/wasm" eq_refl eq_refl (or_introl eq_refl) _ eq_refl).
  unfold Server.unity_types. simpl. tauto.
Defined.

End Instances.

(** ** More of the handler *)

Section MoreResponses.

Import Reference.

#[local] Arguments Str.endswith : simpl never.
#[local] Arguments Str.of_Z : simpl never.
#[local] Arguments Posixpath.join : simpl never.
#[local] Arguments HttpServer.translate_path : simpl never.
#[local] Arguments Server.guess_type : simpl never.
#[local] Arguments not_modified : simpl never.
#[local] Arguments String.eqb : simpl nomatch.

Variable L : pylib.
Variable D : string.

(** *** [HEAD] against [GET] *)

Ltac trio := repeat split; reflexivity.

Lemma head_answer_same_head (fs : filesystem) (rq : request) :
  status (head_answer L fs D rq false) = status (head_answer L fs D rq true)
  /\ headers (head_answer L fs D rq false) = headers (head_answer L fs D rq true)
  /\ body (head_answer L fs D rq false) = [].
Proof.
  assert (forall q,
    status (file_answer L fs rq false q) = status (file_answer L fs rq true q)
    /\ headers (file_answer L fs rq false q) = headers (file_answer L fs rq true q)
    /\ body (file_answer L fs rq false q) = []) as Hfile.
  { intros q. unfold file_answer, not_found, error_answer.
    destruct (Str.endswith q "/"); [trio|].
    destruct (has_nul q); [trio|].
    destruct (fs q) as [[data mt|es sz]|]; [|trio|trio].
    destruct (not_modified rq mt); trio. }
  assert (status (plain_answer L fs D rq false) = status (plain_answer L fs D rq true)
    /\ headers (plain_answer L fs D rq false) = headers (plain_answer L fs D rq true)
    /\ body (plain_answer L fs D rq false) = []) as Hplain.
  { unfold plain_answer.
    destruct (isdir fs _); [|apply Hfile].
    destruct (negb _); [trio|].
    destruct (find_index fs _ _); [apply Hfile|].
    unfold listing_answer, not_found, error_answer.
    destruct (has_nul _); [trio|].
    destruct (fs _) as [[data mt|es sz]|]; trio. }
  unfold head_answer, compressed_answer.
  destruct (stat fs _) as [[data mt|es sz]|]; [| |apply Hplain];
    (destruct (Str.endswith _ ".gz"); [trio|]);
    (destruct (Str.endswith _ ".br"); [trio|]); apply Hplain.
Qed.

(** X1. A [HEAD] request gets the status line and the header fields of
    the [GET] request for the same path and the same condition, and no
    body. *)
Theorem head_is_get_without_body (fs : filesystem) (pth : string)
    (ims : option Z) :
  let get := {| command := "GET"; path := pth; if_modified_since := ims |} in
  let head := {| command := "HEAD"; path := pth; if_modified_since := ims |} in
  status (Server.handle L fs D head) = status (Server.handle L fs D get)
  /\ headers (Server.handle L fs D head) = headers (Server.handle L fs D get)
  /\ body (Server.handle L fs D head) = [].
Proof.
  cbv zeta. rewrite !handle_answer.
  exact (head_answer_same_head fs
           {| command := "GET"; path := pth; if_modified_since := ims |}).
Qed.

(** *** Status codes and [Content-Length] *)

(** *** Paths that do not name a file *)

Lemma trailing_slash_kept (pth : string) :
  Str.endswith (Str.rstrip (Str.before "#" (Str.before "?" pth))) "/" = true ->
  Str.endswith (Server.translate_path L D pth) "/" = true.
Proof.
  intros H. unfold Server.translate_path, HttpServer.translate_path.
  rewrite H. apply endswith_iff. eexists. reflexivity.
Qed.


(** *** Directories *)

(** A [GET] or [HEAD] of a directory that is not named like a compressed
    file is the inherited [send_head] on a directory. *)
Lemma answer_directory (fs : filesystem) (rq : request) es sz :
  command rq = "GET" \/ command rq = "HEAD" ->
  stat fs (Server.translate_path L D (path rq)) = Some (Dir es sz) ->
  Run.compressed_directory L fs D rq = false ->
  Server.handle L fs D rq =
  let p := Server.translate_path L D (path rq) in
  let wb := String.eqb (command rq) "GET" in
  if negb (Str.endswith (urlsplit_path L (path rq)) "/") then
    reply L 301
      [ ("Location", url_with_slash L (path rq)); ("Content-Length", "0") ] []
  else
    match find_index fs p ["index.html"; "index.htm"] with
    | Some index => file_answer L fs rq wb index
    | None => listing_answer L fs rq wb p
    end.
Proof.
  unfold Run.compressed_directory, Server.translate_path.
  intros Hc Hst Hcd. rewrite Hst in Hcd. apply orb_false_iff in Hcd as [Hgz Hbr].
  rewrite handle_answer. unfold answer.
  assert (forall wb, head_answer L fs D rq wb =
    if negb (Str.endswith (urlsplit_path L (path rq)) "/") then
      reply L 301
        [ ("Location", url_with_slash L (path rq)); ("Content-Length", "0") ] []
    else
      match find_index fs (translate_path L D (path rq))
              ["index.html"; "index.htm"] with
      | Some index => file_answer L fs rq wb index
      | None => listing_answer L fs rq wb (translate_path L D (path rq))
      end) as Hh.
  { intros wb. unfold head_answer, plain_answer, isdir.
    rewrite Hst, Hgz, Hbr. reflexivity. }
  cbv zeta. destruct Hc as [Hc | Hc]; rewrite Hc;
    [change (("GET" =? "GET")%string) with true
    |change (("HEAD" =? "GET")%string) with false;
     change (("HEAD" =? "HEAD")%string) with true];
    cbv iota; apply Hh.
Qed.


Lemma join_endswith (p w : string) :
  simple_name w = true -> Str.endswith (Posixpath.join p w) w = true.
Proof.
  intros H. unfold Posixpath.join, Posixpath.sep.
  rewrite (simple_name_relative _ H).
  destruct (negb (Str.nonempty p) || Str.endswith p "/");
    apply endswith_iff.
  - now exists p.
  - exists (p ++ "/")%string. now rewrite app_assoc_s.
Qed.



(** *** The query and the fragment *)

Lemma before_absent (c : ascii) (p : string) :
  existsb (Ascii.eqb c) (Str.chars p) = false -> Str.before c p = p.
Proof.
  induction p as [|d p IH]; simpl; [reflexivity|].
  intros H. apply orb_false_iff in H as [Hd Hp].
  rewrite Ascii.eqb_sym, Hd, (IH Hp). reflexivity.
Qed.

Lemma before_app_found (c : ascii) (p s : string) :
  existsb (Ascii.eqb c) (Str.chars p) = false ->
  Str.before c (p ++ String c s) = p.
Proof.
  induction p as [|d p IH]; simpl.
  - intros _. now rewrite Ascii.eqb_refl.
  - intros H. apply orb_false_iff in H as [Hd Hp].
    rewrite Ascii.eqb_sym, Hd, (IH Hp). reflexivity.
Qed.

Lemma before_app_other (c : ascii) (p t : string) :
  existsb (Ascii.eqb c) (Str.chars p) = false ->
  Str.before c (p ++ t) = (p ++ Str.before c t)%string.
Proof.
  induction p as [|d p IH]; simpl; [reflexivity|].
  intros H. apply orb_false_iff in H as [Hd Hp].
  rewrite Ascii.eqb_sym, Hd, (IH Hp). reflexivity.
Qed.

(** What [translate_path] keeps of a path with a query or a fragment. *)
Lemma query_cut (c : ascii) (p s : string) :
  c = "?"%char \/ c = "#"%char ->
  existsb (Ascii.eqb "?") (Str.chars p) = false ->
  existsb (Ascii.eqb "#") (Str.chars p) = false ->
  Str.before "#" (Str.before "?" (p ++ String c s)) = p.
Proof.
  intros [-> | ->] Hq Hf.
  - rewrite (before_app_found _ _ _ Hq). now apply before_absent.
  - rewrite (before_app_other _ _ _ Hq). simpl.
    now apply before_app_found.
Qed.

(** X9. A query string or a fragment after the path changes nothing for a
    file: the translated path is that of the bare path, and so is the
    whole response, [Content-Type] and [Content-Encoding] included. *)
Theorem query_and_fragment_ignored (fs : filesystem) (cmd p s : string)
    (c : ascii) (ims : option Z) data mt :
  c = "?"%char \/ c = "#"%char ->
  existsb (Ascii.eqb "?") (Str.chars p) = false ->
  existsb (Ascii.eqb "#") (Str.chars p) = false ->
  stat fs (Server.translate_path L D p) = Some (File data mt) ->
  Server.translate_path L D (p ++ String c s) = Server.translate_path L D p
  /\ Server.handle L fs D
       {| command := cmd; path := p ++ String c s; if_modified_since := ims |}
     = Server.handle L fs D
         {| command := cmd; path := p; if_modified_since := ims |}.
Proof.
  intros Hc Hq Hf Hst.
  assert (Server.translate_path L D (p ++ String c s)
          = Server.translate_path L D p) as Et.
  { unfold Server.translate_path, HttpServer.translate_path.
    rewrite (query_cut c p s Hc Hq Hf).
    rewrite (before_absent _ _ Hq), (before_absent _ _ Hf). reflexivity. }
  split; [exact Et|].
  unfold Server.translate_path in *.
  rewrite !handle_answer.
  unfold answer, head_answer, plain_answer, compressed_answer, file_answer,
    isdir, not_modified.
  cbn [command path if_modified_since]. rewrite Et, Hst. reflexivity.
Qed.

(** *** Where a request can lead *)

(** X10. Whatever the request path, the translated path is the root
    directory followed by a tail that begins at a component boundary and
    whose components are plain names: no [.], no [..], nothing above or
    beside the root. *)
Theorem translated_path_below_root (pth : string) :
  exists rest,
    Server.translate_path L D pth = (D ++ rest)%string
    /\ Forall (fun w => w = "" \/ simple_name w = true) (Str.split "/" rest)
    /\ (rest = "" \/ D = "" \/ Str.endswith D "/" = true
        \/ Str.startswith rest "/" = true).
Proof. apply inside_below_root, translate_path_inside. Qed.

(** *** The handler run to its end *)

Ltac unfold_run :=
  unfold Run.final_state, Run.outcome_of, Run.inherited_get,
    handle_one_request;
  try rewrite dispatch;
  unfold head_answer, compressed_answer, plain_answer, file_answer,
    listing_answer, not_found, error_answer,
    Server.do_GET, HttpServer.do_GET, HttpServer.do_HEAD,
    Server.send_head, Server.send_compressed, HttpServer.send_head,
    send_file_head, list_directory, getsize, open_rb, exists_, isdir,
    send_error, Server.translate_path, stat.

(** Decide what is left of a branch and run its writes; [fin] closes the
    goal on the state that results. *)
Ltac run_leaf fin :=
  cbn;
  repeat (match goal with
          | H : ?f ?q = _ |- context [?f ?q] => rewrite H; cbn
          end);
  try (match goal with
       | |- context [if not_modified ?r ?t then _ else _] =>
           destruct (not_modified r t)
       end; cbn);
  try (match goal with
       | |- context [match error_page ?l ?c ?m ?e with _ => _ end] =>
           destruct (error_page l c m e)
       end; cbn);
  fin.

Ltac run_file q fin := destruct (Str.endswith q "/") eqn:?; run_leaf fin.

Ltac run_suffix p tac :=
  destruct (Str.endswith p ".gz") eqn:?;
  [ | destruct (Str.endswith p ".br") eqn:? ]; tac.

Ltac run_index f p name fin :=
  destruct (has_nul (Posixpath.join p name)) eqn:?;
  [ | destruct (f (Posixpath.join p name)) as [[? ?|? ?]|] eqn:?;
      [ run_file (Posixpath.join p name) fin | | ] ].

(** The tests of [send_head], in the order the handler makes them. *)
Ltac run_head f p fin :=
  destruct (has_nul p) eqn:?;
  [ run_suffix p ltac:(run_file p fin)
  | destruct (f p) as [[? ?|? ?]|] eqn:?;
    [ destruct (Str.endswith p ".gz") eqn:?; [run_leaf fin|];
      destruct (Str.endswith p ".br") eqn:?; [run_leaf fin|];
      run_file p fin
    | destruct (Str.endswith p ".gz") eqn:?; [run_leaf fin|];
      destruct (Str.endswith p ".br") eqn:?; [run_leaf fin|];
      match goal with
      | |- context [negb (Str.endswith ?u "/")] =>
          destruct (Str.endswith u "/") eqn:?
      end;
      [ cbn [negb find_index]; unfold isfile, stat;
        run_index f p "index.html" fin;
        run_index f p "index.htm" fin; run_leaf fin
      | run_leaf fin ]
    | run_suffix p ltac:(run_file p fin) ] ].

Ltac same_response :=
  unfold response_of, lines_of, payload_of, reply, served, no_response; cbn;
  rewrite ?app_nil_r; reflexivity.

(** The inherited [do_GET] on the overridden [send_head] writes the
    answer of the decision tree. *)
Lemma inherited_get_answer (fs : filesystem) (rq : request) :
  command rq = "GET" ->
  Run.inherited_get L fs D rq = head_answer L fs D rq true.
Proof.
  destruct rq as [cmd pth ims]. cbn [command]. intros ->.
  unfold_run. cbn [command path].
  set (p := translate_path L D pth).
  run_head fs p same_response.
Qed.

(** X11. What [UnityWebGLHandler.do_GET] adds to the inherited [do_GET]
    has no effect on the response: the attribute it assigns is read
    nowhere, and the encoding header comes from [send_head] alone. *)
Theorem do_get_override_is_redundant (fs : filesystem) (rq : request) :
  command rq = "GET" ->
  Server.handle L fs D rq = Run.inherited_get L fs D rq.
Proof.
  intros Hc. rewrite handle_answer, (inherited_get_answer fs rq Hc).
  unfold answer. now rewrite Hc.
Qed.


(** *** Types and encodings together *)

(** X15. Storing an asset compressed does not change its type: for a name
    that ends (in any case) in [.wasm], [.data] or [.symbols.json], the
    name with [.gz] or [.br] added has the same [guess_type]. *)
Theorem compressed_variant_keeps_type (pth base enc : string) :
  In base [".wasm"; ".data"; ".symbols.json"] ->
  In enc [".gz"; ".br"] ->
  Str.endswith (Str.lower pth) base = true ->
  Server.guess_type L (pth ++ enc) = Server.guess_type L pth.
Proof.
  intros Hb He Hs.
  assert (Str.endswith (Str.lower (pth ++ enc)) (base ++ Str.lower enc) = true)
    as Hs'.
  { rewrite lower_app. apply endswith_iff in Hs as [pre ->].
    apply endswith_iff. exists pre. now rewrite app_assoc_s. }
  simpl in Hb, He.
  destruct Hb as [<-|[<-|[<-|[]]]]; destruct He as [<-|[<-|[]]];
    (erewrite (guess_type_table L (pth ++ _)); [| |exact Hs'];
     [erewrite (guess_type_table L pth); [reflexivity| |exact Hs]|];
     unfold Server.unity_types; simpl; tauto).
Qed.

(** X16. [Content-Encoding] goes out only with status 200 and only for a
    path that exists: no error, redirect or 304 response carries it,
    whatever the method. *)
Theorem content_encoding_only_on_200 (fs : filesystem) (rq : request) :
  let r := Server.handle L fs D rq in
  header_values "Content-Encoding" r = []
  \/ (status r = Some 200%Z
      /\ stat fs (Server.translate_path L D (path rq)) <> None
      /\ (header_values "Content-Encoding" r = ["gzip"]
          \/ header_values "Content-Encoding" r = ["br"])).
Proof.
  cbv zeta. rewrite handle_answer. unfold answer, Server.translate_path.
  assert (forall wb,
    header_values "Content-Encoding" (head_answer L fs D rq wb) = []
    \/ (status (head_answer L fs D rq wb) = Some 200%Z
        /\ stat fs (translate_path L D (path rq)) <> None
        /\ (header_values "Content-Encoding" (head_answer L fs D rq wb) = ["gzip"]
            \/ header_values "Content-Encoding" (head_answer L fs D rq wb)
               = ["br"]))) as Hh.
  { intros wb. unfold head_answer, compressed_answer.
    destruct (stat fs _) as [n|];
      [|left; apply plain_answer_no_encoding].
    destruct (Str.endswith _ ".gz").
    { right. destruct n; (split; [reflexivity|]; split; [discriminate|]);
        left; reflexivity. }
    destruct (Str.endswith _ ".br").
    { right. destruct n; (split; [reflexivity|]; split; [discriminate|]);
        right; reflexivity. }
    left. apply plain_answer_no_encoding. }
  destruct (String.eqb _ "GET"); [apply Hh|].
  destruct (String.eqb _ "HEAD"); [apply Hh|].
  left. reflexivity.
Qed.

End MoreResponses.

(** ** The command line *)

(** X14. The port is only ever read from the first argument and the
    directory is the second argument whenever there is one: with a single
    argument the directory is the default or that argument, and then only
    if it is not a number. *)
Theorem arguments_provenance (int : string -> option Z) (argv : list string) :
  let r := Main.parse_args int argv in
  (fst r = Main.PORT
   \/ exists a, nth_error argv 1 = Some a /\ int a = Some (fst r))
  /\ match nth_error argv 2 with
     | Some d => snd r = d
     | None =>
         snd r = Main.DIRECTORY
         \/ (nth_error argv 1 = Some (snd r) /\ int (snd r) = None)
     end.
Proof.
  unfold Main.parse_args.
  destruct (nth_error argv 1) as [a|] eqn:E1.
  - destruct (int a) as [n|] eqn:Ea; destruct (nth_error argv 2); simpl;
      split; eauto.
  - destruct (nth_error argv 2); simpl; split; auto.
Qed.

(** ** More runs on the sample disks *)

Section MoreInstances.

Import Reference.





Lemma query_and_fragment_ignored_witness :
  Server.translate_path Sample.lib "Build" "/x.js.gz?v=3" = "Build/x.js.gz"
  /\ Server.handle Sample.lib Sample.disk "Build" (Sample.get "/x.js.gz?v=3")
     = Server.handle Sample.lib Sample.disk "Build" (Sample.get "/x.js.gz").
Proof.
  exact (query_and_fragment_ignored Sample.lib "Build" Sample.disk "GET"
           "/x.js.gz" "v=3" "?"%char None _ _ (or_introl eq_refl) eq_refl
           eq_refl eq_refl).
Defined.

Lemma do_get_override_is_redundant_witness :
  Server.handle Sample.lib Sample.disk "Build" (Sample.get "/x.js.gz")
  = Run.inherited_get Sample.lib Sample.disk "Build" (Sample.get "/x.js.gz").
Proof.
  exact (do_get_override_is_redundant Sample.lib "Build" Sample.disk
           (Sample.get "/x.js.gz") eq_refl).
Defined.


Lemma compressed_variant_keeps_type_witness :
  Server.guess_type Sample.lib "Game.WASM.br"
  = Server.guess_type Sample.lib "Game.WASM".
Proof.
  apply (compressed_variant_keeps_type Sample.lib "Game.WASM" ".wasm" ".br");
    [simpl; tauto | simpl; tauto | reflexivity].
Defined.

End MoreInstances.

(** ** The handler on the wire and its decision trees *)

Section WireResponses.

Import Reference.

#[local] Arguments Str.endswith : simpl never.
#[local] Arguments Str.of_Z : simpl never.
#[local] Arguments Posixpath.join : simpl never.
#[local] Arguments HttpServer.translate_path : simpl never.
#[local] Arguments Server.guess_type : simpl never.
#[local] Arguments Wire.not_modified : simpl never.
#[local] Arguments Wire.rejected : simpl never.
#[local] Arguments String.eqb : simpl nomatch.

Variable L : pylib.
Variable O : Wire.oslib.
Variable D : string.

Lemma wire_dispatch fs readable link (rq : Wire.request) :
  lookup_do ("do_" ++ Wire.command rq) (Wire.do_methods L O fs readable link D rq) =
  if String.eqb (Wire.command rq) "GET" then Some (Wire.do_GET L O fs readable link D rq)
  else if String.eqb (Wire.command rq) "HEAD"
       then Some (Wire.do_HEAD L O fs readable link D rq)
       else None.
Proof.
  unfold Wire.do_methods, lookup_do.
  destruct (String.eqb_spec (Wire.command rq) "GET") as [->|Hg]; [reflexivity|].
  destruct (String.eqb_spec (Wire.command rq) "HEAD") as [->|Hh]; [reflexivity|].
  destruct (String.eqb_spec "do_GET" ("do_" ++ Wire.command rq)) as [E|_].
  { simpl in E. injection E as E. congruence. }
  destruct (String.eqb_spec "do_HEAD" ("do_" ++ Wire.command rq)) as [E|_].
  { simpl in E. injection E as E. congruence. }
  reflexivity.
Qed.

(** The three guarded methods, for a version that is not HTTP/0.9 and for
    HTTP/0.9. *)
Lemma guard_writes (v : string) :
  String.eqb v "HTTP/0.9" = false ->
  Wire.send_response_only v =
    (fun code message =>
       buffer_append
         (StatusLine protocol_version code
            match message with
            | Some m => m
            | None => match Wire.responses code with
                      | Some (m, _) => m
                      | None => ""
                      end
            end))
  /\ Wire.send_header v = HttpServer.send_header
  /\ Wire.base_end_headers v = HttpServer.end_headers.
Proof.
  intros H. unfold Wire.send_response_only, Wire.send_header, Wire.base_end_headers.
  rewrite H. repeat split; reflexivity.
Qed.

Lemma guard_silent (v : string) :
  String.eqb v "HTTP/0.9" = true ->
  Wire.send_response_only v = (fun _ _ => ret tt)
  /\ Wire.send_header v = Wire.silent_header
  /\ Wire.base_end_headers v = ret tt.
Proof.
  intros H. unfold Wire.send_response_only, Wire.send_header, Wire.base_end_headers.
  rewrite H. repeat split; reflexivity.
Qed.

Ltac split_version v :=
  let HV := fresh "HV" in
  destruct (String.eqb v "HTTP/0.9") eqn:HV;
  [ destruct (guard_silent v HV) as (-> & -> & ->)
  | destruct (guard_writes v HV) as (-> & -> & ->) ].

Ltac wire_leaf :=
  cbn;
  repeat (match goal with
          | H : ?f ?q = _ |- context [?f ?q] => rewrite H; cbn
          | H : ?f ?o ?q = _ |- context [?f ?o ?q] => rewrite H; cbn
          end);
  unfold bind; cbn;
  try (match goal with
       | |- context [if Wire.not_modified ?o ?r ?t then _ else _] =>
           destruct (Wire.not_modified o r t)
       end; cbn);
  try (match goal with
       | |- context [match error_page ?l ?c ?m ?e with _ => _ end] =>
           destruct (error_page l c m e)
       end; cbn);
  unfold response_of, lines_of, payload_of, reply, served, no_response, Wire.bare;
  cbn; rewrite ?app_nil_r; reflexivity.

(** The inherited [send_head] from [guess_type] on, run to the end of the
    method that called it. *)
Lemma send_file_head_answer fs readable (rq : Wire.request) wb x q :
  String.eqb (Wire.command rq) "HEAD" = negb wb ->
  response_of
    (snd ((f <- Wire.send_file_head L O fs readable rq q ;; Wire.copy_body wb f)
            (Wire.at_send_head x))) =
  Wire.guarded (Wire.request_version rq)
    (Wire.file_answer L O fs readable rq wb q).
Proof.
  destruct rq as [cmd pth v m].
  unfold Wire.send_file_head, Wire.file_answer, Wire.except_OSError, Wire.open_rb,
    Wire.send_error, Wire.send_response, Wire.end_headers, Wire.guarded,
    not_found, error_answer, Wire.copy_body, Wire.at_send_head.
  cbn [Wire.command Wire.path Wire.request_version Wire.headers].
  intros Hc.
  split_version v;
  (destruct (Str.endswith q "/") eqn:?; [destruct wb; wire_leaf | ];
   destruct (Wire.rejected O q) eqn:?; [destruct wb; wire_leaf | ];
   destruct (fs q) as [[? ?|? ?]|] eqn:?;
   [ destruct (readable q) eqn:? | | ];
   destruct wb; wire_leaf).
Qed.

Lemma list_directory_answer fs readable link (rq : Wire.request) wb x q :
  String.eqb (Wire.command rq) "HEAD" = negb wb ->
  response_of
    (snd ((f <- Wire.list_directory L O fs readable link rq q ;; Wire.copy_body wb f)
            (Wire.at_send_head x))) =
  Wire.guarded (Wire.request_version rq)
    (Wire.listing_answer L O fs readable link rq wb q).
Proof.
  destruct rq as [cmd pth v m].
  unfold Wire.list_directory, Wire.listing_answer, Wire.except_OSError, Wire.listdir,
    Wire.send_error, Wire.send_response, Wire.end_headers, Wire.guarded,
    not_found, error_answer, Wire.copy_body, Wire.at_send_head.
  cbn [Wire.command Wire.path Wire.request_version Wire.headers].
  intros Hc.
  split_version v;
  (destruct (Wire.rejected O q) eqn:?; [destruct wb; wire_leaf | ];
   destruct (fs q) as [[? ?|? ?]|] eqn:?;
   [ | destruct (readable q) eqn:?;
       [ cbn;
         repeat (match goal with
                 | H : ?f ?q = _ |- context [?f ?q] => rewrite H; cbn
                 | H : ?f ?o ?q = _ |- context [?f ?o ?q] => rewrite H; cbn
                 end);
         unfold bind; cbn;
         destruct (Wire.directory_page O _ _)
       | ] | ];
   destruct wb; wire_leaf).
Qed.

(** The overridden [send_head], run to the end of the method that called
    it. *)
Lemma send_head_answer fs readable link (rq : Wire.request) wb x :
  String.eqb (Wire.command rq) "HEAD" = negb wb ->
  response_of
    (snd ((f <- Wire.send_head L O fs readable link D rq ;; Wire.copy_body wb f)
            (Wire.at_send_head x))) =
  Wire.guarded (Wire.request_version rq)
    (Wire.head_answer L O fs readable link D rq wb).
Proof.
  intros Hc.
  assert (response_of
            (snd ((f <- Wire.base_send_head L O fs readable link D rq ;;
                   Wire.copy_body wb f) (Wire.at_send_head x))) =
          Wire.guarded (Wire.request_version rq)
            (Wire.plain_answer L O fs readable link D rq wb)) as Hplain.
  { unfold Wire.base_send_head, Wire.plain_answer, Wire.translate_path.
    cbv zeta.
    destruct (Wire.isdir O fs _) eqn:Hd;
      [|now apply send_file_head_answer].
    destruct (Str.endswith (urlsplit_path L (Wire.path rq)) "/") eqn:Hu; cbv beta iota delta [negb].
    - unfold Wire.find_index.
      destruct (Wire.isfile O fs (Posixpath.join _ "index.html"));
        [now apply send_file_head_answer|].
      destruct (Wire.isfile O fs (Posixpath.join _ "index.htm"));
        [now apply send_file_head_answer|].
      now apply list_directory_answer.
    - destruct rq as [cmd pth v m].
      unfold Wire.send_response, Wire.end_headers, Wire.guarded, Wire.copy_body,
        Wire.at_send_head.
      cbn [Wire.command Wire.path Wire.request_version Wire.headers] in *.
      split_version v; destruct wb; wire_leaf. }
  unfold Wire.send_head, Wire.head_answer, Wire.exists_, Wire.translate_path.
  cbv zeta.
  destruct (Wire.stat O fs _) as [n|] eqn:Hst; [|exact Hplain].
  destruct (Str.endswith _ ".gz") eqn:Hgz;
    [| destruct (Str.endswith _ ".br") eqn:Hbr; [|exact Hplain] ];
    (unfold Wire.stat in Hst;
     destruct (Wire.rejected O _) eqn:Hrej; [discriminate|];
     destruct rq as [cmd pth v m];
     unfold Wire.send_compressed, Wire.compressed_answer, Wire.getsize,
       Wire.open_rb, Wire.send_response, Wire.end_headers, Wire.guarded,
       Wire.copy_body, Wire.at_send_head;
     cbn [Wire.command Wire.path Wire.request_version Wire.headers] in *;
     set (p := translate_path L D pth) in *;
     destruct n as [data mt|es sz];
     [ destruct (readable p) eqn:? | ];
     split_version v; destruct wb; wire_leaf).
Qed.

(** The handler writes what the decision tree says. *)
Lemma respond_answer fs readable link (rq : Wire.request) :
  Wire.respond L O fs readable link D rq = Wire.answer L O fs readable link D rq.
Proof.
  unfold Wire.respond, Wire.dispatch, Wire.answer, Wire.full_answer.
  rewrite wire_dispatch.
  destruct (String.eqb (Wire.command rq) "GET") eqn:HG.
  - apply String.eqb_eq in HG.
    assert (String.eqb (Wire.command rq) "HEAD" = negb true) as Hc
      by now rewrite HG.
    unfold Wire.do_GET. cbv zeta.
    destruct (Str.endswith _ ".gz");
      [| destruct (Str.endswith _ ".br")];
      exact (send_head_answer fs readable link rq true _ Hc).
  - destruct (String.eqb (Wire.command rq) "HEAD") eqn:HH.
    + exact (send_head_answer fs readable link rq false None HH).
    + destruct rq as [cmd pth v m].
      unfold Wire.send_error, Wire.send_response, Wire.end_headers, Wire.guarded,
        error_answer.
      cbn [Wire.command Wire.path Wire.request_version Wire.headers] in *.
      split_version v; wire_leaf.
Qed.

#[local] Arguments Wire.dispatch : simpl never.
#[local] Arguments Wire.version_number : simpl never.
#[local] Arguments Wire.pair_geb : simpl never.
#[local] Arguments Str.split_whitespace : simpl never.
#[local] Arguments Str.rstrip_chars : simpl never.
#[local] Arguments Str.lstrip_char : simpl never.
#[local] Arguments Str.startswith : simpl never.
#[local] Arguments N.ltb : simpl never.
#[local] Arguments Nat.leb : simpl nomatch.
#[local] Arguments Nat.eqb : simpl nomatch.
#[local] Arguments nth : simpl nomatch.
#[local] Arguments last : simpl nomatch.

Ltac refused v :=
  unfold Wire.refusal, Wire.send_error, Wire.send_response, Wire.end_headers,
    Wire.guarded, error_answer, Wire.send_response_only, Wire.send_header,
    Wire.base_end_headers;
  unfold bind; cbn;
  destruct (String.eqb v "HTTP/0.9"); wire_leaf.

Ltac accept m :=
  cbn;
  destruct (String.eqb (Str.lower (Wire.Connection m)) "close");
  destruct (String.eqb (Str.lower (Wire.Connection m)) "keep-alive");
  destruct (String.eqb (Str.lower (Wire.Expect m)) "100-continue");
  cbn; reflexivity.

Ltac refused_at :=
  unfold Wire.refusal, Wire.send_error, Wire.send_response, Wire.end_headers,
    Wire.guarded, error_answer, Wire.send_response_only, Wire.send_header,
    Wire.base_end_headers;
  wire_leaf.

(** Before the dispatch [handle_one_request] does what [verdict] says. *)
Lemma handle_verdict fs readable link (raw : Wire.incoming) :
  Wire.handle L O fs readable link D raw =
  match Wire.verdict L O raw with
  | inl r => r
  | inr rq => Wire.respond L O fs readable link D rq
  end.
Proof.
  destruct raw as [line rest].
  unfold Wire.handle, Wire.handle_one_request, Wire.verdict, Wire.parse_request,
    Wire.parse_version, Wire.parse_rest, Wire.handle_expect_100,
    Wire.default_request_version.
  cbn [Wire.raw_requestline Wire.header_part].
  destruct (_ <? _)%N.
  { refused_at. }
  destruct (Str.nonempty line); [|reflexivity].
  cbv beta iota zeta delta [negb].
  set (requestline := Str.rstrip_chars _ line).
  destruct (Str.split_whitespace requestline) as [|w1 [|w2 [|w3 ws]]] eqn:Hw.
  - reflexivity.
  - refused_at.
  - cbn. destruct (String.eqb w1 "GET") eqn:HG; cbn; [|refused_at].
    apply String.eqb_eq in HG. subst w1.
    destruct rest as [err|err|m]; [refused_at | refused_at | accept m].
  - remember (last _ _) as version eqn:Hversion.
    destruct ws as [|w4 ws].
    + cbn. destruct (Wire.version_number O version) as [[[a b] base]|];
        [|refused_at].
      destruct (Wire.pair_geb (a, b) (1, 1)%Z);
        (destruct (Wire.pair_geb (a, b) (2, 0)%Z); cbn; [refused_at|]);
        (destruct (String.eqb w1 "HEAD") eqn:?;
         (destruct rest as [err|err|m];
          [refused version | refused version | accept m])).
    + cbn. destruct (Wire.version_number O version) as [[[a b] base]|];
        [|refused_at].
      destruct (Wire.pair_geb (a, b) (1, 1)%Z);
        (destruct (Wire.pair_geb (a, b) (2, 0)%Z); cbn; [refused_at|]);
        refused version.
Qed.

(** [accepted] is what [parse_request] returns. *)
Lemma parse_request_accepted (raw : Wire.incoming) :
  (65536 <? N.of_nat (String.length (Wire.raw_requestline raw)))%N = false ->
  Str.nonempty (Wire.raw_requestline raw) = true ->
  fst (Wire.parse_request L O raw fresh_handler) = Ret (Wire.accepted L O raw).
Proof.
  destruct raw as [line rest].
  unfold Wire.accepted, Wire.verdict, Wire.parse_request,
    Wire.parse_version, Wire.parse_rest, Wire.handle_expect_100,
    Wire.default_request_version.
  cbn [Wire.raw_requestline Wire.header_part].
  intros -> ->.
  cbv beta iota zeta delta [negb].
  set (requestline := Str.rstrip_chars _ line).
  destruct (Str.split_whitespace requestline) as [|w1 [|w2 [|w3 ws]]] eqn:Hw.
  - reflexivity.
  - refused_at.
  - cbn. destruct (String.eqb w1 "GET") eqn:HG; cbn; [|refused_at].
    apply String.eqb_eq in HG. subst w1.
    destruct rest as [err|err|m]; [refused_at | refused_at | accept m].
  - remember (last _ _) as version eqn:Hversion.
    destruct ws as [|w4 ws].
    + cbn. destruct (Wire.version_number O version) as [[[a b] base]|];
        [|refused_at].
      destruct (Wire.pair_geb (a, b) (1, 1)%Z);
        (destruct (Wire.pair_geb (a, b) (2, 0)%Z); cbn; [refused_at|]);
        (destruct (String.eqb w1 "HEAD") eqn:?;
         (destruct rest as [err|err|m];
          [refused version | refused version | accept m])).
    + cbn. destruct (Wire.version_number O version) as [[[a b] base]|];
        [|refused_at].
      destruct (Wire.pair_geb (a, b) (1, 1)%Z);
        (destruct (Wire.pair_geb (a, b) (2, 0)%Z); cbn; [refused_at|]);
        refused version.
Qed.

End WireResponses.

(** ** The shape of what goes out *)

Section WireShape.

Import Reference.

Variable L : pylib.
Variable O : Wire.oslib.
Variable D : string.

Ltac in_list := simpl; repeat (first [left; reflexivity | right]).

Ltac fields :=
  unfold branch_headers; repeat (apply Forall_cons; [in_list|]); apply Forall_nil.

Lemma headed_more (codes codes' : list Z) (r : response) :
  incl codes codes' -> Wire.headed L codes r -> Wire.headed L codes' r.
Proof.
  intros Hi [H | (code & hs & b & -> & Hc & Hhs)]; [now left|].
  right. exists code, hs, b. auto.
Qed.

Lemma guarded_headed codes v r : Wire.headed L codes r -> Wire.headed L codes (Wire.guarded v r).
Proof.
  unfold Wire.guarded. destruct (negb _); [auto|]. intros _. left. auto.
Qed.

Lemma error_headed wb c m e : Wire.headed L [c] (error_answer L wb c m e).
Proof.
  right. unfold error_answer. do 3 eexists.
  split; [reflexivity|]. split; [in_list | fields].
Qed.

Lemma wire_find_index_not_rejected (fs : filesystem) (q index : string) :
  Wire.find_index O fs q ["index.html"; "index.htm"] = Some index ->
  Wire.rejected O index = false.
Proof.
  unfold Wire.find_index, Wire.isfile, Wire.stat.
  destruct (Wire.rejected O (Posixpath.join q "index.html")) eqn:E1.
  - destruct (Wire.rejected O (Posixpath.join q "index.htm")) eqn:E2; [discriminate|].
    destruct (fs _) as [[? ?|? ?]|]; try discriminate. now intros [= <-].
  - destruct (fs (Posixpath.join q "index.html")) as [[? ?|? ?]|];
      try (now intros [= <-]);
      (destruct (Wire.rejected O (Posixpath.join q "index.htm")) eqn:E2;
       [discriminate|];
       destruct (fs (Posixpath.join q "index.htm")) as [[? ?|? ?]|];
       try discriminate; now intros [= <-]).
Qed.

(** Every answer in HTTP/1.x format is a [reply] with one of the five
    status codes of the handler, unless the translated path is one the
    operating system does not take and nothing is written. *)
Lemma full_answer_shape fs readable link (rq : Wire.request) :
  (Wire.full_answer L O fs readable link D rq = no_response
   /\ (Wire.rejected O (translate_path L D (Wire.path rq)) = true
       \/ exists displaypath entries,
            Wire.directory_page O displaypath entries = None))
  \/ exists code hs b,
       Wire.full_answer L O fs readable link D rq = reply L code hs b
       /\ In code [200; 301; 304; 404; 501]%Z /\ branch_headers hs.
Proof.
  assert (forall wb c m e, In c [404; 501]%Z ->
            exists code hs b,
              error_answer L wb c m e = reply L code hs b
              /\ In code [200; 301; 304; 404; 501]%Z /\ branch_headers hs) as Herr.
  { intros wb c m e Hc. unfold error_answer. do 3 eexists.
    split; [reflexivity|]. split; [|fields].
    destruct Hc as [<-|[<-|[]]]; in_list. }
  assert (forall wb q, Wire.rejected O q = false ->
            exists code hs b,
              Wire.file_answer L O fs readable rq wb q = reply L code hs b
              /\ In code [200; 301; 304; 404; 501]%Z /\ branch_headers hs) as Hfile.
  { intros wb q Hq. unfold Wire.file_answer, not_found. rewrite Hq.
    destruct (Str.endswith q "/"); [apply Herr; in_list|].
    destruct (fs q) as [[data mt|es sz]|]; try (apply Herr; in_list).
    destruct (readable q); [|apply Herr; in_list].
    destruct (Wire.not_modified O rq mt); do 3 eexists;
      (split; [reflexivity | split; [in_list | fields]]). }
  assert (forall wb,
            (Wire.plain_answer L O fs readable link D rq wb = no_response
             /\ (Wire.rejected O (translate_path L D (Wire.path rq)) = true
                 \/ exists displaypath entries,
                      Wire.directory_page O displaypath entries = None))
            \/ exists code hs b,
                 Wire.plain_answer L O fs readable link D rq wb = reply L code hs b
                 /\ In code [200; 301; 304; 404; 501]%Z /\ branch_headers hs)
    as Hplain.
  { intros wb. unfold Wire.plain_answer, Wire.isdir, Wire.stat.
    destruct (Wire.rejected O (translate_path L D (Wire.path rq))) eqn:Hn.
    - unfold Wire.file_answer, not_found. rewrite Hn.
      destruct (Str.endswith _ "/"); [right; apply Herr; in_list | left; auto].
    - destruct (fs (translate_path L D (Wire.path rq))) as [[data mt|es sz]|] eqn:Hp;
        try (right; now apply Hfile).
      destruct (negb _);
        [right; do 3 eexists; split; [reflexivity | split; [in_list | fields]]|].
      destruct (Wire.find_index O fs _ _) eqn:Hi.
      + right. apply Hfile. eapply wire_find_index_not_rejected; eauto.
      + unfold Wire.listing_answer, not_found. rewrite Hn, Hp.
        destruct (readable _); [|right; apply Herr; in_list].
        destruct (Wire.directory_page O _ _) eqn:Hpage.
        * right. do 3 eexists; split; [reflexivity | split; [in_list | fields]].
        * left. split; [reflexivity|]. right. eauto. }
  assert (forall wb,
            (Wire.head_answer L O fs readable link D rq wb = no_response
             /\ (Wire.rejected O (translate_path L D (Wire.path rq)) = true
                 \/ exists displaypath entries,
                      Wire.directory_page O displaypath entries = None))
            \/ exists code hs b,
                 Wire.head_answer L O fs readable link D rq wb = reply L code hs b
                 /\ In code [200; 301; 304; 404; 501]%Z /\ branch_headers hs)
    as Hhead.
  { intros wb. unfold Wire.head_answer, Wire.compressed_answer.
    destruct (Wire.stat O fs _) as [[data mt|es sz]|]; [| |apply Hplain];
      (destruct (Str.endswith _ ".gz");
       [right; do 3 eexists; split; [reflexivity | split; [in_list | fields]]|]);
      (destruct (Str.endswith _ ".br");
       [right; do 3 eexists; split; [reflexivity | split; [in_list | fields]]|]);
      apply Hplain. }
  unfold Wire.full_answer.
  destruct (String.eqb _ "GET"); [apply Hhead|].
  destruct (String.eqb _ "HEAD"); [apply Hhead|].
  right. apply Herr; in_list.
Qed.

Lemma answer_headed fs readable link (rq : Wire.request) :
  Wire.headed L [200; 301; 304; 404; 501]%Z (Wire.answer L O fs readable link D rq).
Proof.
  unfold Wire.answer. apply guarded_headed.
  destruct (full_answer_shape fs readable link rq)
    as [[-> _] | (code & hs & b & -> & Hc & Hhs)].
  - left. auto.
  - right. exists code, hs, b. auto.
Qed.

(** What the parser answers by itself. *)
Lemma verdict_headed (raw : Wire.incoming) (r : response) :
  Wire.verdict L O raw = inl r -> Wire.headed L [400; 414; 431]%Z r.
Proof.
  assert (forall v c code m e, In code [400; 414; 431]%Z ->
            Wire.headed L [400; 414; 431]%Z (Wire.refusal L v c code m e)) as Href.
  { intros v c code m e Hc. unfold Wire.refusal. apply guarded_headed.
    eapply headed_more; [|apply error_headed].
    intros x [<-|[]]. exact Hc. }
  assert (forall c code m e,
            Wire.headed L [400; 414; 431]%Z
              (Wire.refusal L Wire.default_request_version c code m e)) as Hdef.
  { intros c code m e. left. auto. }
  assert (Wire.headed L [400; 414; 431]%Z no_response) as Hno by (left; auto).
  unfold Wire.verdict.
  destruct (_ <? _)%N; [intros [= <-]; apply Href; in_list|].
  destruct (negb (Str.nonempty _)); [intros [= <-]; exact Hno|].
  cbv zeta.
  destruct (Nat.eqb _ 0); [intros [= <-]; exact Hno|].
  destruct (3 <=? _)%nat.
  - destruct (Wire.version_number O _) as [[[a b] base]|];
      [|intros [= <-]; apply Hdef].
    destruct (Wire.pair_geb _ _); [intros [= <-]; apply Hdef|].
    destruct (negb _); [intros [= <-]; apply Href; in_list|].
    destruct (_ && _); [intros [= <-]; apply Href; in_list|].
    destruct (Wire.header_part raw); try discriminate;
      intros [= <-]; apply Href; in_list.
  - destruct (negb _); [intros [= <-]; apply Href; in_list|].
    destruct (_ && _); [intros [= <-]; apply Href; in_list|].
    destruct (Wire.header_part raw); try discriminate;
      intros [= <-]; apply Href; in_list.
Qed.

(** Whatever arrives, what goes out has no status line and no headers, or
    is a [reply]. *)
Lemma handle_headed fs readable link (raw : Wire.incoming) :
  Wire.headed L [200; 301; 304; 400; 404; 414; 431; 501]%Z
    (Wire.handle L O fs readable link D raw).
Proof.
  rewrite (handle_verdict L O D).
  destruct (Wire.verdict L O raw) as [r|rq] eqn:Hv.
  - eapply headed_more; [|eapply verdict_headed; eauto].
    intros x Hx. simpl in Hx |- *. tauto.
  - rewrite (respond_answer L O D).
    eapply headed_more; [|apply answer_headed].
    intros x Hx. simpl in Hx |- *. tauto.
Qed.

End WireShape.

(** ** Properties of the handler on the wire *)

Section WireClaims.

Import Reference.

Variable L : pylib.
Variable O : Wire.oslib.
Variable D : string.

Ltac in_list := simpl; repeat (first [left; reflexivity | right]).

(** What the parser accepts goes to the [do_*] methods. *)
Lemma handle_accepted fs readable link (raw : Wire.incoming) (rq : Wire.request) :
  Wire.accepted L O raw = Some rq ->
  Wire.handle L O fs readable link D raw = Wire.answer L O fs readable link D rq.
Proof.
  unfold Wire.accepted. intros H. rewrite (handle_verdict L O D).
  destruct (Wire.verdict L O raw) as [r|rq']; [discriminate|].
  injection H as ->. apply respond_answer.
Qed.

(** What it does not accept gets an error of the parser, or nothing. *)
Lemma handle_refused fs readable link (raw : Wire.incoming) :
  Wire.accepted L O raw = None ->
  Wire.headed L [400; 414; 431]%Z (Wire.handle L O fs readable link D raw).
Proof.
  unfold Wire.accepted. intros H. rewrite (handle_verdict L O D).
  destruct (Wire.verdict L O raw) as [r|rq'] eqn:Hv; [|discriminate].
  eapply verdict_headed; eauto.
Qed.

Lemma guarded_status v r :
  status (Wire.guarded v r) =
  if String.eqb v "HTTP/0.9" then None else status r.
Proof. unfold Wire.guarded. now destruct (String.eqb v "HTTP/0.9"). Qed.

Lemma guarded_body v r : body (Wire.guarded v r) = body r.
Proof. unfold Wire.guarded. now destruct (String.eqb v "HTTP/0.9"). Qed.

Lemma guarded_headers v r :
  headers (Wire.guarded v r) =
  if String.eqb v "HTTP/0.9" then [] else headers r.
Proof. unfold Wire.guarded. now destruct (String.eqb v "HTTP/0.9"). Qed.


(** X2. Whatever arrives, a status line that goes out carries 200, 301,
    304, 404 or 501 from the handler, or 400, 414 or 431 from the request
    parser: never 403, 405 or 500. *)
Theorem status_codes_sent fs readable link (raw : Wire.incoming) :
  match status (Wire.handle L O fs readable link D raw) with
  | Some code => In code [200; 301; 304; 400; 404; 414; 431; 501]%Z
  | None => True
  end.
Proof.
  destruct (handle_headed L O D fs readable link raw)
    as [[-> _] | (code & hs & b & -> & Hc & _)]; [exact I | exact Hc].
Qed.

(** C6, as the code has it.  A request that the parser accepts and whose
    method is not [GET], [HEAD] or [OPTIONS] is answered with the error
    page of 501 (Not Implemented), under the status 501 unless the request
    line names the version HTTP/0.9; a request that the parser does not
    accept gets status 400, 414 or 431, or no status line. *)
Theorem other_methods_not_implemented fs readable link (raw : Wire.incoming) :
  let r := Wire.handle L O fs readable link D raw in
  match Wire.accepted L O raw with
  | Some rq =>
      Wire.command rq <> "GET" -> Wire.command rq <> "HEAD" ->
      Wire.command rq <> "OPTIONS" ->
      status r = (if String.eqb (Wire.request_version rq) "HTTP/0.9"
                  then None else Some 501%Z)
      /\ body r = error_page L 501
                    ("Unsupported method (" ++ repr L (Wire.command rq) ++ ")")
                    "Server does not support this operation"
  | None => In (status r) [None; Some 400%Z; Some 414%Z; Some 431%Z]
  end.
Proof.
  cbv zeta. destruct (Wire.accepted L O raw) as [rq|] eqn:Ha.
  - intros Hg Hh _. rewrite (handle_accepted _ _ _ _ _ Ha).
    unfold Wire.answer, Wire.full_answer.
    apply String.eqb_neq in Hg, Hh. rewrite Hg, Hh.
    rewrite guarded_status, guarded_body. split; reflexivity.
  - destruct (handle_refused fs readable link raw Ha)
      as [[-> _] | (code & hs & b & -> & Hc & _)]; [in_list|].
    unfold reply, status. simpl in Hc.
    destruct Hc as [<-|[<-|[<-|[]]]]; in_list.
Qed.

(** C7, as the code has it.  A request whose path would resolve outside
    the root by plain normalization is not refused: the [..] segments are
    dropped, the path the handler resolves is inside the root, and the
    status is never 403. *)
Theorem traversal_is_sanitized fs readable link (raw : Wire.incoming)
    (rq : Wire.request) :
  Wire.accepted L O raw = Some rq ->
  resolves_outside D (Wire.path rq) = true ->
  inside D (translate_path L D (Wire.path rq))
  /\ status (Wire.handle L O fs readable link D raw) <> Some 403%Z.
Proof.
  intros _ _. split; [apply translate_path_inside|].
  destruct (handle_headed L O D fs readable link raw)
    as [[-> _] | (code & hs & b & -> & H & _)]; [discriminate|].
  unfold reply, status. intros [= ->]. simpl in H.
  repeat (destruct H as [H|H]; [discriminate|]). contradiction.
Qed.

End WireClaims.

(** ** Relative paths *)

Section RelativePaths.

Import Reference.

Lemma simple_name_nonempty (w : string) :
  simple_name w = true -> Str.nonempty w = true.
Proof.
  unfold simple_name. intros H.
  apply andb_true_iff in H as [H _]. apply andb_true_iff in H as [H _].
  now apply andb_true_iff in H as [H _].
Qed.

Lemma simple_name_not_dots (w : string) :
  simple_name w = true -> String.eqb w "." = false /\ String.eqb w ".." = false.
Proof.
  unfold simple_name. intros H.
  apply andb_true_iff in H as [H H2]. apply andb_true_iff in H as [_ H1].
  apply negb_true_iff in H1, H2. auto.
Qed.

Lemma simple_names_in (ws : list string) (w : string) :
  forallb simple_name ws = true -> In w ws -> simple_name w = true.
Proof. intros H Hin. rewrite forallb_forall in H. auto. Qed.

(** [split] undoes [join] on names without the separator. *)
Lemma split_join (ws : list string) :
  ws <> [] -> forallb simple_name ws = true ->
  Str.split "/" (Str.join "/" ws) = ws.
Proof.
  induction ws as [|w ws IH]; [congruence|]. intros _ H.
  simpl in H. apply andb_true_iff in H as [Hw Hws].
  destruct ws as [|w' ws].
  - simpl. apply split_no_sep_id. now apply simple_name_no_slash.
  - change (Str.join "/" (w :: w' :: ws))
      with (w ++ String "/" (Str.join "/" (w' :: ws)))%string.
    rewrite split_app_sep, (split_no_sep_id _ _ (simple_name_no_slash _ Hw)).
    rewrite IH; [reflexivity | discriminate | assumption].
Qed.

(** The loop of [normpath] keeps plain names. *)
Lemma normpath_steps_plain (n : nat) (ws acc : list string) :
  forallb simple_name ws = true ->
  fold_left (Posixpath.normpath_step n) ws acc = acc ++ ws.
Proof.
  revert acc. induction ws as [|w ws IH]; intros acc H; simpl.
  - now rewrite app_nil_r.
  - simpl in H. apply andb_true_iff in H as [Hw Hws].
    rewrite IH by assumption.
    unfold Posixpath.normpath_step at 1.
    destruct (simple_name_not_dots _ Hw) as [Hd Hdd].
    pose proof (simple_name_nonempty _ Hw) as Hn.
    unfold Posixpath.curdir, Posixpath.pardir.
    assert (String.eqb w "" = false) as He
      by (destruct w; [simpl in Hn; discriminate Hn | reflexivity]).
    rewrite He, Hd, Hdd. simpl. now rewrite <- app_assoc.
Qed.

Lemma join_starts_plain (ws : list string) :
  ws <> [] -> forallb simple_name ws = true ->
  exists c rest, Str.join "/" ws = String c rest /\ Ascii.eqb c "/" = false.
Proof.
  destruct ws as [|w ws]; [congruence|]. intros _ H.
  simpl in H. apply andb_true_iff in H as [Hw _].
  pose proof (simple_name_relative _ Hw) as Hr.
  pose proof (simple_name_nonempty _ Hw) as Hn.
  destruct w as [|c w]; [simpl in Hn; discriminate Hn|].
  unfold Str.startswith, Str.chars in Hr.
  cbn [list_ascii_of_string Str.starts] in Hr.
  assert (Ascii.eqb c "/" = false) as Hc.
  { rewrite Ascii.eqb_sym.
    destruct (Ascii.eqb "/" c); [discriminate Hr | reflexivity]. }
  destruct ws as [|w' ws]; simpl; eauto.
Qed.

(** [normpath] leaves a slash and plain names between slashes as they
    are. *)
Lemma normpath_plain (ws : list string) :
  ws <> [] -> forallb simple_name ws = true ->
  Posixpath.normpath ("/" ++ Str.join "/" ws) = ("/" ++ Str.join "/" ws)%string.
Proof.
  intros Hne H. unfold Posixpath.normpath.
  destruct (join_starts_plain ws Hne H) as (c & rest & Hj & Hc).
  change ("/" ++ Str.join "/" ws)%string with (String "/" (Str.join "/" ws)).
  cbn [String.eqb]. 
  replace (String.eqb (String "/" (Str.join "/" ws)) "") with false by reflexivity.
  assert (Str.startswith (String "/" (Str.join "/" ws)) Posixpath.sep = true) as ->
    by reflexivity.
  assert (Str.startswith (String "/" (Str.join "/" ws))
            (Str.repeat_str Posixpath.sep 2) = false) as ->.
  { rewrite Hj. unfold Str.startswith, Str.chars, Posixpath.sep.
    cbn [Str.repeat_str String.append list_ascii_of_string Str.starts].
    rewrite Ascii.eqb_refl, (Ascii.eqb_sym "/" c), Hc. reflexivity. }
  cbn [andb].
  cbn [Str.split]. rewrite Ascii.eqb_refl.
  rewrite (split_join ws Hne H).
  cbn [fold_left].
  change (Posixpath.normpath_step 1 [] "") with (@nil string).
  rewrite (normpath_steps_plain 1 ws [] H). reflexivity.
Qed.

Lemma ignored_word_plain (w : string) :
  simple_name w = true -> ignored_word w = false.
Proof.
  intros H. unfold ignored_word, Posixpath.curdir, Posixpath.pardir.
  rewrite (dirname_no_slash _ (simple_name_no_slash _ H)).
  destruct (simple_name_not_dots _ H) as [-> ->]. reflexivity.
Qed.

Lemma translate_fold_plain (ws : list string) (acc : string) :
  forallb simple_name ws = true ->
  fold_left (fun path word =>
               if ignored_word word then path else Posixpath.join path word)
            ws acc
  = fold_left Posixpath.join ws acc.
Proof.
  revert acc. induction ws as [|w ws IH]; intros acc H; [reflexivity|].
  simpl in H. apply andb_true_iff in H as [Hw Hws].
  simpl. rewrite (ignored_word_plain _ Hw). now apply IH.
Qed.

Lemma filter_nonempty_plain (ws : list string) :
  forallb simple_name ws = true -> filter Str.nonempty ws = ws.
Proof.
  induction ws as [|w ws IH]; [reflexivity|]. intros H.
  simpl in H. apply andb_true_iff in H as [Hw Hws].
  simpl. rewrite (simple_name_nonempty _ Hw), IH; auto.
Qed.

(** A URL path without query, fragment or final slash that decodes to the
    plain names [ws] after a slash is translated to the path of [ws] below
    the root. *)
Lemma translate_path_plain (L : pylib) (D u : string) (ws : list string) :
  ws <> [] -> forallb simple_name ws = true ->
  Str.before "?" u = u -> Str.before "#" u = u ->
  Str.endswith (Str.rstrip u) "/" = false ->
  unquote L u = ("/" ++ Str.join "/" ws)%string ->
  translate_path L D u = fold_left Posixpath.join ws D.
Proof.
  intros Hne H Hq Hf Hsl Hu. unfold translate_path.
  rewrite Hq, Hf, Hsl, Hu, (normpath_plain ws Hne H).
  change ("/" ++ Str.join "/" ws)%string with (String "/" (Str.join "/" ws)).
  cbn [Str.split]. rewrite Ascii.eqb_refl, (split_join ws Hne H).
  cbn [filter Str.nonempty]. rewrite (filter_nonempty_plain ws H).
  now apply translate_fold_plain.
Qed.

Lemma endswith_last_char (pre w : string) :
  Str.nonempty w = true ->
  existsb (Ascii.eqb "/") (Str.chars w) = false ->
  Str.endswith (pre ++ w) "/" = false.
Proof.
  intros Hn Hs. unfold Str.endswith. rewrite chars_app, rev_app_distr.
  destruct (rev (Str.chars w)) as [|c l] eqn:E.
  - apply (f_equal (@rev ascii)) in E. rewrite rev_involutive in E.
    destruct w; [discriminate | discriminate].
  - cbn [app rev Str.chars list_ascii_of_string Str.starts].
    assert (In c (Str.chars w)) as Hin.
    { apply in_rev. rewrite E. now left. }
    destruct (Ascii.eqb "/" c) eqn:Ec; [|reflexivity]. exfalso.
    assert (existsb (Ascii.eqb "/") (Str.chars w) = true) as Ht.
    { apply existsb_exists. exists c. auto. }
    congruence.
Qed.

Lemma join_plain_no_slash_end (p w : string) :
  simple_name w = true -> Str.endswith (Posixpath.join p w) "/" = false.
Proof.
  intros H. unfold Posixpath.join, Posixpath.sep.
  rewrite (simple_name_relative _ H).
  pose proof (simple_name_nonempty _ H) as Hn.
  pose proof (simple_name_no_slash _ H) as Hs.
  destruct (negb (Str.nonempty p) || Str.endswith p "/").
  - now apply endswith_last_char.
  - rewrite <- app_assoc_s. now apply endswith_last_char.
Qed.

Lemma below_root_no_slash_end (D : string) (ws : list string) :
  ws <> [] -> forallb simple_name ws = true ->
  Str.endswith (fold_left Posixpath.join ws D) "/" = false.
Proof.
  intros Hne H. destruct (exists_last Hne) as (init & w & ->).
  rewrite fold_left_app. simpl. apply join_plain_no_slash_end.
  apply (simple_names_in _ _ H). apply in_or_app. right. now left.
Qed.

End RelativePaths.

(** ** Files *)

Section WireFiles.

Import Reference.

Variable L : pylib.
Variable O : Wire.oslib.
Variable D : string.

Ltac in_list := simpl; repeat (first [left; reflexivity | right]).

Lemma wire_stat_some (fs : filesystem) (q : string) (n : node) :
  Wire.stat O fs q = Some n -> Wire.rejected O q = false /\ fs q = Some n.
Proof. unfold Wire.stat. destruct (Wire.rejected O q); [discriminate | auto]. Qed.

(** A [GET] whose translated path names a file, in HTTP/1.x format. *)
Lemma full_answer_get_file fs readable link (rq : Wire.request) data mt :
  Wire.command rq = "GET" ->
  Wire.stat O fs (translate_path L D (Wire.path rq)) = Some (File data mt) ->
  Str.endswith (translate_path L D (Wire.path rq)) "/" = false ->
  Wire.full_answer L O fs readable link D rq =
  let p := translate_path L D (Wire.path rq) in
  let size := Str.of_Z (Z.of_nat (length data)) in
  if Str.endswith p ".gz" then
    reply L 200 [ ("Content-Encoding", "gzip");
                  ("Content-Type", Server.guess_type L p);
                  ("Content-Length", size) ]
      (if readable p then data else [])
  else if Str.endswith p ".br" then
    reply L 200 [ ("Content-Encoding", "br");
                  ("Content-Type", Server.guess_type L p);
                  ("Content-Length", size) ]
      (if readable p then data else [])
  else if readable p then
    if Wire.not_modified O rq mt then reply L 304 [] []
    else
      reply L 200 [ ("Content-type", Server.guess_type L p);
                    ("Content-Length", size);
                    ("Last-Modified", date_time_string L (Some mt)) ] data
  else not_found L true "File not found".
Proof.
  intros Hc Hst Hslash.
  destruct (wire_stat_some _ _ _ Hst) as [Hn Hfs].
  unfold Wire.full_answer. rewrite Hc.
  change (("GET" =? "GET")%string) with true. cbv iota.
  unfold Wire.head_answer, Wire.compressed_answer, Wire.plain_answer, Wire.isdir,
    Wire.file_answer.
  rewrite Hst, Hn, Hfs, Hslash. cbv zeta.
  destruct (Str.endswith _ ".gz"); [destruct (readable _); reflexivity|].
  destruct (Str.endswith _ ".br"); [destruct (readable _); reflexivity|].
  destruct (readable _); reflexivity.
Qed.


(** *** [Content-Length] *)

Ltac length_case := first [left; reflexivity | right; reflexivity].

Lemma wire_head_answer_content_length fs readable link (rq : Wire.request) :
  Wire.cut_short L O fs readable D rq = false ->
  let r := Wire.head_answer L O fs readable link D rq true in
  header_values "Content-Length" r = []
  \/ header_values "Content-Length" r = [Str.of_Z (Z.of_nat (length (body r)))].
Proof.
  unfold Wire.cut_short. intros Hcd. cbv zeta.
  assert (forall q,
    header_values "Content-Length" (Wire.file_answer L O fs readable rq true q) = []
    \/ header_values "Content-Length" (Wire.file_answer L O fs readable rq true q) =
       [Str.of_Z (Z.of_nat (length (body (Wire.file_answer L O fs readable rq true q))))])
    as Hfile.
  { intros q. unfold Wire.file_answer, not_found, error_answer.
    destruct (Str.endswith q "/"); [length_case|].
    destruct (Wire.rejected O q); [length_case|].
    destruct (fs q) as [[data mt|es sz]|]; [|length_case|length_case].
    destruct (readable q); [|length_case].
    destruct (Wire.not_modified O rq mt); length_case. }
  assert (header_values "Content-Length"
            (Wire.plain_answer L O fs readable link D rq true) = []
    \/ header_values "Content-Length"
         (Wire.plain_answer L O fs readable link D rq true) =
       [Str.of_Z (Z.of_nat (length
          (body (Wire.plain_answer L O fs readable link D rq true))))]) as Hplain.
  { unfold Wire.plain_answer.
    destruct (Wire.isdir O fs _); [|apply Hfile].
    destruct (negb (Str.endswith _ "/")); [length_case|].
    destruct (Wire.find_index O fs _ _); [apply Hfile|].
    unfold Wire.listing_answer, not_found, error_answer.
    destruct (Wire.rejected O _); [length_case|].
    destruct (fs _) as [[data mt|es sz]|]; [length_case| |length_case].
    destruct (readable _); [|length_case].
    destruct (Wire.directory_page O _ _); length_case. }
  unfold Wire.head_answer, Wire.compressed_answer.
  destruct (Wire.stat O fs _) as [[data mt|es sz]|]; [| |apply Hplain].
  - destruct (Str.endswith _ ".gz").
    + simpl in Hcd. apply negb_false_iff in Hcd. rewrite Hcd. length_case.
    + destruct (Str.endswith _ ".br"); [|apply Hplain].
      simpl in Hcd. apply negb_false_iff in Hcd. rewrite Hcd. length_case.
  - apply orb_false_iff in Hcd as [-> ->]. apply Hplain.
Qed.

(** X3. Whenever a response to an accepted request other than [HEAD] has
    a [Content-Length], its value is the length of the body that follows,
    unless the head of a stored compressed file went out before [open]
    failed: the translated path ends in [.gz] or [.br] and is a directory
    or a file that may not be read. *)
Theorem content_length_is_body_length fs readable link (rq : Wire.request) :
  Wire.command rq <> "HEAD" ->
  Wire.cut_short L O fs readable D rq = false ->
  let r := Wire.respond L O fs readable link D rq in
  header_values "Content-Length" r = []
  \/ header_values "Content-Length" r = [Str.of_Z (Z.of_nat (length (body r)))].
Proof.
  intros Hh Hcd. cbv zeta. rewrite (respond_answer L O D).
  unfold Wire.answer, Wire.guarded.
  destruct (negb _); [|left; reflexivity].
  unfold Wire.full_answer.
  destruct (String.eqb (Wire.command rq) "GET").
  - now apply wire_head_answer_content_length.
  - apply String.eqb_neq in Hh. rewrite Hh. unfold error_answer. length_case.
Qed.

(** X4. A [GET] or [HEAD] of a path that the operating system takes and
    at which nothing exists is answered with the error page of 404 (no
    body for [HEAD]) and, unless the version is HTTP/0.9, with status 404,
    [Connection: close] and no [Content-Encoding], also when the path ends
    in [.gz] or [.br]. *)
Theorem missing_path_is_404 fs readable link (rq : Wire.request) :
  Wire.command rq = "GET" \/ Wire.command rq = "HEAD" ->
  Wire.rejected O (translate_path L D (Wire.path rq)) = false ->
  fs (translate_path L D (Wire.path rq)) = None ->
  let r := Wire.respond L O fs readable link D rq in
  (Wire.request_version rq <> "HTTP/0.9" ->
   status r = Some 404%Z
   /\ header_values "Content-Type" r = ["text/html;charset=utf-8"]
   /\ header_values "Connection" r = ["close"])
  /\ header_values "Content-Encoding" r = []
  /\ body r = if String.eqb (Wire.command rq) "GET"
              then error_page L 404 "File not found"
                     "Nothing matches the given URI"
              else [].
Proof.
  intros Hc Hn Hfs. cbv zeta.
  rewrite (respond_answer L O D). unfold Wire.answer, Wire.full_answer.
  assert (forall wb, Wire.head_answer L O fs readable link D rq wb =
                     not_found L wb "File not found") as Hh.
  { intros wb. unfold Wire.head_answer, Wire.plain_answer, Wire.isdir,
      Wire.file_answer, Wire.stat.
    rewrite Hn, Hfs. destruct (Str.endswith _ "/"); reflexivity. }
  unfold Wire.guarded.
  destruct Hc as [Hc | Hc]; rewrite Hc;
    [change (("GET" =? "GET")%string) with true
    |change (("HEAD" =? "GET")%string) with false;
     change (("HEAD" =? "HEAD")%string) with true];
    cbv iota; rewrite Hh;
    (destruct (String.eqb (Wire.request_version rq) "HTTP/0.9") eqn:Hv;
     [ split; [intros Hne; apply String.eqb_eq in Hv; contradiction|];
       split; reflexivity
     | repeat split ]).
Qed.

(** X12. A request that the parser accepts with the version HTTP/0.9 (a
    request line of two words, [GET] and a path) is answered in the format
    of HTTP/0.9: neither [send_head] nor the overridden [end_headers]
    writes anything, so there is no status line and no header, the five
    fixed ones included; a [GET] of a file that may be read is answered
    with the bytes of the file alone. *)
Theorem http09_answer_is_bare fs readable link (raw : Wire.incoming)
    (rq : Wire.request) :
  Wire.accepted L O raw = Some rq ->
  Wire.request_version rq = "HTTP/0.9" ->
  let r := Wire.handle L O fs readable link D raw in
  let p := translate_path L D (Wire.path rq) in
  status r = None
  /\ headers r = []
  /\ (forall data mt,
        Wire.command rq = "GET" ->
        Wire.stat O fs p = Some (File data mt) ->
        Str.endswith p "/" = false ->
        readable p = true ->
        Wire.not_modified O rq mt = false ->
        body r = data).
Proof.
  intros Ha Hv. cbv zeta.
  rewrite (handle_accepted L O D _ _ _ _ _ Ha).
  unfold Wire.answer. rewrite guarded_status, guarded_headers, guarded_body.
  apply String.eqb_eq in Hv. rewrite Hv.
  split; [reflexivity|]. split; [reflexivity|].
  intros data mt Hc Hst Hsl Hr Hnm.
  rewrite (full_answer_get_file fs readable link rq data mt Hc Hst Hsl).
  cbv zeta. rewrite Hr, Hnm.
  destruct (Str.endswith _ ".gz"); [reflexivity|].
  destruct (Str.endswith _ ".br"); reflexivity.
Qed.

(** X17. A file whose name ends in [.gz] or [.br] and that exists but may
    not be read is taken for a stored compressed file all the same: the
    200 head with [Content-Encoding] and the size of the file as
    [Content-Length] goes out, then [open] fails and no body follows. *)
Theorem unreadable_compressed_file fs readable link (rq : Wire.request) data mt :
  Wire.command rq = "GET" \/ Wire.command rq = "HEAD" ->
  Wire.request_version rq <> "HTTP/0.9" ->
  Wire.stat O fs (translate_path L D (Wire.path rq)) = Some (File data mt) ->
  readable (translate_path L D (Wire.path rq)) = false ->
  Str.endswith (translate_path L D (Wire.path rq)) ".gz"
  || Str.endswith (translate_path L D (Wire.path rq)) ".br" = true ->
  let r := Wire.respond L O fs readable link D rq in
  status r = Some 200%Z
  /\ header_values "Content-Encoding" r
     = [if Str.endswith (translate_path L D (Wire.path rq)) ".gz"
        then "gzip" else "br"]
  /\ header_values "Content-Length" r = [Str.of_Z (Z.of_nat (length data))]
  /\ body r = [].
Proof.
  intros Hc Hv Hst Hr Hsuf. cbv zeta.
  rewrite (respond_answer L O D). unfold Wire.answer, Wire.guarded.
  apply String.eqb_neq in Hv. rewrite Hv. cbn [negb].
  assert (forall wb, Wire.head_answer L O fs readable link D rq wb =
    reply L 200
      [ ("Content-Encoding",
         if Str.endswith (translate_path L D (Wire.path rq)) ".gz"
         then "gzip" else "br");
        ("Content-Type", Server.guess_type L (translate_path L D (Wire.path rq)));
        ("Content-Length", Str.of_Z (Z.of_nat (length data))) ] []) as Hh.
  { intros wb. unfold Wire.head_answer, Wire.compressed_answer. rewrite Hst, Hr.
    destruct (Str.endswith _ ".gz"); [reflexivity|].
    simpl in Hsuf. rewrite Hsuf. reflexivity. }
  unfold Wire.full_answer.
  destruct Hc as [Hc | Hc]; rewrite Hc;
    [change (("GET" =? "GET")%string) with true
    |change (("HEAD" =? "GET")%string) with false;
     change (("HEAD" =? "HEAD")%string) with true];
    cbv iota; rewrite Hh; repeat split.
Qed.

End WireFiles.

(** ** The file system outside the root, with symbolic links *)

Section WireAgreement.

Import Reference.

Variable L : pylib.
Variable O : Wire.oslib.
Variable D : string.
Variables fs1 fs2 : filesystem.
Variable readable : string -> bool.
Variable link : string -> bool.
Hypothesis listing : listing_wf fs1.
Hypothesis agree : forall p, inside D p -> fs1 p = fs2 p.

Lemma wire_stat_agree p : inside D p -> Wire.stat O fs1 p = Wire.stat O fs2 p.
Proof. intros H. unfold Wire.stat. now rewrite (agree p H). Qed.

Lemma wire_isdir_agree p : inside D p -> Wire.isdir O fs1 p = Wire.isdir O fs2 p.
Proof. intros H. unfold Wire.isdir. now rewrite (wire_stat_agree p H). Qed.

Lemma wire_find_index_agree p :
  inside D p ->
  Wire.find_index O fs1 p ["index.html"; "index.htm"] =
  Wire.find_index O fs2 p ["index.html"; "index.htm"].
Proof.
  intros H. unfold Wire.find_index, Wire.isfile.
  rewrite (wire_stat_agree (Posixpath.join p "index.html")),
    (wire_stat_agree (Posixpath.join p "index.htm"));
    try (apply inside_join; [assumption | reflexivity]).
  reflexivity.
Qed.

Lemma wire_find_index_inside fs p index :
  inside D p ->
  Wire.find_index O fs p ["index.html"; "index.htm"] = Some index ->
  inside D index.
Proof.
  intros H. unfold Wire.find_index.
  destruct (Wire.isfile O fs (Posixpath.join p "index.html")).
  - intros [= <-]. apply inside_join; [assumption | reflexivity].
  - destruct (Wire.isfile O fs (Posixpath.join p "index.htm")); [|discriminate].
    intros [= <-]. apply inside_join; [assumption | reflexivity].
Qed.

Lemma wire_file_answer_agree rq wb q :
  inside D q ->
  Wire.file_answer L O fs1 readable rq wb q =
  Wire.file_answer L O fs2 readable rq wb q.
Proof. intros H. unfold Wire.file_answer. now rewrite (agree q H). Qed.

Lemma wire_listing_answer_agree rq wb q :
  inside D q ->
  Wire.listing_answer L O fs1 readable link rq wb q =
  Wire.listing_answer L O fs2 readable link rq wb q.
Proof.
  intros H. unfold Wire.listing_answer. pose proof (agree q H) as Hq.
  rewrite <- Hq. destruct (Wire.rejected O q); [reflexivity|].
  destruct (fs1 q) as [[data mt|es sz]|] eqn:E; try reflexivity.
  destruct (readable q); [|reflexivity].
  cbv zeta. pose proof (listing q es sz E) as Hes.
  rewrite forallb_forall in Hes.
  assert (map (fun name => (name, Wire.isdir O fs1 (Posixpath.join q name),
                            Wire.islink O link (Posixpath.join q name))) es =
          map (fun name => (name, Wire.isdir O fs2 (Posixpath.join q name),
                            Wire.islink O link (Posixpath.join q name))) es) as ->.
  { apply map_ext_in. intros name Hin. f_equal. f_equal. apply wire_isdir_agree.
    apply inside_join; auto. }
  reflexivity.
Qed.

Lemma wire_answer_agree rq :
  Wire.answer L O fs1 readable link D rq = Wire.answer L O fs2 readable link D rq.
Proof.
  pose proof (translate_path_inside L D (Wire.path rq)) as Hp.
  assert (forall wb, Wire.plain_answer L O fs1 readable link D rq wb =
                     Wire.plain_answer L O fs2 readable link D rq wb) as Hplain.
  { intros wb. unfold Wire.plain_answer.
    rewrite (wire_isdir_agree _ Hp), (wire_find_index_agree _ Hp).
    destruct (Wire.isdir O fs2 _); [|now apply wire_file_answer_agree].
    destruct (negb _); [reflexivity|].
    destruct (Wire.find_index O fs2 _ _) as [index|] eqn:E.
    - apply wire_file_answer_agree. rewrite <- (wire_find_index_agree _ Hp) in E.
      eapply wire_find_index_inside; eauto.
    - now apply wire_listing_answer_agree. }
  assert (forall wb, Wire.head_answer L O fs1 readable link D rq wb =
                     Wire.head_answer L O fs2 readable link D rq wb) as Hhead.
  { intros wb. unfold Wire.head_answer.
    rewrite (wire_stat_agree _ Hp), Hplain. reflexivity. }
  unfold Wire.answer, Wire.full_answer. now rewrite !Hhead.
Qed.

Lemma wire_handle_agree raw :
  Wire.handle L O fs1 readable link D raw = Wire.handle L O fs2 readable link D raw.
Proof.
  rewrite !(handle_verdict L O D).
  destruct (Wire.verdict L O raw); [reflexivity|].
  rewrite !(respond_answer L O D). apply wire_answer_agree.
Qed.

End WireAgreement.

Section WireLinks.

Import Reference.

Variable L : pylib.
Variable O : Wire.oslib.
Variable D : string.


End WireLinks.

(** ** The two models of the handler *)

Section WireAndServer.

Import Reference.

Variable L : pylib.
Variable O : Wire.oslib.
Variable D : string.
Variable fs : filesystem.
Variables readable link : string -> bool.

Hypothesis all_readable : forall p, readable p = true.
Hypothesis all_encodable : forall p, Wire.fsencodable O p = true.
Hypothesis no_links : forall p, link p = false.
Hypothesis same_page : forall displaypath entries,
  Wire.directory_page O displaypath
    (map (fun e => (fst e, snd e, false)) entries)
  = Some (listing_page L displaypath entries).

Lemma rejected_has_nul p : Wire.rejected O p = has_nul p.
Proof. unfold Wire.rejected. rewrite all_encodable. apply orb_false_r. Qed.

Lemma wire_stat_stat p : Wire.stat O fs p = stat fs p.
Proof. unfold Wire.stat, stat. now rewrite rejected_has_nul. Qed.

Lemma wire_not_modified rq mt :
  Wire.not_modified O rq mt = not_modified (Wire.as_dispatched O rq) mt.
Proof.
  unfold Wire.not_modified, not_modified, Wire.as_dispatched,
    Wire.conditional_time, if_modified_since.
  destruct (Wire.If_Modified_Since _); [|reflexivity].
  destruct (negb _); [|reflexivity].
  destruct (Wire.parsedate_to_datetime O _) as [[[| |] t]|]; reflexivity.
Qed.

Lemma wire_file_answer rq wb q :
  Wire.file_answer L O fs readable rq wb q =
  file_answer L fs (Wire.as_dispatched O rq) wb q.
Proof.
  unfold Wire.file_answer, file_answer.
  rewrite rejected_has_nul, all_readable.
  destruct (Str.endswith q "/"); [reflexivity|].
  destruct (has_nul q); [reflexivity|].
  destruct (fs q) as [[data mt|es sz]|]; try reflexivity.
  now rewrite wire_not_modified.
Qed.

Lemma wire_listing_answer rq wb q :
  Wire.listing_answer L O fs readable link rq wb q =
  listing_answer L fs (Wire.as_dispatched O rq) wb q.
Proof.
  unfold Wire.listing_answer, listing_answer.
  rewrite rejected_has_nul, all_readable.
  destruct (has_nul q); [reflexivity|].
  destruct (fs q) as [[data mt|es sz]|]; try reflexivity.
  cbv zeta.
  assert (map (fun name =>
                 (name, Wire.isdir O fs (Posixpath.join q name),
                  Wire.islink O link (Posixpath.join q name))) es =
          map (fun x =>
                 (fst (x, isdir fs (Posixpath.join q x)),
                  snd (x, isdir fs (Posixpath.join q x)), false)) es) as ->.
  { apply map_ext. intros name. unfold Wire.isdir, isdir, Wire.islink. simpl.
    rewrite wire_stat_stat, no_links. now destruct (Wire.rejected O _). }
  rewrite <- map_map with (f := fun name => (name, isdir fs (Posixpath.join q name)))
                          (g := fun e => (fst e, snd e, false)).
  now rewrite same_page.
Qed.

Lemma wire_find_index p :
  Wire.find_index O fs p ["index.html"; "index.htm"] =
  find_index fs p ["index.html"; "index.htm"].
Proof.
  unfold Wire.find_index, find_index, Wire.isfile, isfile.
  now rewrite !wire_stat_stat.
Qed.

(** The handler of module [Server] is the handler of module [Wire] on a
    request with a version other than HTTP/0.9. *)
Lemma respond_handle (rq : Wire.request) :
  Wire.request_version rq <> "HTTP/0.9" ->
  Wire.respond L O fs readable link D rq =
  Server.handle L fs D (Wire.as_dispatched O rq).
Proof.
  intros Hv. rewrite (respond_answer L O D), handle_answer.
  unfold Wire.answer, Wire.guarded. apply String.eqb_neq in Hv. rewrite Hv.
  cbn [negb].
  assert (forall wb, Wire.plain_answer L O fs readable link D rq wb =
                     plain_answer L fs D (Wire.as_dispatched O rq) wb) as Hplain.
  { intros wb. unfold Wire.plain_answer, plain_answer, Wire.isdir, isdir.
    cbn [path Wire.as_dispatched].
    rewrite wire_stat_stat, wire_find_index.
    destruct (stat fs _) as [[data mt|es sz]|]; try apply wire_file_answer.
    destruct (negb _); [reflexivity|].
    destruct (find_index fs _ _); [apply wire_file_answer|].
    apply wire_listing_answer. }
  assert (forall wb, Wire.head_answer L O fs readable link D rq wb =
                     head_answer L fs D (Wire.as_dispatched O rq) wb) as Hhead.
  { intros wb. unfold Wire.head_answer, head_answer, Wire.compressed_answer,
      compressed_answer.
    cbn [path Wire.as_dispatched].
    rewrite wire_stat_stat, all_readable, !Hplain. reflexivity. }
  unfold Wire.full_answer, answer. cbn [command path Wire.as_dispatched].
  now rewrite !Hhead.
Qed.

End WireAndServer.

(** ** The handler on sample traffic *)

Section WireInstances.

Import Reference.



(** C6 as stated fails: [POST] is answered 501. *)
Lemma other_methods_counterexample :
  ~ (forall (L : pylib) (O : Wire.oslib) (fs : filesystem)
            (readable link : string -> bool) (D : string) (raw : Wire.incoming)
            (rq : Wire.request),
       Wire.accepted L O raw = Some rq ->
       Wire.command rq <> "GET" -> Wire.command rq <> "HEAD" ->
       Wire.command rq <> "OPTIONS" ->
       status (Wire.handle L O fs readable link D raw) = Some 405%Z).
Proof.
  intros H.
  assert (status (Wire.handle Sample.lib Traffic.os Sample.disk Traffic.all
                    Traffic.none "Build"
                    (Traffic.line "POST /index.html HTTP/1.1")) = Some 405%Z) as Hs.
  { eapply H; [reflexivity | discriminate | discriminate | discriminate]. }
  vm_compute in Hs. discriminate Hs.
Qed.

(** C6 as amended, on [POST /index.html HTTP/1.1]. *)
Lemma other_methods_not_implemented_witness :
  status (Wire.handle Sample.lib Traffic.os Sample.disk Traffic.all Traffic.none
            "Build" (Traffic.line "POST /index.html HTTP/1.1")) = Some 501%Z.
Proof.
  refine (proj1 (other_methods_not_implemented Sample.lib Traffic.os "Build"
                   Sample.disk Traffic.all Traffic.none
                   (Traffic.line "POST /index.html HTTP/1.1") _ _ _));
    discriminate.
Defined.

(** C7 as stated fails: [/../../etc/passwd] leaves the root by plain
    normalization and is answered 404. *)
Lemma traversal_counterexample :
  ~ (forall (L : pylib) (O : Wire.oslib) (fs : filesystem)
            (readable link : string -> bool) (D : string) (raw : Wire.incoming)
            (rq : Wire.request),
       Wire.accepted L O raw = Some rq ->
       resolves_outside D (Wire.path rq) = true ->
       status (Wire.handle L O fs readable link D raw) = Some 403%Z).
Proof.
  intros H.
  assert (status (Wire.handle Sample.lib Traffic.os Sample.disk Traffic.all
                    Traffic.none "Build"
                    (Traffic.line "GET /../../etc/passwd HTTP/1.1")) = Some 403%Z)
    as Hs.
  { eapply H; reflexivity. }
  vm_compute in Hs. discriminate Hs.
Qed.

(** C7 as amended, on [GET /../../etc/passwd HTTP/1.1]. *)
Lemma traversal_is_sanitized_witness :
  resolves_outside "Build" "/../../etc/passwd" = true
  /\ translate_path Sample.lib "Build" "/../../etc/passwd" = "Build/etc/passwd"
  /\ inside "Build" "Build/etc/passwd"
  /\ status (Wire.handle Sample.lib Traffic.os Sample.disk Traffic.all Traffic.none
               "Build" (Traffic.line "GET /../../etc/passwd HTTP/1.1"))
     <> Some 403%Z.
Proof.
  destruct (traversal_is_sanitized Sample.lib Traffic.os "Build" Sample.disk
              Traffic.all Traffic.none
              (Traffic.line "GET /../../etc/passwd HTTP/1.1") _
              eq_refl eq_refl) as [Hi Hs].
  split; [reflexivity|]. split; [reflexivity|]. split; [exact Hi | exact Hs].
Defined.



Lemma linked_listing_wf : listing_wf Traffic.disk.
Proof.
  intros p es sz H. unfold Traffic.disk, Wire.through in H.
  exact (sample_listing_wf _ _ _ H).
Qed.



Lemma content_length_is_body_length_witness :
  let r := Wire.respond Sample.lib Traffic.os Sample.disk Traffic.all Traffic.none
             "Build" (Traffic.get "/x.wasm" Traffic.no_headers) in
  header_values "Content-Length" r = []
  \/ header_values "Content-Length" r = [Str.of_Z (Z.of_nat (length (body r)))].
Proof.
  apply (content_length_is_body_length Sample.lib Traffic.os "Build" Sample.disk
           Traffic.all Traffic.none (Traffic.get "/x.wasm" Traffic.no_headers));
    [discriminate | reflexivity].
Defined.

Lemma missing_path_is_404_witness :
  let r := Wire.respond Sample.lib Traffic.os Sample.disk Traffic.all Traffic.none
             "Build" (Traffic.get "/nope.js.gz" Traffic.no_headers) in
  status r = Some 404%Z /\ header_values "Content-Encoding" r = [].
Proof.
  destruct (missing_path_is_404 Sample.lib Traffic.os "Build" Sample.disk
              Traffic.all Traffic.none
              (Traffic.get "/nope.js.gz" Traffic.no_headers)
              (or_introl eq_refl) eq_refl eq_refl)
    as (Hs & He & _).
  split; [|exact He].
  refine (proj1 (Hs _)). discriminate.
Defined.

Lemma http09_answer_is_bare_witness :
  let r := Wire.handle Sample.lib Traffic.os Sample.disk Traffic.all Traffic.none
             "Build" (Traffic.line "GET /index.html") in
  status r = None /\ headers r = [] /\ body r = Sample.bytes "<html></html>".
Proof.
  destruct (http09_answer_is_bare Sample.lib Traffic.os "Build" Sample.disk
              Traffic.all Traffic.none (Traffic.line "GET /index.html") _
              eq_refl eq_refl) as (Hs & Hh & Hb).
  split; [exact Hs|]. split; [exact Hh|].
  exact (Hb _ _ eq_refl eq_refl eq_refl eq_refl eq_refl).
Defined.

Lemma unreadable_compressed_file_witness :
  let r := Wire.respond Sample.lib Traffic.os Sample.disk Traffic.locked
             Traffic.none "Build" (Traffic.get "/x.js.gz" Traffic.no_headers) in
  status r = Some 200%Z
  /\ header_values "Content-Length" r = ["14"]
  /\ body r = [].
Proof.
  assert ("HTTP/1.1" <> "HTTP/0.9") as Hv by discriminate.
  destruct (unreadable_compressed_file Sample.lib Traffic.os "Build" Sample.disk
              Traffic.locked Traffic.none
              (Traffic.get "/x.js.gz" Traffic.no_headers) _ _
              (or_introl eq_refl) Hv eq_refl eq_refl eq_refl)
    as (Hs & _ & Hl & Hb).
  split; [exact Hs|]. split; [exact Hl | exact Hb].
Defined.

End WireInstances.
